(** * Promogen: the CAPTCHA-solving and submission pipeline of [main.go]

    A shallow embedding of the functions of [main.go] that solve a CAPTCHA
    through one of two providers, submit the promo entry and drive one
    submission cycle, followed by the properties of the specification that
    concern them.

    The program talks to the outside through HTTP round trips, the clock,
    standard input, the system's random source and one log file.  All of
    these live in a [World] value that every effectful function threads:
    the world scripts what the environment will answer and records what the
    program did (the requests it issued, the log lines it wrote).

    Left out: what the program prints ([fmt.Printf], [debugPrint]), which
    no function reads back, and the errors of [json.Marshal] and of
    [http.NewRequest] on a constant URL, which cannot occur for the values
    the program passes. *)

From Stdlib Require Import ZArith List String Ascii Bool Lia.
From Stdlib Require Import Floats.PrimFloat Numbers.Cyclic.Int63.Uint63.
Import ListNotations.

Open Scope string_scope.
Open Scope Z_scope.

(** ** Go values *)

(** [float64] is Rocq's primitive binary64 float; [int] is [Z] (the loop
    counters and status codes of this program stay far from 2^63). *)
Definition float64 := PrimFloat.float.

(** [float64(x)] for an [int64] [x]. *)
Definition float64_of_int (x : Z) : float64 :=
  if x <? 0 then PrimFloat.opp (PrimFloat.of_uint63 (Uint63.of_Z (- x)))
  else PrimFloat.of_uint63 (Uint63.of_Z x).

(** [time.Second], in nanoseconds, the unit of [time.Duration]. *)
Definition Second : Z := 1000000000.

(** [Duration.Seconds]: [float64(d / Second) + float64(d % Second) / 1e9]
    with Go's truncated division. *)
Definition Seconds (d : Z) : float64 :=
  PrimFloat.add (float64_of_int (Z.quot d Second))
                (PrimFloat.div (float64_of_int (Z.rem d Second)) 1e9%float).

(** The double quote character, for the string literals that contain it. *)
Definition dq : string := String "034"%char EmptyString.
Definition quoted (s : string) : string := dq ++ s ++ dq.

(** ** JSON documents

    Bodies are kept as parsed documents: the lexical layer of
    [encoding/json] is not modelled, its decoding rules are. *)
#[local] Unset Elimination Schemes.
Inductive json : Type :=
| JNull
| JBool (b : bool)
| JInt (z : Z)               (* a number literal without fraction or exponent *)
| JReal (literal : string)   (* any other number literal *)
| JString (s : string)
| JArray (items : list json)
| JObject (members : list (string * json)).
#[local] Set Elimination Schemes.

Definition lowerAscii (c : ascii) : ascii :=
  let n := nat_of_ascii c in
  if ((65 <=? n) && (n <=? 90))%nat then ascii_of_nat (n + 32) else c.

Fixpoint toLower (s : string) : string :=
  match s with
  | EmptyString => EmptyString
  | String c rest => String (lowerAscii c) (toLower rest)
  end.

(** [foldName] of [encoding/json], on the UTF-8 bytes of a name.  Names
    are compared after case folding: the two cases of an ASCII letter fold
    together, and so do the two other runes that fold with an ASCII
    letter, the long s U+017F (bytes 197 191) with s and the Kelvin sign
    U+212A (bytes 226 132 170) with k.  Every other rune folds with runes
    outside ASCII only, and its bytes are left as they are: the tags of
    this program are ASCII, so a name with such a rune matches none. *)
Fixpoint foldName (s : string) : string :=
  match s with
  | EmptyString => EmptyString
  | String c rest =>
      match rest with
      | EmptyString => String (lowerAscii c) EmptyString
      | String c1 rest1 =>
          if Ascii.eqb c "197" && Ascii.eqb c1 "191" then
            String "s" (foldName rest1)
          else
            match rest1 with
            | EmptyString => String (lowerAscii c) (foldName rest)
            | String c2 rest2 =>
                if Ascii.eqb c "226" && Ascii.eqb c1 "132"
                   && Ascii.eqb c2 "170" then
                  String "k" (foldName rest2)
                else String (lowerAscii c) (foldName rest)
            end
      end
  end.

(** A JSON key selects a struct field when it equals the field's tag after
    folding. *)
Definition keyMatches (tag key : string) : bool :=
  String.eqb (foldName tag) (foldName key).

(** Decoding into a Go [string]: [null] leaves the old value, any other
    non-string is an [UnmarshalTypeError]. *)
Definition decodeString (v : json) (old : string) : option string :=
  match v with
  | JString s => Some s
  | JNull => Some old
  | _ => None
  end.

Definition minInt64 : Z := - 2 ^ 63.
Definition maxInt64 : Z := 2 ^ 63 - 1.

(** Decoding into a Go [int]. *)
Definition decodeInt (v : json) (old : Z) : option Z :=
  match v with
  | JInt z => if (minInt64 <=? z) && (z <=? maxInt64) then Some z else None
  | JNull => Some old
  | _ => None
  end.

(** The members of an object are applied to the struct from left to right;
    [None] stands for a non-nil error of [Decode]. *)
Fixpoint decodeMembers {T : Type} (field : string -> json -> T -> option T)
    (members : list (string * json)) (acc : T) : option T :=
  match members with
  | [] => Some acc
  | (k, v) :: rest =>
      match field k v acc with
      | Some acc' => decodeMembers field rest acc'
      | None => None
      end
  end.

(** Decoding into a struct whose current value is [zero]. *)
Definition decodeStruct {T : Type} (field : string -> json -> T -> option T)
    (v : json) (zero : T) : option T :=
  match v with
  | JObject members => decodeMembers field members zero
  | JNull => Some zero
  | _ => None
  end.

(** ** HTTP messages *)

Record Cookie : Type := { Name : string; Value : string }.

(** The body of a response as the program can observe it. *)
Inductive Payload : Type :=
| Unreadable                (* reading the body fails *)
| Text (raw : string)       (* bytes that do not start with a JSON value *)
| Document (v : json).      (* bytes that parse as the JSON value [v] *)

Record Response : Type := {
  StatusCode : Z;
  Cookies : list Cookie;    (* [resp.Cookies()], in header order *)
  Body : Payload
}.

Inductive Content : Type :=
| JSONBody (v : json)
| FormBody (fields : list (string * string)).

Record Request : Type := {
  Method : string;
  URL : string;
  Header : list (string * string);
  Payload_ : Content;
  Proxy : option string     (* the proxy URL of the client's transport *)
}.

(** ** Configuration *)

Record Config : Type := {
  CloudflareAPIToken : string;
  EZCaptchaAPIKey : string;
  TwoCaptchaAPIKey : string;
  RecaptchaSiteKey : string;
  EmailDomain : string;
  CloudflareZoneID : string;
  ForwardToEmail : string;
  MonsterPromoURL : string;
  MonsterSubmitURL : string;
  UseProxy : bool;
  ProxyUsername : string;
  ProxyPassword : string;
  ProxyDNS : string;
  ProxyPort : string;
  UseCloudflareEmail : bool;
  DebugMode : bool;
  UseTwoCaptcha : bool;
  MaxCaptchaRetries : Z;
  CaptchaTimeout : float64
}.

Definition cloudflareAPIBaseURL : string := "https://api.cloudflare.com/client/v4".
Definition ezCaptchaBaseURL : string := "https://api.ez-captcha.com".
Definition twoCaptchaBaseURL : string := "https://api.2captcha.com".

Definition isEmpty (s : string) : bool := String.eqb s "".

(** [validateConfig]: [None] is [log.Fatal]; otherwise the configuration
    with its two defaults filled in. *)
Definition validateConfig (c : Config) : option Config :=
  if isEmpty (CloudflareAPIToken c) then None
  else if isEmpty (EZCaptchaAPIKey c) && isEmpty (TwoCaptchaAPIKey c) then None
  else if isEmpty (RecaptchaSiteKey c) then None
  else if isEmpty (EmailDomain c) then None
  else if isEmpty (CloudflareZoneID c) then None
  else if isEmpty (ForwardToEmail c) then None
  else if isEmpty (MonsterPromoURL c) || isEmpty (MonsterSubmitURL c) then None
  else
    Some {| CloudflareAPIToken := CloudflareAPIToken c;
            EZCaptchaAPIKey := EZCaptchaAPIKey c;
            TwoCaptchaAPIKey := TwoCaptchaAPIKey c;
            RecaptchaSiteKey := RecaptchaSiteKey c;
            EmailDomain := EmailDomain c;
            CloudflareZoneID := CloudflareZoneID c;
            ForwardToEmail := ForwardToEmail c;
            MonsterPromoURL := MonsterPromoURL c;
            MonsterSubmitURL := MonsterSubmitURL c;
            UseProxy := UseProxy c;
            ProxyUsername := ProxyUsername c;
            ProxyPassword := ProxyPassword c;
            ProxyDNS := ProxyDNS c;
            ProxyPort := ProxyPort c;
            UseCloudflareEmail := UseCloudflareEmail c;
            DebugMode := DebugMode c;
            UseTwoCaptcha := UseTwoCaptcha c;
            MaxCaptchaRetries :=
              if MaxCaptchaRetries c =? 0 then 5 else MaxCaptchaRetries c;
            CaptchaTimeout :=
              if PrimFloat.eqb (CaptchaTimeout c) 0%float then 120%float
              else CaptchaTimeout c |}.

(** ** Errors

    One constructor per place where the program makes an error value; the
    arguments are the values its message is formatted from. *)
Inductive error : Type :=
| TransportError (reason : string)      (* from [http.Post], [client.Do] *)
| JSONError                             (* from [Decoder.Decode] *)
| BodyReadError                         (* from [io.ReadAll] *)
| URLError (url : string)               (* from [url.Parse], [http.NewRequest] *)
| EntropyError                          (* from [rand.Int] *)
| CaptchaTimedOut (timeout : float64)   (* captcha solving timed out after %.2f seconds *)
| CaptchaAttemptsFailed (attempts : Z)  (* captcha solving failed after %d attempts *)
| PromoStatus (code : Z)                (* promo submission failed with status code: %d *)
| AdditionalPromoStatus (code : Z)      (* additional promo submission failed with status code: %d *)
| AliasStatus (code : Z) (body : Payload)
| Wrapped (context : string) (cause : error).  (* fmt.Errorf("<context>: %v", err) *)

Inductive result (A : Type) : Type :=
| Ok (a : A)
| Err (e : error).
Arguments Ok {A} a.
Arguments Err {A} e.

(** ** The world *)

(** One HTTP round trip as the environment will play it: how long the call
    blocks (nanoseconds) and what comes back. *)
Inductive Outcome : Type :=
| Refused (reason : string)
| Replied (r : Response).

Record Exchange : Type := { took : Z; outcome : Outcome }.

(** What opening and appending to [submissions.log] will do. *)
Inductive Disk : Type := DiskOK | OpenFails | WriteFails.

Record LogEntry : Type := { loggedAt : Z; loggedEmail : string }.

Record World : Type := {
  clock : Z;                      (* the monotonic clock, nanoseconds *)
  network : list Exchange;        (* the round trips to come *)
  requests : list Request;        (* the requests issued so far, oldest first *)
  stdin : list string;            (* the lines to be typed, already trimmed *)
  entropy : list (option nat);    (* the draws of [rand.Int] to come *)
  disk : Disk;
  submissionsLog : list LogEntry  (* the entries appended to the log file *)
}.

(** A computation with effects on the world that may end in an error. *)
Definition IO (A : Type) : Type := World -> result A * World.

Definition ret {A : Type} (a : A) : IO A := fun w => (Ok a, w).
Definition fail {A : Type} (e : error) : IO A := fun w => (Err e, w).
Definition bind {A B : Type} (m : IO A) (k : A -> IO B) : IO B :=
  fun w =>
    match m w with
    | (Ok a, w') => k a w'
    | (Err e, w') => (Err e, w')
    end.

Notation "x <- m ;; k" := (bind m (fun x => k))
  (at level 61, m at next level, right associativity).
Notation "m ;;; k" := (bind m (fun _ => k))
  (at level 61, right associativity).

(** [time.Now()], as a reading of the monotonic clock. *)
Definition timeNow : IO Z := fun w => (Ok (clock w), w).

(** [time.Sleep(d)].  The clock moves by [d]; a later wake-up is part of
    the [took] of the round trip that follows. *)
Definition timeSleep (d : Z) : IO unit := fun w =>
  (Ok tt,
   {| clock := clock w + d; network := network w; requests := requests w;
      stdin := stdin w; entropy := entropy w; disk := disk w;
      submissionsLog := submissionsLog w |}).

(** [client.Do(req)]: the request is recorded and the next scripted round
    trip is played.  A script that has run out refuses the connection. *)
Definition clientDo (req : Request) : IO Response := fun w =>
  match network w with
  | [] =>
      (Err (TransportError "connection refused"),
       {| clock := clock w; network := []; requests := requests w ++ [req];
          stdin := stdin w; entropy := entropy w; disk := disk w;
          submissionsLog := submissionsLog w |})
  | x :: rest =>
      let w' :=
        {| clock := clock w + took x; network := rest;
           requests := requests w ++ [req];
           stdin := stdin w; entropy := entropy w; disk := disk w;
           submissionsLog := submissionsLog w |} in
      match outcome x with
      | Refused reason => (Err (TransportError reason), w')
      | Replied r => (Ok r, w')
      end
  end.

(** [http.Post(url, "application/json", body)] on the default client. *)
Definition httpPostJSON (url : string) (body : json) : IO Response :=
  clientDo {| Method := "POST"; URL := url;
              Header := [("Content-Type", "application/json")];
              Payload_ := JSONBody body; Proxy := None |}.

(** [json.NewDecoder(resp.Body).Decode(&v)] for a struct [v]. *)
Definition decodeBody {T : Type} (field : string -> json -> T -> option T)
    (zero : T) (resp : Response) : IO T :=
  match Body resp with
  | Document v =>
      match decodeStruct field v zero with
      | Some t => ret t
      | None => fail JSONError
      end
  | _ => fail JSONError
  end.

(** [io.ReadAll(resp.Body)]. *)
Definition ioReadAll (resp : Response) : IO Payload :=
  match Body resp with
  | Unreadable => fail BodyReadError
  | b => ret b
  end.

(** What happens to the world, spelled once. *)
Definition popStdin (w : World) : World :=
  {| clock := clock w; network := network w; requests := requests w;
     stdin := tl (stdin w); entropy := entropy w; disk := disk w;
     submissionsLog := submissionsLog w |}.

Definition popEntropy (w : World) : World :=
  {| clock := clock w; network := network w; requests := requests w;
     stdin := stdin w; entropy := tl (entropy w); disk := disk w;
     submissionsLog := submissionsLog w |}.

Definition appendLog (e : LogEntry) (w : World) : World :=
  {| clock := clock w; network := network w; requests := requests w;
     stdin := stdin w; entropy := entropy w; disk := disk w;
     submissionsLog := submissionsLog w ++ [e] |}.

(** [fmt.Errorf("<context>: %v", err)] around a failing call. *)
Definition wrap {A : Type} (context : string) (m : IO A) : IO A := fun w =>
  match m w with
  | (Err e, w') => (Err (Wrapped context e), w')
  | r => r
  end.

(** [rand.Int(rand.Reader, max)]: a draw below [max], or an error. *)
Definition randInt (max : nat) : IO nat := fun w =>
  match entropy w with
  | Some n :: _ => (Ok (n mod max)%nat, popEntropy w)
  | None :: _ => (Err EntropyError, popEntropy w)
  | [] => (Err EntropyError, w)
  end.

(** [getUserInput]: the next line of standard input, trimmed; the read
    error at end of input is dropped by the program. *)
Definition getUserInput (prompt : string) : IO string := fun w =>
  match stdin w with
  | line :: _ => (Ok line, popStdin w)
  | [] => (Ok "", w)
  end.

(** [logSubmission]: no error leaves the function. *)
Definition logSubmission (email : string) : IO unit := fun w =>
  match disk w with
  | DiskOK => (Ok tt, appendLog {| loggedAt := clock w; loggedEmail := email |} w)
  | _ => (Ok tt, w)
  end.

Definition charset : string := "abcdefghijklmnopqrstuvwxyz0123456789".

Definition charsetAt (n : nat) : ascii :=
  match String.get n charset with
  | Some c => c
  | None => " "%char
  end.

Fixpoint generateRandomAlias (length : nat) : IO string :=
  match length with
  | O => ret ""
  | S k =>
      n <- randInt 36 ;;
      rest <- generateRandomAlias k ;;
      ret (String (charsetAt n) rest)
  end.

(** ** The result of a solving task *)

(** [eZCaptchaResult]; [Solution.GRecaptchaResponse] is flattened. *)
Record eZCaptchaResult : Type := {
  Status : string;
  GRecaptchaResponse : string
}.

(** [twoCaptchaResult] is the same struct under another name. *)
Definition twoCaptchaResult : Type := eZCaptchaResult.

Definition zeroResult : eZCaptchaResult :=
  {| Status := ""; GRecaptchaResponse := "" |}.

Definition solutionField (k : string) (v : json) (token : string)
  : option string :=
  if keyMatches "gRecaptchaResponse" k then decodeString v token
  else Some token.

Definition resultField (k : string) (v : json) (r : eZCaptchaResult)
  : option eZCaptchaResult :=
  if keyMatches "status" k then
    match decodeString v (Status r) with
    | Some s => Some {| Status := s; GRecaptchaResponse := GRecaptchaResponse r |}
    | None => None
    end
  else if keyMatches "solution" k then
    match decodeStruct solutionField v (GRecaptchaResponse r) with
    | Some t => Some {| Status := Status r; GRecaptchaResponse := t |}
    | None => None
    end
  else Some r.

(** The anonymous [createTaskResult] structs: one [TaskID] field, a
    [string] for EZ-Captcha and an [int] for 2Captcha. *)
Definition taskIDStringField (k : string) (v : json) (old : string)
  : option string :=
  if keyMatches "taskId" k then decodeString v old else Some old.

Definition taskIDIntField (k : string) (v : json) (old : Z) : option Z :=
  if keyMatches "taskId" k then decodeInt v old else Some old.

(** ** The program *)

Section Program.

(** Two functions of Go's library are taken as they are: whether
    [url.Parse] accepts a string, and [Time.Format(time.RFC3339)]. *)
Variable urlParses : string -> bool.
Variable formatRFC3339 : Z -> string.

Variable config : Config.

(** [http.NewRequest(method, url, body)]. *)
Definition newRequest (method url : string) (body : Content)
    (proxy : option string) : IO Request :=
  if urlParses url then
    ret {| Method := method; URL := url; Header := [];
           Payload_ := body; Proxy := proxy |}
  else fail (URLError url).

(** [req.Header.Add(key, value)] (and [Set] on a header not yet there). *)
Definition headerAdd (key value : string) (req : Request) : Request :=
  {| Method := Method req; URL := URL req;
     Header := Header req ++ [(key, value)];
     Payload_ := Payload_ req; Proxy := Proxy req |}.

Definition createCloudflareEmailAlias : IO string :=
  randomAlias <- wrap "error generating random alias" (generateRandomAlias 10) ;;
  let email := randomAlias ++ "@" ++ EmailDomain config in
  now <- timeNow ;;
  let rule :=
    JObject
      [("actions",
        JArray [JObject [("type", JString "forward");
                         ("value", JArray [JString (ForwardToEmail config)])]]);
       ("enabled", JBool true);
       ("matchers",
        JArray [JObject [("field", JString "to");
                         ("type", JString "literal");
                         ("value", JString email)]]);
       ("name", JString ("Rule created at " ++ formatRFC3339 now));
       ("priority", JInt 0)] in
  let url := cloudflareAPIBaseURL ++ "/zones/" ++ CloudflareZoneID config
             ++ "/email/routing/rules" in
  req <- wrap "error creating request"
           (newRequest "POST" url (JSONBody rule) None) ;;
  let req := headerAdd "Authorization"
               ("Bearer " ++ CloudflareAPIToken config) req in
  let req := headerAdd "Content-Type" "application/json" req in
  resp <- wrap "error sending request" (clientDo req) ;;
  if StatusCode resp =? 200 then ret email
  else fail (AliasStatus (StatusCode resp) (Body resp)).

(** *** Solving the CAPTCHA *)

(** The polling loop that ends both solvers, [for i := 0; i <
    config.MaxCaptchaRetries; i++], with [attempts] iterations still to
    run.  [poll] is the provider's [get...TaskResult] on the task at hand. *)
Fixpoint pollLoop (poll : IO eZCaptchaResult) (startTime : Z)
    (attempts : nat) : IO string :=
  match attempts with
  | O => fail (CaptchaAttemptsFailed (MaxCaptchaRetries config))
  | S remaining =>
      fun w =>
        match (timeSleep (10 * Second) ;;; poll) w with
        | (Err _, w') =>
            (* continue *)
            pollLoop poll startTime remaining w'
        | (Ok result, w') =>
            if String.eqb (Status result) "ready" then
              (Ok (GRecaptchaResponse result), w')
            else if PrimFloat.ltb (CaptchaTimeout config)
                                  (Seconds (clock w' - startTime)) then
              (Err (CaptchaTimedOut (CaptchaTimeout config)), w')
            else pollLoop poll startTime remaining w'
        end
  end.

Definition sParams : string :=
  "{" ++ quoted "id" ++ ":" ++ quoted "0" ++ ","
      ++ quoted "version" ++ ":" ++ quoted "V2" ++ ","
      ++ quoted "sitekey" ++ ":" ++ quoted (RecaptchaSiteKey config) ++ ","
      ++ quoted "function" ++ ":" ++ quoted "captchaSubmit" ++ ","
      ++ quoted "callback" ++ ":"
      ++ quoted "___grecaptcha_cfg.clients['0']['V']['V']['callback']" ++ ","
      ++ quoted "pageurl" ++ ":" ++ quoted (MonsterPromoURL config) ++ "}".

Definition getEZCaptchaTaskResult (taskID : string) : IO eZCaptchaResult :=
  resp <- httpPostJSON (ezCaptchaBaseURL ++ "/getTaskResult")
            (JObject [("clientKey", JString (EZCaptchaAPIKey config));
                      ("taskId", JString taskID)]) ;;
  decodeBody resultField zeroResult resp.

Definition solveCaptchaWithEZCaptcha : IO string :=
  let task :=
    JObject
      [("clientKey", JString (EZCaptchaAPIKey config));
       ("task",
        JObject [("type", JString "ReCaptchaV2TaskProxyless");
                 ("websiteURL", JString (MonsterPromoURL config));
                 ("websiteKey", JString (RecaptchaSiteKey config));
                 ("sParams", JString sParams)])] in
  resp <- httpPostJSON (ezCaptchaBaseURL ++ "/createTask") task ;;
  taskID <- decodeBody taskIDStringField "" resp ;;
  startTime <- timeNow ;;
  pollLoop (getEZCaptchaTaskResult taskID) startTime
           (Z.to_nat (MaxCaptchaRetries config)).

Definition get2CaptchaTaskResult (taskID : Z) : IO twoCaptchaResult :=
  resp <- httpPostJSON (twoCaptchaBaseURL ++ "/getTaskResult")
            (JObject [("clientKey", JString (TwoCaptchaAPIKey config));
                      ("taskId", JInt taskID)]) ;;
  decodeBody resultField zeroResult resp.

Definition solveCaptchaWith2Captcha : IO string :=
  let task :=
    JObject
      [("clientKey", JString (TwoCaptchaAPIKey config));
       ("task",
        JObject [("type", JString "ReCaptchaV2TaskProxyless");
                 ("websiteURL", JString (MonsterPromoURL config));
                 ("websiteKey", JString (RecaptchaSiteKey config))])] in
  resp <- httpPostJSON (twoCaptchaBaseURL ++ "/createTask") task ;;
  taskID <- decodeBody taskIDIntField 0 resp ;;
  startTime <- timeNow ;;
  pollLoop (get2CaptchaTaskResult taskID) startTime
           (Z.to_nat (MaxCaptchaRetries config)).

(** The choice of solver that [submitEntry] makes. *)
Definition solveCaptcha : IO string :=
  if UseTwoCaptcha config then solveCaptchaWith2Captcha
  else solveCaptchaWithEZCaptcha.

(** *** Submitting the entry *)

Definition userAgent : string :=
  "Mozilla/5.0 (Windows NT 10.0; Win64; x64) AppleWebKit/537.36 (KHTML, like Gecko) Chrome/58.0.3029.110 Safari/537.3".

Definition proxyURL : string :=
  "http://" ++ ProxyUsername config ++ ":" ++ ProxyPassword config
  ++ "@" ++ ProxyDNS config ++ ":" ++ ProxyPort config.

(** The client both submit functions build: [Some] proxy URL or a direct
    client. *)
Definition submitClient : IO (option string) :=
  if UseProxy config then
    if urlParses proxyURL then ret (Some proxyURL)
    else fail (Wrapped "failed to parse proxy URL" (URLError proxyURL))
  else ret None.

(** [data.Encode()] of the two form fields, sorted by key. *)
Definition formData (email captchaToken : string) : Content :=
  FormBody [("Email", email); ("g-recaptcha-response", captchaToken)].

(** The first cookie called [cf_clearance], or the empty string. *)
Definition clearanceOf (cookies : list Cookie) : string :=
  match find (fun c => String.eqb (Name c) "cf_clearance") cookies with
  | Some c => Value c
  | None => ""
  end.

Definition submitPromoEntry (email captchaToken : string) : IO string :=
  client <- submitClient ;;
  req <- newRequest "POST" (MonsterSubmitURL config)
           (formData email captchaToken) client ;;
  let req := headerAdd "Content-Type" "application/x-www-form-urlencoded" req in
  let req := headerAdd "User-Agent" userAgent req in
  let req := headerAdd "Cookie" "cookieconsent_status=dismiss" req in
  resp <- clientDo req ;;
  _ <- wrap "error reading response body" (ioReadAll resp) ;;
  if negb (StatusCode resp =? 200) then fail (PromoStatus (StatusCode resp))
  else ret (clearanceOf (Cookies resp)).

Definition submitPromoEntryWithCookie (email captchaToken cfClearance : string)
  : IO string :=
  client <- submitClient ;;
  req <- newRequest "POST" (MonsterSubmitURL config)
           (formData email captchaToken) client ;;
  let req := headerAdd "Content-Type" "application/x-www-form-urlencoded" req in
  let req := headerAdd "User-Agent" userAgent req in
  let req := headerAdd "Cookie"
               ("cookieconsent_status=dismiss; cf_clearance=" ++ cfClearance)
               req in
  resp <- clientDo req ;;
  _ <- wrap "error reading response body" (ioReadAll resp) ;;
  if negb (StatusCode resp =? 200) then
    fail (AdditionalPromoStatus (StatusCode resp))
  else ret "".

(** *** One submission cycle *)

(** The loop [for i := 0; i < 5; i++] of [submitEntry], with [count]
    iterations still to run; the error of a call is only printed. *)
Fixpoint additionalEntries (email captchaToken cfClearance : string)
    (count : nat) : IO unit :=
  match count with
  | O => ret tt
  | S remaining =>
      fun w =>
        let (_, w') := submitPromoEntryWithCookie email captchaToken cfClearance w in
        additionalEntries email captchaToken cfClearance remaining w'
  end.

(** The first step of [submitEntry]: a fresh alias or an address typed in. *)
Definition obtainEmail : IO string :=
  if UseCloudflareEmail config then
    wrap "error creating email alias" createCloudflareEmailAlias
  else getUserInput "Enter email address: ".

Definition submitEntry : IO unit :=
  email <- obtainEmail ;;
  captchaToken <- wrap "error solving captcha" solveCaptcha ;;
  cfClearance <- wrap "error submitting promo entry"
                   (submitPromoEntry email captchaToken) ;;
  (if negb (isEmpty cfClearance) then
     additionalEntries email captchaToken cfClearance 5
   else ret tt) ;;;
  logSubmission email ;;;
  ret tt.

(** *** The two modes *)

(** [confirmAction]: the answer is yes when the line typed is y, in either
    case ([strings.ToLower] needs its ASCII part only to reach ["y"]). *)
Definition confirmAction (prompt : string) : World -> bool * World :=
  fun w =>
    match getUserInput (prompt ++ " (y/n): ") w with
    | (Ok input, w') => (String.eqb (toLower input) "y", w')
    | (Err _, w') => (false, w')
    end.

Definition isDigit (c : ascii) : bool :=
  let n := nat_of_ascii c in ((48 <=? n) && (n <=? 57))%nat.

(** The value of a run of decimal digits, [None] at any other character. *)
Fixpoint digitsValue (s : string) (acc : Z) : option Z :=
  match s with
  | EmptyString => Some acc
  | String c rest =>
      if isDigit c then
        digitsValue rest (acc * 10 + Z.of_nat (nat_of_ascii c - 48))
      else None
  end.

(** [strconv.Atoi]: an optional sign, at least one decimal digit, nothing
    else, and a value that fits an [int]; [None] is its error. *)
Definition Atoi (s : string) : option Z :=
  match s with
  | EmptyString => None
  | String c rest =>
      let negative := Ascii.eqb c "-" in
      let digits := if negative || Ascii.eqb c "+" then rest else s in
      match digits with
      | EmptyString => None
      | _ =>
          match digitsValue digits 0 with
          | Some v =>
              let n := if negative then - v else v in
              if (minInt64 <=? n) && (n <=? maxInt64) then Some n else None
          | None => None
          end
      end
  end.

(** [getUserInputInt]: the loop [for { ... }] run for at most [fuel]
    iterations; [None] when it has not returned by then. *)
Fixpoint getUserInputInt (prompt : string) (fuel : nat)
  : World -> option (Z * World) :=
  match fuel with
  | O => fun _ => None
  | S remaining =>
      fun w =>
        match getUserInput prompt w with
        | (Ok input, w') =>
            match Atoi input with
            | Some value => Some (value, w')
            | None => getUserInputInt prompt remaining w'
            end
        | (Err _, _) => None
        end
  end.

(** [interactiveMode]: the loop [for { ... }] run for at most [fuel]
    iterations; [None] when it has not returned by then. *)
Fixpoint interactiveMode (fuel : nat) : World -> option World :=
  match fuel with
  | O => fun _ => None
  | S remaining =>
      fun w =>
        let (continue, w1) := confirmAction "Continue with submission?" w in
        if negb continue then Some w1
        else
          let (_, w2) := submitEntry w1 in
          let (another, w3) := confirmAction "Submit another entry?" w2 in
          if negb another then Some w3
          else interactiveMode remaining w3
  end.

(** The two counters of [automaticMode]. *)
Record RunStats : Type := { successCount : Z; totalCount : Z }.

(** A product of two [int64] as the machine computes it. *)
Definition wrapInt64 (x : Z) : Z := (x + 2 ^ 63) mod 2 ^ 64 - 2 ^ 63.

(** [time.Sleep(d)] for any [d]: a duration that is not positive returns
    at once. *)
Definition sleepFor (d : Z) : IO unit :=
  if d <=? 0 then ret tt else timeSleep d.

(** The first [iterations] rounds of the endless loop of [automaticMode],
    entered with the counters [stats]. *)
Fixpoint automaticLoop (delay : Z) (iterations : nat) (stats : RunStats)
  : World -> RunStats * World :=
  match iterations with
  | O => fun w => (stats, w)
  | S remaining =>
      fun w =>
        let (err, w1) := submitEntry w in
        let stats' :=
          {| successCount :=
               match err with
               | Ok _ => successCount stats + 1
               | Err _ => successCount stats
               end;
             totalCount := totalCount stats + 1 |} in
        let (_, w2) := sleepFor (wrapInt64 (delay * Second)) w1 in
        automaticLoop delay remaining stats' w2
  end.

(** [automaticMode] up to its first [iterations] rounds; [fuel] bounds the
    reading of the delay. *)
Definition automaticMode (fuel iterations : nat)
  : World -> option (RunStats * World) :=
  fun w =>
    match getUserInputInt "Enter delay between submissions (in seconds): "
            fuel w with
    | Some (delay, w1) =>
        Some (automaticLoop delay iterations
                {| successCount := 0; totalCount := 0 |} w1)
    | None => None
    end.

End Program.

(** ** Reading a run off the world

    The definitions below describe a scripted environment and the trace a
    run leaves, in the vocabulary of the specification. *)

(** The outcome of one poll as the specification names it. *)
Inductive SolveOutcome : Type :=
| Solved (token : string)
| Pending
| Failed.

(** What a scripted round trip answers to a [get...TaskResult] call:
    the decoded result, or nothing when the call or the decoding fails. *)
Definition answer (x : Exchange) : option eZCaptchaResult :=
  match outcome x with
  | Refused _ => None
  | Replied r =>
      match Body r with
      | Document v => decodeStruct resultField v zeroResult
      | _ => None
      end
  end.

Definition classify (x : Exchange) : SolveOutcome :=
  match answer x with
  | None => Failed
  | Some r =>
      if String.eqb (Status r) "ready" then Solved (GRecaptchaResponse r)
      else Pending
  end.

(** [time.Since(startTime).Seconds() > config.CaptchaTimeout] at an
    elapsed time of [elapsed] nanoseconds. *)
Definition exceeds (timeout : float64) (elapsed : Z) : bool :=
  PrimFloat.ltb timeout (Seconds elapsed).

(** The time a run of polls takes: ten seconds of sleep and one round trip
    each. *)
Fixpoint elapsedAfter (polls : list Exchange) : Z :=
  match polls with
  | [] => 0
  | x :: rest => 10 * Second + took x + elapsedAfter rest
  end.

(** None of these polls ends the loop when [elapsed] nanoseconds have
    passed since the start: each one fails, or answers a status other than
    ready while the timeout is not exceeded. *)
Fixpoint keepsPolling (timeout : float64) (elapsed : Z)
    (polls : list Exchange) : bool :=
  match polls with
  | [] => true
  | x :: rest =>
      let elapsed' := elapsed + (10 * Second + took x) in
      match classify x with
      | Solved _ => false
      | Failed => keepsPolling timeout elapsed' rest
      | Pending =>
          negb (exceeds timeout elapsed') && keepsPolling timeout elapsed' rest
      end
  end.

(** The identifier of a solving task: a string for EZ-Captcha, an integer
    for 2Captcha. *)
Inductive TaskID : Type :=
| StringID (s : string)
| IntID (z : Z).

(** The task a scripted round trip creates for the configured provider:
    the [TaskID] that [Decode] leaves in [createTaskResult], or nothing
    when [http.Post] or [Decode] returns an error. *)
Definition taskOf (config : Config) (x : Exchange) : option TaskID :=
  match outcome x with
  | Refused _ => None
  | Replied r =>
      match Body r with
      | Document v =>
          if UseTwoCaptcha config then
            option_map IntID (decodeStruct taskIDIntField v 0)
          else option_map StringID (decodeStruct taskIDStringField v "")
      | _ => None
      end
  end.

Definition jsonRequest (url : string) (body : json) : Request :=
  {| Method := "POST"; URL := url;
     Header := [("Content-Type", "application/json")];
     Payload_ := JSONBody body; Proxy := None |}.

(** The [createTask] request of the configured provider. *)
Definition createRequest (config : Config) : Request :=
  if UseTwoCaptcha config then
    jsonRequest (twoCaptchaBaseURL ++ "/createTask")
      (JObject
         [("clientKey", JString (TwoCaptchaAPIKey config));
          ("task",
           JObject [("type", JString "ReCaptchaV2TaskProxyless");
                    ("websiteURL", JString (MonsterPromoURL config));
                    ("websiteKey", JString (RecaptchaSiteKey config))])])
  else
    jsonRequest (ezCaptchaBaseURL ++ "/createTask")
      (JObject
         [("clientKey", JString (EZCaptchaAPIKey config));
          ("task",
           JObject [("type", JString "ReCaptchaV2TaskProxyless");
                    ("websiteURL", JString (MonsterPromoURL config));
                    ("websiteKey", JString (RecaptchaSiteKey config));
                    ("sParams", JString (sParams config))])]).

(** The [getTaskResult] request for a task. *)
Definition pollRequest (config : Config) (id : TaskID) : Request :=
  match id with
  | StringID s =>
      jsonRequest (ezCaptchaBaseURL ++ "/getTaskResult")
        (JObject [("clientKey", JString (EZCaptchaAPIKey config));
                  ("taskId", JString s)])
  | IntID z =>
      jsonRequest (twoCaptchaBaseURL ++ "/getTaskResult")
        (JObject [("clientKey", JString (TwoCaptchaAPIKey config));
                  ("taskId", JInt z)])
  end.

Definition isPollRequest (r : Request) : bool :=
  String.eqb (URL r) (ezCaptchaBaseURL ++ "/getTaskResult")
  || String.eqb (URL r) (twoCaptchaBaseURL ++ "/getTaskResult").

(** The number of [getTaskResult] calls made so far. *)
Definition pollsIssued (w : World) : nat :=
  List.length (filter isPollRequest (requests w)).

(** One poll of a task: a [get...TaskResult] call seen from the loop. *)
Definition pollOnce (rq : Request) : IO eZCaptchaResult :=
  resp <- clientDo rq ;;
  decodeBody resultField zeroResult resp.

(** The world once [rq] has gone through the round trip [x]. *)
Definition afterRoundTrip (rq : Request) (x : Exchange) (w : World) : World :=
  {| clock := clock w + took x; network := tl (network w);
     requests := requests w ++ [rq];
     stdin := stdin w; entropy := entropy w; disk := disk w;
     submissionsLog := submissionsLog w |}.

(** The world after the ten seconds of sleep of one iteration. *)
Definition slept (w : World) : World :=
  {| clock := clock w + 10 * Second; network := network w;
     requests := requests w;
     stdin := stdin w; entropy := entropy w; disk := disk w;
     submissionsLog := submissionsLog w |}.

(** The world after a run of polls, each with request [rq]. *)
Fixpoint afterPolls (rq : Request) (polls : list Exchange) (w : World)
  : World :=
  match polls with
  | [] => w
  | x :: rest => afterPolls rq rest (afterRoundTrip rq x (slept w))
  end.

(** The request of [submitPromoEntry], and the one of
    [submitPromoEntryWithCookie], once their client and URL are accepted. *)
Definition submitRequest (config : Config) (email captchaToken cookie : string)
  : Request :=
  {| Method := "POST"; URL := MonsterSubmitURL config;
     Header := [("Content-Type", "application/x-www-form-urlencoded");
                ("User-Agent", userAgent);
                ("Cookie", cookie)];
     Payload_ := formData email captchaToken;
     Proxy := if UseProxy config then Some (proxyURL config) else None |}.

Definition primaryRequest (config : Config) (email captchaToken : string)
  : Request :=
  submitRequest config email captchaToken "cookieconsent_status=dismiss".

Definition additionalRequest (config : Config)
    (email captchaToken cfClearance : string) : Request :=
  submitRequest config email captchaToken
    ("cookieconsent_status=dismiss; cf_clearance=" ++ cfClearance).

(** Both submit functions get as far as sending their request: the proxy
    URL, when one is used, and the submission URL parse. *)
Definition canSubmit (urlParses : string -> bool) (config : Config) : bool :=
  (if UseProxy config then urlParses (proxyURL config) else true)
  && urlParses (MonsterSubmitURL config).

(** The CAPTCHA token a submission request carries in its form. *)
Definition captchaTokenOf (r : Request) : option string :=
  match Payload_ r with
  | FormBody fields =>
      option_map snd
        (find (fun kv => String.eqb (fst kv) "g-recaptcha-response") fields)
  | JSONBody _ => None
  end.

(** The requests issued between two worlds of one run. *)
Definition issuedSince (before after : World) : list Request :=
  skipn (List.length (requests before)) (requests after).

(** *** Sample runs *)

Definition sampleConfig : Config :=
  {| CloudflareAPIToken := "cf-token"; EZCaptchaAPIKey := "ez-key";
     TwoCaptchaAPIKey := "2c-key"; RecaptchaSiteKey := "site-key";
     EmailDomain := "example.com"; CloudflareZoneID := "zone";
     ForwardToEmail := "me@example.com";
     MonsterPromoURL := "https://promo.example/enter";
     MonsterSubmitURL := "https://promo.example/submit";
     UseProxy := false; ProxyUsername := ""; ProxyPassword := "";
     ProxyDNS := ""; ProxyPort := "";
     UseCloudflareEmail := false; DebugMode := false; UseTwoCaptcha := false;
     MaxCaptchaRetries := 5; CaptchaTimeout := 120%float |}.

(** A reply that arrives after [ms] milliseconds. *)
Definition reply (ms code : Z) (cookies : list Cookie) (body : Payload)
  : Exchange :=
  {| took := ms * 1000000;
     outcome := Replied {| StatusCode := code; Cookies := cookies;
                           Body := body |} |}.

Definition worldWith (net : list Exchange) : World :=
  {| clock := 0; network := net; requests := []; stdin := ["fan@example.com"];
     entropy := []; disk := DiskOK; submissionsLog := [] |}.

Definition created (id : json) : Payload := Document (JObject [("taskId", id)]).

Definition processing : Payload :=
  Document (JObject [("status", JString "processing")]).

Definition ready (token : string) : Payload :=
  Document (JObject [("status", JString "ready");
                     ("solution",
                      JObject [("gRecaptchaResponse", JString token)])]).

Definition anyURL (u : string) : bool := true.
Definition noFormat (t : Z) : string := "".

(** The world when the poll [p] has been played, after the [createTask]
    round trip [x] and the polls [before]. *)
Definition atPoll (config : Config) (id : TaskID) (x : Exchange)
    (before : list Exchange) (p : Exchange) (w : World) : World :=
  afterRoundTrip (pollRequest config id) p
    (slept (afterPolls (pollRequest config id) before
              (afterRoundTrip (createRequest config) x w))).

(** *** Readings of the specification that the program does not meet *)

(** The timeout as the specification words it: once the time elapsed at an
    attempt within the budget exceeds the timeout, the solver fails with
    the timeout error, whatever that poll and the later ones answer. *)
Definition TimeoutPreemptsEveryOutcome : Prop :=
  forall (config : Config) (w : World) (x : Exchange)
         (before : list Exchange) (p : Exchange) (after : list Exchange),
    network w = x :: (before ++ p :: after)%list ->
    taskOf config x <> None ->
    (List.length before < Z.to_nat (MaxCaptchaRetries config))%nat ->
    keepsPolling (CaptchaTimeout config) 0 before = true ->
    exceeds (CaptchaTimeout config) (elapsedAfter (before ++ [p])%list) = true ->
    exists w' : World,
      solveCaptcha config w =
        (Err (CaptchaTimedOut (CaptchaTimeout config)), w').

(** *** More sample runs *)

(** Provider A creates task abc, answers processing twice, then ready. *)
Definition scenarioWorld : World :=
  worldWith [reply 100 200 [] (created (JString "abc"));
             reply 100 200 [] processing;
             reply 100 200 [] processing;
             reply 100 200 [] (ready "XYZ")].

(** The solution arrives 130 seconds into the first poll. *)
Definition lateReadyWorld : World :=
  worldWith [reply 100 200 [] (created (JString "abc"));
             reply 130000 200 [] (ready "XYZ");
             reply 100 200 [] processing].

(** The first poll answers processing after 130 seconds. *)
Definition latePendingWorld : World :=
  worldWith [reply 100 200 [] (created (JString "abc"));
             reply 130000 200 [] processing;
             reply 100 200 [] (ready "XYZ")].

(** Five polls answer processing, 100 milliseconds each. *)
Definition alwaysPendingWorld : World :=
  worldWith (reply 100 200 [] (created (JString "abc"))
             :: repeat (reply 100 200 [] processing) 5).

(** A member of a [createTask] answer whose key selects the [TaskID]
    field: the first one, if there is any. *)
Definition taskIdentifier (members : list (string * json)) : option json :=
  option_map snd (find (fun kv => keyMatches "taskId" (fst kv)) members).

(** The value [TaskID] keeps when the answer does not set it. *)
Definition zeroTaskID (config : Config) : TaskID :=
  if UseTwoCaptcha config then IntID 0 else StringID "".

(** A [createTask] round trip that yields no usable task identifier as the
    specification counts them: the call fails, the body is not a JSON
    object, or the identifier is missing, empty or of a wrong type. *)
Definition invalidTask (x : Exchange) : bool :=
  match outcome x with
  | Refused _ => true
  | Replied r =>
      match Body r with
      | Document (JObject members) =>
          match taskIdentifier members with
          | None => true
          | Some (JString s) => isEmpty s
          | Some (JInt _) => false
          | Some _ => true
          end
      | _ => true
      end
  end.

(** The guard on [CreateTask] as the specification words it. *)
Definition InvalidTaskIsNeverPolled : Prop :=
  forall (config : Config) (w : World) (x : Exchange)
         (script : list Exchange),
    network w = x :: script ->
    invalidTask x = true ->
    exists (e : error) (w' : World),
      solveCaptcha config w = (Err e, w')
      /\ pollsIssued w' = pollsIssued w.

(** The answer to [createTask] carries no task identifier at all. *)
Definition missingTaskWorld : World :=
  worldWith [reply 100 200 [] (Document (JObject []));
             reply 100 200 [] (ready "XYZ")].

(** The answer to [createTask] is not JSON. *)
Definition brokenTaskWorld : World :=
  worldWith [reply 100 502 [] (Text "Bad Gateway");
             reply 100 200 [] (ready "XYZ")].

(** A computation that leaves the log file alone. *)
Definition keepsLog {A : Type} (m : IO A) : Prop :=
  forall w : World, submissionsLog (snd (m w)) = submissionsLog w.

(** The status rule of the submission as the specification words it: any
    2xx status is a success, any other status the status error. *)
Definition EverySuccessStatusAccepted : Prop :=
  forall (urlParses : string -> bool) (config : Config)
         (email captchaToken : string) (w : World) (x : Exchange)
         (rest : list Exchange) (r : Response),
    canSubmit urlParses config = true ->
    network w = x :: rest ->
    outcome x = Replied r ->
    Body r <> Unreadable ->
    (200 <= StatusCode r < 300 ->
     exists cfClearance : string,
       fst (submitPromoEntry urlParses config email captchaToken w)
       = Ok cfClearance)
    /\ (~ 200 <= StatusCode r < 300 ->
        fst (submitPromoEntry urlParses config email captchaToken w)
        = Err (PromoStatus (StatusCode r))).

(** The token rule of the additional entries as the specification words
    it: none of them carries the CAPTCHA token of the primary entry. *)
Definition AdditionalEntriesCarryFreshToken : Prop :=
  forall (urlParses : string -> bool) (formatRFC3339 : Z -> string)
         (config : Config) (w w1 w2 w3 w4 : World)
         (email captchaToken cfClearance : string),
    obtainEmail urlParses formatRFC3339 config w = (Ok email, w1) ->
    solveCaptcha config w1 = (Ok captchaToken, w2) ->
    submitPromoEntry urlParses config email captchaToken w2
    = (Ok cfClearance, w3) ->
    cfClearance <> "" ->
    submitEntry urlParses formatRFC3339 config w = (Ok tt, w4) ->
    forall r : Request,
      In r (issuedSince w3 w4) -> captchaTokenOf r <> Some captchaToken.

(** A whole cycle: the solution comes at the first poll, the primary
    entry is accepted with a clearance cookie, the additional entries are
    refused with status 500, 403, 200, no answer, 429. *)
Definition cycleWorld : World :=
  worldWith [reply 100 200 [] (created (JString "abc"));
             reply 100 200 [] (ready "XYZ");
             reply 100 200 [{| Name := "session"; Value := "s1" |};
                            {| Name := "cf_clearance"; Value := "CLR" |}]
                   (Text "ok");
             reply 100 500 [] (Text "");
             reply 100 403 [] (Text "");
             reply 100 200 [] (Text "ok");
             {| took := 0; outcome := Refused "timeout" |};
             reply 100 429 [] (Text "")].


(** The worlds a sample cycle goes through: after the address is typed
    in, after the CAPTCHA is solved, after the primary entry. *)
Definition afterEmail (w : World) : World :=
  snd (obtainEmail anyURL noFormat sampleConfig w).

Definition afterSolve (w : World) : World :=
  snd (solveCaptcha sampleConfig (afterEmail w)).

Definition afterPrimary (w : World) : World :=
  snd (submitPromoEntry anyURL sampleConfig "fan@example.com" "XYZ"
         (afterSolve w)).

(** The primary entry is answered with status 204. *)
Definition noContentWorld : World :=
  worldWith [reply 100 204 [{| Name := "cf_clearance"; Value := "CLR" |}]
                   (Text "")].

(** The primary entry is answered with status 200. *)
Definition acceptedWorld (cookies : list Cookie) : World :=
  worldWith [reply 100 200 cookies (Text "ok")].

(** *** More of the vocabulary *)

(** A computation that leaves one component of the world as it was. *)
Definition keeps {A B : Type} (proj : World -> B) (m : IO A) : Prop :=
  forall w : World, proj (snd (m w)) = proj w.

(** The request of [createCloudflareEmailAlias] for the address [email],
    built when the clock reads [now]. *)
Definition aliasRequest (formatRFC3339 : Z -> string) (config : Config)
    (email : string) (now : Z) : Request :=
  {| Method := "POST";
     URL := cloudflareAPIBaseURL ++ "/zones/" ++ CloudflareZoneID config
            ++ "/email/routing/rules";
     Header := [("Authorization", "Bearer " ++ CloudflareAPIToken config);
                ("Content-Type", "application/json")];
     Payload_ :=
       JSONBody
         (JObject
            [("actions",
              JArray [JObject [("type", JString "forward");
                               ("value",
                                JArray [JString (ForwardToEmail config)])]]);
             ("enabled", JBool true);
             ("matchers",
              JArray [JObject [("field", JString "to");
                               ("type", JString "literal");
                               ("value", JString email)]]);
             ("name", JString ("Rule created at " ++ formatRFC3339 now));
             ("priority", JInt 0)]);
     Proxy := None |}.

(** The characters of a string. *)
Fixpoint chars (s : string) : list ascii :=
  match s with
  | EmptyString => []
  | String c rest => c :: chars rest
  end.

(** The draws at the head of the random source, as far as they succeed. *)
Fixpoint goodDraws (draws : list (option nat)) : nat :=
  match draws with
  | Some _ :: rest => S (goodDraws rest)
  | _ => 0%nat
  end.

(** The lines at the head of standard input that [strconv.Atoi] refuses. *)
Fixpoint badLines (lines : list string) : nat :=
  match lines with
  | line :: rest =>
      match Atoi line with
      | Some _ => 0%nat
      | None => S (badLines rest)
      end
  | [] => 0%nat
  end.

(** The world when the user has answered one question. *)
Definition answered (w : World) : World :=
  match stdin w with
  | _ :: _ => popStdin w
  | [] => w
  end.

(** More sample runs. *)

(** A cycle whose primary entry is accepted without a clearance cookie. *)
Definition plainWorld : World :=
  worldWith [reply 100 200 [] (created (JString "abc"));
             reply 100 200 [] (ready "XYZ");
             reply 100 200 [{| Name := "session"; Value := "s1" |}]
                   (Text "ok");
             reply 100 200 [] (Text "never asked")].

(** Every poll fails: no answer, a body that is not JSON, a wrong type. *)
Definition failingPollsWorld : World :=
  worldWith [reply 100 200 [] (created (JString "abc"));
             {| took := 50000000000; outcome := Refused "reset" |};
             reply 50000 200 [] (Text "<html>");
             reply 50000 200 [] (Document (JObject [("status", JInt 1)]));
             reply 100 500 [] Unreadable;
             {| took := 0; outcome := Refused "reset" |};
             reply 100 200 [] (ready "XYZ")].

(** The provider says ready and gives no solution. *)
Definition hollowReadyWorld : World :=
  worldWith [reply 100 200 [] (created (JString "abc"));
             reply 100 200 []
                   (Document (JObject [("status", JString "ready")]))].

(** The sample configuration with a fresh alias for every entry. *)
Definition aliasConfig : Config :=
  {| CloudflareAPIToken := "cf-token"; EZCaptchaAPIKey := "ez-key";
     TwoCaptchaAPIKey := "2c-key"; RecaptchaSiteKey := "site-key";
     EmailDomain := "example.com"; CloudflareZoneID := "zone";
     ForwardToEmail := "me@example.com";
     MonsterPromoURL := "https://promo.example/enter";
     MonsterSubmitURL := "https://promo.example/submit";
     UseProxy := false; ProxyUsername := ""; ProxyPassword := "";
     ProxyDNS := ""; ProxyPort := "";
     UseCloudflareEmail := true; DebugMode := false; UseTwoCaptcha := false;
     MaxCaptchaRetries := 5; CaptchaTimeout := 120%float |}.

(** The sample configuration behind a proxy. *)
Definition proxyConfig : Config :=
  {| CloudflareAPIToken := "cf-token"; EZCaptchaAPIKey := "ez-key";
     TwoCaptchaAPIKey := "2c-key"; RecaptchaSiteKey := "site-key";
     EmailDomain := "example.com"; CloudflareZoneID := "zone";
     ForwardToEmail := "me@example.com";
     MonsterPromoURL := "https://promo.example/enter";
     MonsterSubmitURL := "https://promo.example/submit";
     UseProxy := true; ProxyUsername := "user"; ProxyPassword := "p@ss";
     ProxyDNS := "proxy.example"; ProxyPort := "80 80";
     UseCloudflareEmail := false; DebugMode := false; UseTwoCaptcha := false;
     MaxCaptchaRetries := 5; CaptchaTimeout := 120%float |}.

(** A parser that refuses the strings with a space in them. *)
Definition noSpaceURL (u : string) : bool :=
  negb (existsb (fun c => Ascii.eqb c " ") (chars u)).

(** Ten draws, and a world that has them. *)
Definition tenDraws : list (option nat) :=
  map Some [0; 1; 2; 3; 26; 27; 35; 36; 71; 10]%nat.

Definition aliasWorld (draws : list (option nat)) (net : list Exchange)
  : World :=
  {| clock := 0; network := net; requests := []; stdin := [];
     entropy := draws; disk := DiskOK; submissionsLog := [] |}.

Definition typedWorld (lines : list string) (net : list Exchange) : World :=
  {| clock := 0; network := net; requests := []; stdin := lines;
     entropy := []; disk := DiskOK; submissionsLog := [] |}.

(** The sample configuration with a negative number of retries, which
    [validateConfig] lets through. *)
Definition negativeRetriesConfig : Config :=
  {| CloudflareAPIToken := "cf-token"; EZCaptchaAPIKey := "ez-key";
     TwoCaptchaAPIKey := "2c-key"; RecaptchaSiteKey := "site-key";
     EmailDomain := "example.com"; CloudflareZoneID := "zone";
     ForwardToEmail := "me@example.com";
     MonsterPromoURL := "https://promo.example/enter";
     MonsterSubmitURL := "https://promo.example/submit";
     UseProxy := false; ProxyUsername := ""; ProxyPassword := "";
     ProxyDNS := ""; ProxyPort := "";
     UseCloudflareEmail := false; DebugMode := false; UseTwoCaptcha := true;
     MaxCaptchaRetries := -3; CaptchaTimeout := 120%float |}.

(** The configuration file leaves the retries and the timeout out. *)
Definition rawConfig : Config :=
  {| CloudflareAPIToken := "cf-token"; EZCaptchaAPIKey := "ez-key";
     TwoCaptchaAPIKey := ""; RecaptchaSiteKey := "site-key";
     EmailDomain := "example.com"; CloudflareZoneID := "zone";
     ForwardToEmail := "me@example.com";
     MonsterPromoURL := "https://promo.example/enter";
     MonsterSubmitURL := "https://promo.example/submit";
     UseProxy := false; ProxyUsername := ""; ProxyPassword := "";
     ProxyDNS := ""; ProxyPort := "";
     UseCloudflareEmail := false; DebugMode := false; UseTwoCaptcha := false;
     MaxCaptchaRetries := 0; CaptchaTimeout := 0%float |}.

(** What [validateConfig] makes of it. *)
Definition defaultedConfig : Config :=
  {| CloudflareAPIToken := "cf-token"; EZCaptchaAPIKey := "ez-key";
     TwoCaptchaAPIKey := ""; RecaptchaSiteKey := "site-key";
     EmailDomain := "example.com"; CloudflareZoneID := "zone";
     ForwardToEmail := "me@example.com";
     MonsterPromoURL := "https://promo.example/enter";
     MonsterSubmitURL := "https://promo.example/submit";
     UseProxy := false; ProxyUsername := ""; ProxyPassword := "";
     ProxyDNS := ""; ProxyPort := "";
     UseCloudflareEmail := false; DebugMode := false; UseTwoCaptcha := false;
     MaxCaptchaRetries := 5; CaptchaTimeout := 120%float |}.

(** The round trips of one cycle that succeeds without clearance. *)
Definition goodCycle : list Exchange :=
  [reply 100 200 [] (created (JString "abc"));
   reply 100 200 [] (ready "XYZ");
   reply 100 200 [] (Text "ok")].

(** The user confirms, types an address, then declines. *)
Definition oneCycleWorld : World :=
  typedWorld ["Y"; "fan@example.com"; "no"; "y"] goodCycle.

(** Automatic mode: a delay of two seconds after two lines that are no
    integers, then three addresses; the network serves one good cycle and
    then goes away. *)
Definition automaticWorld : World :=
  typedWorld ["soon"; "2s"; "2"; "a@example.com"; "b@example.com";
              "c@example.com"]
    goodCycle.

(** The 2Captcha answer that creates task 7. *)
Definition createdSeven : Exchange :=
  reply 100 200 [] (created (JInt 7)).

(** *** The answer to [createTask], member by member *)

(** The values an object gives to the members that select [TaskID], in
    the order of the document. *)
Definition identifiers (members : list (string * json)) : list json :=
  map snd (filter (fun kv => keyMatches "taskId" (fst kv)) members).

(** A value that [TaskID] takes: null, which leaves it alone, or a value
    of its type, a string for EZ-Captcha and an integer that fits an [int]
    for 2Captcha. *)
Definition fitsTaskID (config : Config) (v : json) : bool :=
  match v with
  | JNull => true
  | JString _ => negb (UseTwoCaptcha config)
  | JInt z => UseTwoCaptcha config && (minInt64 <=? z) && (z <=? maxInt64)
  | _ => false
  end.

(** The [createTask] round trip gives the solver an error: the call fails,
    the body is not JSON, the document is neither an object nor null, or
    one of its identifiers does not fit. *)
Definition rejected (config : Config) (x : Exchange) : bool :=
  match outcome x with
  | Refused _ => true
  | Replied r =>
      match Body r with
      | Document JNull => false
      | Document (JObject members) =>
          negb (forallb (fitsTaskID config) (identifiers members))
      | _ => true
      end
  end.

(** What a value makes of an identifier. *)
Definition setBy (id : TaskID) (v : json) : TaskID :=
  match v with
  | JString s => StringID s
  | JInt z => IntID z
  | _ => id
  end.

(** The identifier an answer leaves: the last one it sets, or the zero
    identifier when it sets none. *)
Definition identifierOf (config : Config) (x : Exchange) : TaskID :=
  match outcome x with
  | Refused _ => zeroTaskID config
  | Replied r =>
      match Body r with
      | Document (JObject members) =>
          fold_left setBy (identifiers members) (zeroTaskID config)
      | _ => zeroTaskID config
      end
  end.

(** The names status, solution and taskId as a document may spell them:
    with the long s and the Kelvin sign. *)
Definition longS : string := String "197" (String "191" EmptyString).
Definition kelvinSign : string :=
  String "226" (String "132" (String "170" EmptyString)).

(** The capture of the clearance cookie as the specification words it:
    status 200 is all an answer needs. *)
Definition Status200YieldsClearance : Prop :=
  forall (urlParses : string -> bool) (config : Config)
         (email captchaToken : string) (w : World) (x : Exchange)
         (rest : list Exchange) (r : Response),
    canSubmit urlParses config = true ->
    network w = x :: rest ->
    outcome x = Replied r ->
    StatusCode r = 200 ->
    (forall (before : list Cookie) (c : Cookie) (after : list Cookie),
        Cookies r = (before ++ c :: after)%list ->
        Forall (fun k => Name k <> "cf_clearance") before ->
        Name c = "cf_clearance" ->
        fst (submitPromoEntry urlParses config email captchaToken w)
        = Ok (Value c))
    /\ (Forall (fun k => Name k <> "cf_clearance") (Cookies r) ->
        fst (submitPromoEntry urlParses config email captchaToken w) = Ok "").

(** The primary entry is answered with status 200 and the clearance
    cookie, and the body breaks off while it is read. *)
Definition truncatedWorld : World :=
  worldWith [reply 100 200 [{| Name := "cf_clearance"; Value := "CLR" |}]
                   Unreadable].

(** Two configurations agree on everything but the retries and the
    timeout. *)
Definition sameOtherSettings (c c' : Config) : Prop :=
  CloudflareAPIToken c' = CloudflareAPIToken c
  /\ EZCaptchaAPIKey c' = EZCaptchaAPIKey c
  /\ TwoCaptchaAPIKey c' = TwoCaptchaAPIKey c
  /\ RecaptchaSiteKey c' = RecaptchaSiteKey c
  /\ EmailDomain c' = EmailDomain c
  /\ CloudflareZoneID c' = CloudflareZoneID c
  /\ ForwardToEmail c' = ForwardToEmail c
  /\ MonsterPromoURL c' = MonsterPromoURL c
  /\ MonsterSubmitURL c' = MonsterSubmitURL c
  /\ UseProxy c' = UseProxy c
  /\ ProxyUsername c' = ProxyUsername c
  /\ ProxyPassword c' = ProxyPassword c
  /\ ProxyDNS c' = ProxyDNS c
  /\ ProxyPort c' = ProxyPort c
  /\ UseCloudflareEmail c' = UseCloudflareEmail c
  /\ DebugMode c' = DebugMode c
  /\ UseTwoCaptcha c' = UseTwoCaptcha c.

(** ** Properties *)

(** The decoder finds the fields under the spellings that fold to their
    tags: a poll whose status and solution are written with the long s is
    ready with its token, and a [createTask] answer whose taskId is written
    with the long s and the Kelvin sign sets the identifier. *)
Lemma folded_names_select_the_fields :
  classify
    (reply 100 200 []
       (Document
          (JObject
             [(longS ++ "tatus", JString "ready");
              (longS ++ "olution",
               JObject [("GRECAPTCHARESPONSE", JString "T")])])))
  = Solved "T"
  /\ taskOf sampleConfig
       (reply 100 200 []
          (Document (JObject [("ta" ++ longS ++ kelvinSign ++ "ID", JInt 5)])))
     = None
  /\ taskOf sampleConfig
       (reply 100 200 []
          (Document
             (JObject [("ta" ++ longS ++ kelvinSign ++ "ID", JString "abc")])))
     = Some (StringID "abc").
Proof. repeat split; vm_compute; reflexivity. Qed.


(** *** One round trip, one poll *)

Lemma clientDo_next (rq : Request) (w : World) (x : Exchange)
    (rest : list Exchange) :
  network w = x :: rest ->
  clientDo rq w =
    (match outcome x with
     | Refused reason => Err (TransportError reason)
     | Replied r => Ok r
     end, afterRoundTrip rq x w).
Proof.
  intros Hnet. unfold clientDo, afterRoundTrip. rewrite Hnet. cbn [tl].
  destruct (outcome x); reflexivity.
Qed.

Lemma pollOnce_answered (rq : Request) (w : World) (x : Exchange)
    (rest : list Exchange) (r : eZCaptchaResult) :
  network w = x :: rest ->
  answer x = Some r ->
  pollOnce rq w = (Ok r, afterRoundTrip rq x w).
Proof.
  intros Hnet Hans. unfold pollOnce, bind.
  rewrite (clientDo_next rq w x rest Hnet).
  unfold answer in Hans. destruct (outcome x) as [reason | resp]; [discriminate |].
  unfold decodeBody. destruct (Body resp); try discriminate.
  rewrite Hans. reflexivity.
Qed.

Lemma pollOnce_failed (rq : Request) (w : World) (x : Exchange)
    (rest : list Exchange) :
  network w = x :: rest ->
  answer x = None ->
  exists e, pollOnce rq w = (Err e, afterRoundTrip rq x w).
Proof.
  intros Hnet Hans. unfold pollOnce, bind.
  rewrite (clientDo_next rq w x rest Hnet).
  unfold answer in Hans. destruct (outcome x) as [reason | resp].
  - eexists; reflexivity.
  - unfold decodeBody. destruct (Body resp); try (eexists; reflexivity).
    rewrite Hans. eexists; reflexivity.
Qed.

(** One iteration of the polling loop, by the outcome of its poll. *)
Lemma pollLoop_step (config : Config) (rq : Request) (start : Z) (n : nat)
    (w : World) (x : Exchange) (rest : list Exchange) :
  network w = x :: rest ->
  pollLoop config (pollOnce rq) start (S n) w =
    let w' := afterRoundTrip rq x (slept w) in
    match classify x with
    | Solved token => (Ok token, w')
    | Failed => pollLoop config (pollOnce rq) start n w'
    | Pending =>
        if exceeds (CaptchaTimeout config) (clock w' - start) then
          (Err (CaptchaTimedOut (CaptchaTimeout config)), w')
        else pollLoop config (pollOnce rq) start n w'
    end.
Proof.
  intros Hnet.
  assert (Hslept : network (slept w) = x :: rest) by exact Hnet.
  cbn [pollLoop]. unfold bind at 1. cbn [timeSleep].
  change {| clock := clock w + 10 * Second; network := network w;
            requests := requests w; stdin := stdin w; entropy := entropy w;
            disk := disk w; submissionsLog := submissionsLog w |}
    with (slept w).
  unfold classify. destruct (answer x) as [r |] eqn:Hans.
  - rewrite (pollOnce_answered rq (slept w) x rest r Hslept Hans).
    cbv zeta. destruct (String.eqb (Status r) "ready"); reflexivity.
  - destruct (pollOnce_failed rq (slept w) x rest Hslept Hans) as [e He].
    rewrite He. reflexivity.
Qed.

(** *** A run of polls *)

Lemma afterPolls_clock (rq : Request) (polls : list Exchange) (w : World) :
  clock (afterPolls rq polls w) = clock w + elapsedAfter polls.
Proof.
  revert w. induction polls as [| x polls IH]; intros w;
    cbn [afterPolls elapsedAfter].
  - lia.
  - rewrite IH. cbn [afterRoundTrip slept clock]. lia.
Qed.

Lemma afterPolls_network (rq : Request) (polls rest : list Exchange)
    (w : World) :
  network w = (polls ++ rest)%list ->
  network (afterPolls rq polls w) = rest.
Proof.
  revert w. induction polls as [| x polls IH]; intros w Hnet;
    cbn [afterPolls].
  - exact Hnet.
  - apply IH. cbn [afterRoundTrip slept network]. rewrite Hnet. reflexivity.
Qed.

Lemma afterPolls_requests (rq : Request) (polls : list Exchange) (w : World) :
  requests (afterPolls rq polls w) =
  (requests w ++ repeat rq (List.length polls))%list.
Proof.
  revert w. induction polls as [| x polls IH]; intros w;
    cbn [afterPolls List.length repeat].
  - now rewrite app_nil_r.
  - rewrite IH. cbn [afterRoundTrip slept requests].
    now rewrite <- app_assoc.
Qed.

Lemma afterPolls_app (rq : Request) (xs ys : list Exchange) (w : World) :
  afterPolls rq (xs ++ ys)%list w = afterPolls rq ys (afterPolls rq xs w).
Proof.
  revert w. induction xs as [| x xs IH]; intros w;
    cbn [app afterPolls]; [reflexivity |].
  apply IH.
Qed.

Lemma elapsedAfter_app (xs ys : list Exchange) :
  elapsedAfter (xs ++ ys)%list = elapsedAfter xs + elapsedAfter ys.
Proof. induction xs as [| x xs IH]; cbn [app elapsedAfter]; lia. Qed.

(** Polls that keep the loop running are played one after the other. *)
Lemma pollLoop_skip (config : Config) (rq : Request) (start : Z)
    (before : list Exchange) :
  forall (n : nat) (w : World) (rest : list Exchange),
    network w = (before ++ rest)%list ->
    keepsPolling (CaptchaTimeout config) (clock w - start) before = true ->
    pollLoop config (pollOnce rq) start (List.length before + n) w =
    pollLoop config (pollOnce rq) start n (afterPolls rq before w).
Proof.
  induction before as [| x before IH]; intros n w rest Hnet Hkeep.
  - reflexivity.
  - cbn [List.length Nat.add afterPolls].
    rewrite (pollLoop_step config rq start _ w x (before ++ rest)%list Hnet).
    cbv zeta. cbn [keepsPolling] in Hkeep.
    assert (Hclock : clock (afterRoundTrip rq x (slept w)) - start
                     = clock w - start + (10 * Second + took x))
      by (cbn [afterRoundTrip slept clock]; lia).
    assert (Hnet' : network (afterRoundTrip rq x (slept w)) = (before ++ rest)%list)
      by (cbn [afterRoundTrip slept network]; rewrite Hnet; reflexivity).
    destruct (classify x) as [token | |].
    + discriminate.
    + apply andb_true_iff in Hkeep. destruct Hkeep as [Hin Hkeep].
      rewrite Hclock. apply negb_true_iff in Hin. rewrite Hin.
      apply (IH n _ rest Hnet'). rewrite Hclock. exact Hkeep.
    + apply (IH n _ rest Hnet'). rewrite Hclock. exact Hkeep.
Qed.

(** *** Counting the polls *)

Lemma isPollRequest_poll (config : Config) (id : TaskID) :
  isPollRequest (pollRequest config id) = true.
Proof.
  destruct id; unfold isPollRequest, pollRequest, jsonRequest; cbn [URL];
    rewrite String.eqb_refl; [reflexivity | apply orb_true_r].
Qed.

Lemma isPollRequest_create (config : Config) :
  isPollRequest (createRequest config) = false.
Proof.
  unfold createRequest. destruct (UseTwoCaptcha config);
    unfold isPollRequest, jsonRequest; cbn [URL]; vm_compute; reflexivity.
Qed.

Lemma pollsIssued_afterRoundTrip (rq : Request) (x : Exchange) (w : World) :
  pollsIssued (afterRoundTrip rq x w) =
  (pollsIssued w + (if isPollRequest rq then 1 else 0))%nat.
Proof.
  unfold pollsIssued. cbn [afterRoundTrip requests].
  rewrite filter_app, length_app. cbn [filter].
  destruct (isPollRequest rq); reflexivity.
Qed.

Lemma pollsIssued_slept (w : World) : pollsIssued (slept w) = pollsIssued w.
Proof. reflexivity. Qed.

Lemma pollsIssued_afterPolls (config : Config) (id : TaskID)
    (polls : list Exchange) (w : World) :
  pollsIssued (afterPolls (pollRequest config id) polls w) =
  (pollsIssued w + List.length polls)%nat.
Proof.
  revert w. induction polls as [| x polls IH]; intros w;
    cbn [afterPolls List.length].
  - lia.
  - rewrite IH, pollsIssued_afterRoundTrip, pollsIssued_slept,
      isPollRequest_poll. lia.
Qed.

(** *** From [createTask] into the loop *)

(** A task was created: the solver enters its loop, the clock read at the
    end of the [createTask] round trip. *)
Lemma solveCaptcha_created (config : Config) (w : World) (x : Exchange)
    (script : list Exchange) (id : TaskID) :
  network w = x :: script ->
  taskOf config x = Some id ->
  solveCaptcha config w =
  pollLoop config (pollOnce (pollRequest config id)) (clock w + took x)
    (Z.to_nat (MaxCaptchaRetries config))
    (afterRoundTrip (createRequest config) x w).
Proof.
  intros Hnet Htask. unfold taskOf in Htask.
  unfold solveCaptcha, createRequest.
  destruct (outcome x) as [reason | resp] eqn:Hout; [discriminate |].
  destruct (Body resp) as [| raw | v] eqn:Hbody; try discriminate.
  destruct (UseTwoCaptcha config).
  - destruct (decodeStruct taskIDIntField v 0) as [z |] eqn:Hdec;
      [| discriminate].
    injection Htask as <-.
    unfold solveCaptchaWith2Captcha, httpPostJSON, bind at 1.
    rewrite (clientDo_next _ w x script Hnet), Hout.
    unfold bind at 1, decodeBody. rewrite Hbody, Hdec. reflexivity.
  - destruct (decodeStruct taskIDStringField v "") as [s |] eqn:Hdec;
      [| discriminate].
    injection Htask as <-.
    unfold solveCaptchaWithEZCaptcha, httpPostJSON, bind at 1.
    rewrite (clientDo_next _ w x script Hnet), Hout.
    unfold bind at 1, decodeBody. rewrite Hbody, Hdec. reflexivity.
Qed.

(** No task was created: the solver returns the error of [http.Post] or
    of [Decode] right after the [createTask] round trip. *)
Lemma solveCaptcha_not_created (config : Config) (w : World) (x : Exchange)
    (script : list Exchange) :
  network w = x :: script ->
  taskOf config x = None ->
  exists e,
    solveCaptcha config w =
      (Err e, afterRoundTrip (createRequest config) x w)
    /\ (e = JSONError \/ exists reason, e = TransportError reason).
Proof.
  intros Hnet Htask. unfold taskOf in Htask.
  unfold solveCaptcha, createRequest.
  destruct (UseTwoCaptcha config).
  - unfold solveCaptchaWith2Captcha, httpPostJSON, bind at 1.
    rewrite (clientDo_next _ w x script Hnet).
    destruct (outcome x) as [reason | resp].
    + eexists; split; [reflexivity | right; eexists; reflexivity].
    + unfold bind at 1, decodeBody.
      destruct (Body resp) as [| raw | v];
        try (eexists; split; [reflexivity | left; reflexivity]).
      destruct (decodeStruct taskIDIntField v 0); [discriminate |].
      eexists; split; [reflexivity | left; reflexivity].
  - unfold solveCaptchaWithEZCaptcha, httpPostJSON, bind at 1.
    rewrite (clientDo_next _ w x script Hnet).
    destruct (outcome x) as [reason | resp].
    + eexists; split; [reflexivity | right; eexists; reflexivity].
    + unfold bind at 1, decodeBody.
      destruct (Body resp) as [| raw | v];
        try (eexists; split; [reflexivity | left; reflexivity]).
      destruct (decodeStruct taskIDStringField v ""); [discriminate |].
      eexists; split; [reflexivity | left; reflexivity].
Qed.

Lemma atPoll_pollsIssued (config : Config) (id : TaskID) (x : Exchange)
    (before : list Exchange) (p : Exchange) (w : World) :
  pollsIssued (atPoll config id x before p w) =
  (pollsIssued w + List.length before + 1)%nat.
Proof.
  unfold atPoll.
  rewrite pollsIssued_afterRoundTrip, pollsIssued_slept,
    pollsIssued_afterPolls, pollsIssued_afterRoundTrip,
    isPollRequest_poll, isPollRequest_create. lia.
Qed.

Lemma atPoll_network (config : Config) (id : TaskID) (x : Exchange)
    (before : list Exchange) (p : Exchange) (after : list Exchange)
    (w : World) :
  network w = x :: (before ++ p :: after)%list ->
  network (atPoll config id x before p w) = after.
Proof.
  intros Hnet. unfold atPoll. cbn [afterRoundTrip slept network].
  rewrite (afterPolls_network _ before (p :: after)); [reflexivity |].
  cbn [afterRoundTrip network]. rewrite Hnet. reflexivity.
Qed.

Lemma afterPolls_submissionsLog (rq : Request) (polls : list Exchange)
    (w : World) :
  submissionsLog (afterPolls rq polls w) = submissionsLog w.
Proof.
  revert w. induction polls as [| y polls IH]; intros w; cbn [afterPolls];
    [reflexivity | now rewrite IH].
Qed.

Lemma atPoll_submissionsLog (config : Config) (id : TaskID) (x : Exchange)
    (before : list Exchange) (p : Exchange) (w : World) :
  submissionsLog (atPoll config id x before p w) = submissionsLog w.
Proof.
  unfold atPoll. cbn [afterRoundTrip slept submissionsLog].
  now rewrite afterPolls_submissionsLog.
Qed.

(** The solver at attempt [length before + 1]: the polls [before] kept the
    loop running, the poll [p] decides what happens next. *)
Lemma solveCaptcha_at_attempt (config : Config) (w : World) (x : Exchange)
    (before : list Exchange) (p : Exchange) (after : list Exchange)
    (id : TaskID) :
  network w = x :: (before ++ p :: after)%list ->
  taskOf config x = Some id ->
  (List.length before < Z.to_nat (MaxCaptchaRetries config))%nat ->
  keepsPolling (CaptchaTimeout config) 0 before = true ->
  solveCaptcha config w =
    let w' := atPoll config id x before p w in
    let continue :=
      pollLoop config (pollOnce (pollRequest config id)) (clock w + took x)
        (Z.to_nat (MaxCaptchaRetries config) - List.length before - 1) w' in
    match classify p with
    | Solved token => (Ok token, w')
    | Failed => continue
    | Pending =>
        if exceeds (CaptchaTimeout config)
                   (elapsedAfter (before ++ [p])%list) then
          (Err (CaptchaTimedOut (CaptchaTimeout config)), w')
        else continue
    end.
Proof.
  intros Hnet Htask Hlt Hkeep.
  rewrite (solveCaptcha_created config w x _ id Hnet Htask).
  set (rq := pollRequest config id).
  set (w1 := afterRoundTrip (createRequest config) x w).
  set (start := clock w + took x).
  assert (Hnet1 : network w1 = (before ++ p :: after)%list)
    by (unfold w1; cbn [afterRoundTrip network]; rewrite Hnet; reflexivity).
  assert (Hzero : clock w1 - start = 0)
    by (unfold w1, start; cbn [afterRoundTrip clock]; lia).
  replace (Z.to_nat (MaxCaptchaRetries config))
    with (List.length before
          + S (Z.to_nat (MaxCaptchaRetries config) - List.length before - 1))%nat
    at 1 by lia.
  rewrite (pollLoop_skip config rq start before _ w1 (p :: after) Hnet1)
    by (rewrite Hzero; exact Hkeep).
  rewrite (pollLoop_step config rq start _ _ p after
             (afterPolls_network rq before (p :: after) w1 Hnet1)).
  cbv zeta. unfold atPoll. fold rq. fold w1.
  replace (clock (afterRoundTrip rq p (slept (afterPolls rq before w1)))
           - start)
    with (elapsedAfter (before ++ [p])%list); [reflexivity |].
  cbn [afterRoundTrip slept clock].
  rewrite afterPolls_clock, elapsedAfter_app. cbn [elapsedAfter]. lia.
Qed.

(** *** Inside the timeout *)

(** Polls that are not ready keep the loop running as long as the time
    elapsed after each of them does not exceed the timeout. *)
Lemma keepsPolling_within (timeout : float64) (polls : list Exchange) :
  forall elapsed : Z,
    Forall (fun q => forall token, classify q <> Solved token) polls ->
    (forall k : nat,
        (1 <= k <= List.length polls)%nat ->
        exceeds timeout (elapsed + elapsedAfter (firstn k polls)) = false) ->
    keepsPolling timeout elapsed polls = true.
Proof.
  induction polls as [| x polls IH]; intros elapsed Hnot Hin;
    [reflexivity |].
  inversion Hnot as [| ? ? Hx Hrest]; subst.
  cbn [keepsPolling].
  assert (Hfirst : exceeds timeout (elapsed + (10 * Second + took x)) = false).
  { specialize (Hin 1%nat). cbn [firstn elapsedAfter List.length] in Hin.
    replace (elapsed + (10 * Second + took x))
      with (elapsed + (10 * Second + took x + 0)) by lia.
    apply Hin. lia. }
  assert (Hnext : keepsPolling timeout (elapsed + (10 * Second + took x)) polls
                  = true).
  { apply IH; [exact Hrest |]. intros k Hk.
    specialize (Hin (S k)). cbn [firstn elapsedAfter List.length] in Hin.
    replace (elapsed + (10 * Second + took x) + elapsedAfter (firstn k polls))
      with (elapsed + (10 * Second + took x + elapsedAfter (firstn k polls)))
      by lia.
    apply Hin. lia. }
  destruct (classify x) as [token | |].
  - exfalso. exact (Hx token eq_refl).
  - rewrite Hfirst, Hnext. reflexivity.
  - exact Hnext.
Qed.

Lemma Forall_pending_not_solved (polls : list Exchange) :
  Forall (fun q => classify q = Pending) polls ->
  Forall (fun q => forall token, classify q <> Solved token) polls.
Proof.
  intros H. eapply Forall_impl; [| exact H].
  intros q Hq token. rewrite Hq. discriminate.
Qed.

Lemma taskOf_some (config : Config) (x : Exchange) :
  taskOf config x <> None -> exists id, taskOf config x = Some id.
Proof.
  destruct (taskOf config x) as [id |]; [eauto | congruence].
Qed.

(** ** The claims *)

(** C3.  With [maxRetries = n] and a provider whose every poll answers a
    status other than ready, without error, the solver makes exactly [n]
    polls and then fails with the attempts error, provided the timeout is
    never exceeded during the loop. *)
Theorem pending_provider_exhausts_retries (config : Config) (w : World)
    (x : Exchange) (polls rest : list Exchange) :
  network w = x :: (polls ++ rest)%list ->
  taskOf config x <> None ->
  0 <= MaxCaptchaRetries config ->
  Z.of_nat (List.length polls) = MaxCaptchaRetries config ->
  Forall (fun q => classify q = Pending) polls ->
  (forall k : nat,
      (1 <= k <= List.length polls)%nat ->
      exceeds (CaptchaTimeout config) (elapsedAfter (firstn k polls)) = false) ->
  exists w' : World,
    solveCaptcha config w =
      (Err (CaptchaAttemptsFailed (MaxCaptchaRetries config)), w')
    /\ Z.of_nat (pollsIssued w') =
       Z.of_nat (pollsIssued w) + MaxCaptchaRetries config
    /\ network w' = rest.
Proof.
  intros Hnet Htask Hpos Hlen Hpending Hin.
  destruct (taskOf_some config x Htask) as [id Hid].
  set (rq := pollRequest config id).
  set (w1 := afterRoundTrip (createRequest config) x w).
  exists (afterPolls rq polls w1).
  assert (Hnet1 : network w1 = (polls ++ rest)%list)
    by (unfold w1; cbn [afterRoundTrip network]; rewrite Hnet; reflexivity).
  split; [| split].
  - rewrite (solveCaptcha_created config w x _ id Hnet Hid).
    fold rq. fold w1.
    replace (Z.to_nat (MaxCaptchaRetries config))
      with (List.length polls + 0)%nat by lia.
    rewrite (pollLoop_skip config rq (clock w + took x) polls 0 w1 rest Hnet1).
    + reflexivity.
    + replace (clock w1 - (clock w + took x)) with 0
        by (unfold w1; cbn [afterRoundTrip clock]; lia).
      apply keepsPolling_within.
      * apply Forall_pending_not_solved. exact Hpending.
      * intros k Hk. cbn [Z.add]. exact (Hin k Hk).
  - unfold rq. rewrite pollsIssued_afterPolls. unfold w1.
    rewrite pollsIssued_afterRoundTrip, isPollRequest_create. lia.
  - apply afterPolls_network. exact Hnet1.
Qed.

Lemma firstn_app_within {A : Type} (k : nat) (xs ys : list A) :
  (k <= List.length xs)%nat -> firstn k (xs ++ ys)%list = firstn k xs.
Proof.
  intros Hk. rewrite firstn_app.
  replace (k - List.length xs)%nat with 0%nat by lia.
  cbn [firstn]. apply app_nil_r.
Qed.

(** C4.  When the poll of attempt [k <= maxRetries] is ready and the time
    elapsed up to it stays within the timeout, earlier polls not being
    ready, the solver returns the token of that poll after exactly [k]
    polls and leaves the rest of the script untouched.  In the scenario of
    the specification it returns XYZ after three polls. *)
Theorem ready_poll_returns_token :
  (forall (config : Config) (w : World) (x : Exchange)
          (before : list Exchange) (p : Exchange) (after : list Exchange)
          (token : string),
      network w = x :: (before ++ p :: after)%list ->
      taskOf config x <> None ->
      (List.length before < Z.to_nat (MaxCaptchaRetries config))%nat ->
      Forall (fun q => forall t, classify q <> Solved t) before ->
      (forall k : nat,
          (1 <= k <= List.length before + 1)%nat ->
          exceeds (CaptchaTimeout config)
                  (elapsedAfter (firstn k (before ++ [p])%list)) = false) ->
      classify p = Solved token ->
      exists w' : World,
        solveCaptcha config w = (Ok token, w')
        /\ pollsIssued w' = (pollsIssued w + List.length before + 1)%nat
        /\ network w' = after)
  /\ fst (solveCaptchaWithEZCaptcha sampleConfig scenarioWorld) = Ok "XYZ"
  /\ pollsIssued (snd (solveCaptchaWithEZCaptcha sampleConfig scenarioWorld))
     = 3%nat.
Proof.
  split; [| split; vm_compute; reflexivity].
  intros config w x before p after token Hnet Htask Hlt Hnot Hin Hready.
  destruct (taskOf_some config x Htask) as [id Hid].
  exists (atPoll config id x before p w). split; [| split].
  - rewrite (solveCaptcha_at_attempt config w x before p after id
               Hnet Hid Hlt).
    + cbv zeta. rewrite Hready. reflexivity.
    + apply keepsPolling_within; [exact Hnot |].
      intros k Hk. cbn [Z.add].
      rewrite <- (firstn_app_within k before [p]) by lia.
      apply Hin. lia.
  - apply atPoll_pollsIssued.
  - apply (atPoll_network config id x before p after w Hnet).
Qed.

(** C10.  A poll that is ready ends the solver with its token even when
    the time elapsed at that attempt already exceeds the timeout: the
    status is looked at before the clock. *)
Theorem late_ready_poll_still_succeeds (config : Config) (w : World)
    (x : Exchange) (before : list Exchange) (p : Exchange)
    (after : list Exchange) (token : string) :
  network w = x :: (before ++ p :: after)%list ->
  taskOf config x <> None ->
  (List.length before < Z.to_nat (MaxCaptchaRetries config))%nat ->
  keepsPolling (CaptchaTimeout config) 0 before = true ->
  classify p = Solved token ->
  exceeds (CaptchaTimeout config) (elapsedAfter (before ++ [p])%list) = true ->
  exists w' : World,
    solveCaptcha config w = (Ok token, w')
    /\ pollsIssued w' = (pollsIssued w + List.length before + 1)%nat
    /\ network w' = after.
Proof.
  intros Hnet Htask Hlt Hkeep Hready Hlate.
  destruct (taskOf_some config x Htask) as [id Hid].
  exists (atPoll config id x before p w). split; [| split].
  - rewrite (solveCaptcha_at_attempt config w x before p after id
               Hnet Hid Hlt Hkeep).
    cbv zeta. rewrite Hready. reflexivity.
  - apply atPoll_pollsIssued.
  - apply (atPoll_network config id x before p after w Hnet).
Qed.

(** C1, as the program has it.  When a poll answers a status other than
    ready, without error, and the time elapsed after it exceeds the
    timeout, the solver fails at once with the timeout error, whatever the
    number of attempts left and whatever the later polls would answer. *)
Theorem pending_poll_past_timeout_fails (config : Config) (w : World)
    (x : Exchange) (before : list Exchange) (p : Exchange)
    (after : list Exchange) :
  network w = x :: (before ++ p :: after)%list ->
  taskOf config x <> None ->
  (List.length before < Z.to_nat (MaxCaptchaRetries config))%nat ->
  keepsPolling (CaptchaTimeout config) 0 before = true ->
  classify p = Pending ->
  exceeds (CaptchaTimeout config) (elapsedAfter (before ++ [p])%list) = true ->
  exists w' : World,
    solveCaptcha config w =
      (Err (CaptchaTimedOut (CaptchaTimeout config)), w')
    /\ pollsIssued w' = (pollsIssued w + List.length before + 1)%nat
    /\ network w' = after.
Proof.
  intros Hnet Htask Hlt Hkeep Hpending Hlate.
  destruct (taskOf_some config x Htask) as [id Hid].
  exists (atPoll config id x before p w). split; [| split].
  - rewrite (solveCaptcha_at_attempt config w x before p after id
               Hnet Hid Hlt Hkeep).
    cbv zeta. rewrite Hpending, Hlate. reflexivity.
  - apply atPoll_pollsIssued.
  - apply (atPoll_network config id x before p after w Hnet).
Qed.

(** C1, as the specification words it, fails: a solution that arrives 130
    seconds into the first poll, against a timeout of 120 seconds, is
    returned. *)
Lemma timeout_does_not_preempt_ready : ~ TimeoutPreemptsEveryOutcome.
Proof.
  intros Hclaim.
  destruct (Hclaim sampleConfig lateReadyWorld
              (reply 100 200 [] (created (JString "abc")))
              [] (reply 130000 200 [] (ready "XYZ"))
              [reply 100 200 [] processing])
    as [w' Hw'].
  - reflexivity.
  - vm_compute. discriminate.
  - vm_compute. lia.
  - reflexivity.
  - vm_compute. reflexivity.
  - vm_compute in Hw'. discriminate.
Qed.

(** *** What the loop sends *)

Lemma pollOnce_requests (rq : Request) (w : World) :
  requests (snd (pollOnce rq w)) = (requests w ++ [rq])%list.
Proof.
  unfold pollOnce, bind, clientDo.
  destruct (network w) as [| x rest]; [reflexivity |].
  destruct (outcome x) as [reason | resp]; [reflexivity |].
  unfold decodeBody. destruct (Body resp) as [| raw | v]; try reflexivity.
  destruct (decodeStruct resultField v zeroResult); reflexivity.
Qed.

(** The loop sends its poll request at least once when it has an attempt
    to make, at most once per attempt, and nothing else. *)
Lemma pollLoop_issues (config : Config) (rq : Request) (start : Z) (n : nat) :
  forall w : World,
  exists k : nat,
    (k <= n)%nat /\ ((0 < n)%nat -> (1 <= k)%nat)
    /\ requests (snd (pollLoop config (pollOnce rq) start n w)) =
       (requests w ++ repeat rq k)%list.
Proof.
  induction n as [| n IH]; intros w.
  - exists 0%nat. cbn [pollLoop fail snd repeat]. rewrite app_nil_r.
    repeat split; lia.
  - cbn [pollLoop]. unfold bind at 1. cbn [timeSleep].
    change {| clock := clock w + 10 * Second; network := network w;
              requests := requests w; stdin := stdin w; entropy := entropy w;
              disk := disk w; submissionsLog := submissionsLog w |}
      with (slept w).
    pose proof (pollOnce_requests rq (slept w)) as Hsent.
    destruct (pollOnce rq (slept w)) as [[r | e] w2]; cbn [snd] in Hsent;
      cbn [slept requests] in Hsent.
    + destruct (String.eqb (Status r) "ready").
      { exists 1%nat. cbn [snd repeat]. repeat split; [lia | lia | exact Hsent]. }
      destruct (PrimFloat.ltb (CaptchaTimeout config)
                              (Seconds (clock w2 - start))).
      { exists 1%nat. cbn [snd repeat]. repeat split; [lia | lia | exact Hsent]. }
      destruct (IH w2) as [k [Hk [_ Hreq]]].
      exists (S k). rewrite Hreq, Hsent, <- app_assoc. cbn [repeat app].
      repeat split; lia.
    + destruct (IH w2) as [k [Hk [_ Hreq]]].
      exists (S k). rewrite Hreq, Hsent, <- app_assoc. cbn [repeat app].
      repeat split; lia.
Qed.

Lemma decode_string_identifiers (config : Config)
    (members : list (string * json)) :
  UseTwoCaptcha config = false ->
  forall acc : string,
    option_map StringID (decodeMembers taskIDStringField members acc) =
    if forallb (fitsTaskID config) (identifiers members) then
      Some (fold_left setBy (identifiers members) (StringID acc))
    else None.
Proof.
  intros Hez. induction members as [| [k v] members IH]; intros acc.
  - reflexivity.
  - cbn [decodeMembers]. unfold identifiers. cbn [filter fst].
    unfold taskIDStringField at 1.
    destruct (keyMatches "taskId" k).
    + cbn [map snd forallb fold_left]. fold (identifiers members).
      destruct v; cbn [decodeString fitsTaskID setBy]; rewrite ?Hez;
        cbn [negb andb option_map]; try reflexivity; apply IH.
    + fold (identifiers members). apply IH.
Qed.

Lemma decode_int_identifiers (config : Config)
    (members : list (string * json)) :
  UseTwoCaptcha config = true ->
  forall acc : Z,
    option_map IntID (decodeMembers taskIDIntField members acc) =
    if forallb (fitsTaskID config) (identifiers members) then
      Some (fold_left setBy (identifiers members) (IntID acc))
    else None.
Proof.
  intros Htwo. induction members as [| [k v] members IH]; intros acc.
  - reflexivity.
  - cbn [decodeMembers]. unfold identifiers. cbn [filter fst].
    unfold taskIDIntField at 1.
    destruct (keyMatches "taskId" k).
    + cbn [map snd forallb fold_left]. fold (identifiers members).
      destruct v; cbn [decodeInt fitsTaskID setBy]; rewrite ?Htwo;
        cbn [negb andb option_map]; try reflexivity; try apply IH.
      destruct ((minInt64 <=? z) && (z <=? maxInt64));
        cbn [andb option_map]; [apply IH | reflexivity].
    + fold (identifiers members). apply IH.
Qed.

(** The decoder of the solvers and the reading of the answer member by
    member agree. *)
Lemma taskOf_spec (config : Config) (x : Exchange) :
  taskOf config x =
  if rejected config x then None else Some (identifierOf config x).
Proof.
  unfold taskOf, rejected, identifierOf.
  destruct (outcome x) as [reason | r]; [reflexivity |].
  destruct (Body r) as [| raw | v]; try reflexivity.
  destruct (UseTwoCaptcha config) eqn:Htwo.
  - destruct v; try reflexivity.
    + unfold zeroTaskID. rewrite Htwo. reflexivity.
    + cbn [decodeStruct].
      rewrite (decode_int_identifiers config members Htwo 0).
      unfold zeroTaskID. rewrite Htwo.
      destruct (forallb (fitsTaskID config) (identifiers members));
        reflexivity.
  - destruct v; try reflexivity.
    + unfold zeroTaskID. rewrite Htwo. reflexivity.
    + cbn [decodeStruct].
      rewrite (decode_string_identifiers config members Htwo "").
      unfold zeroTaskID. rewrite Htwo.
      destruct (forallb (fitsTaskID config) (identifiers members));
        reflexivity.
Qed.

Lemma null_identifiers_set_nothing (config : Config) (ids : list json)
    (id : TaskID) :
  Forall (fun v => v = JNull) ids ->
  forallb (fitsTaskID config) ids = true /\ fold_left setBy ids id = id.
Proof.
  intros Hnull. induction Hnull as [| v ids Hv _ IH];
    cbn [forallb fold_left]; [split; reflexivity |].
  subst v. cbn [fitsTaskID setBy andb]. exact IH.
Qed.

(** C9, as the program has it.  The solver fails without a single poll
    exactly when the [createTask] round trip gives it an error: the call
    fails, the body is not JSON, the document is neither an object nor
    null, or a taskId member holds a value that is neither null nor of the
    identifier's type.  Every other answer starts the polling, with the
    last identifier it sets or with the zero identifier when it sets none:
    so are polled an answer that is null, an answer whose identifier is
    missing or null and, for EZ-Captcha, an answer whose identifier is
    empty. *)
Theorem undecodable_task_is_never_polled (config : Config) (w : World)
    (x : Exchange) (script : list Exchange) :
  network w = x :: script ->
  (rejected config x = true ->
   exists e : error,
     solveCaptcha config w =
       (Err e, afterRoundTrip (createRequest config) x w)
     /\ (e = JSONError \/ exists reason, e = TransportError reason)
     /\ pollsIssued (afterRoundTrip (createRequest config) x w)
        = pollsIssued w)
  /\ (rejected config x = false ->
      0 < MaxCaptchaRetries config ->
      exists k : nat,
        (1 <= k)%nat
        /\ requests (snd (solveCaptcha config w)) =
           (requests w
            ++ createRequest config
               :: repeat (pollRequest config (identifierOf config x)) k)%list)
  /\ (forall r : Response,
         outcome x = Replied r ->
         (Body r = Document JNull ->
          rejected config x = false
          /\ identifierOf config x = zeroTaskID config)
         /\ (forall members : list (string * json),
                Body r = Document (JObject members) ->
                Forall (fun v => v = JNull) (identifiers members) ->
                rejected config x = false
                /\ identifierOf config x = zeroTaskID config)
         /\ (forall (members : list (string * json)) (before : list json),
                Body r = Document (JObject members) ->
                UseTwoCaptcha config = false ->
                identifiers members = (before ++ [JString ""])%list ->
                forallb (fitsTaskID config) before = true ->
                rejected config x = false
                /\ identifierOf config x = StringID "")).
Proof.
  intros Hnet. pose proof (taskOf_spec config x) as Htask.
  split; [| split].
  - intros Hrej. rewrite Hrej in Htask.
    destruct (solveCaptcha_not_created config w x script Hnet Htask)
      as [e [Hrun Hkind]].
    exists e. repeat split; [exact Hrun | exact Hkind |].
    rewrite pollsIssued_afterRoundTrip, isPollRequest_create. lia.
  - intros Hrej Hpos. rewrite Hrej in Htask.
    rewrite (solveCaptcha_created config w x script _ Hnet Htask).
    destruct (pollLoop_issues config
                (pollRequest config (identifierOf config x))
                (clock w + took x) (Z.to_nat (MaxCaptchaRetries config))
                (afterRoundTrip (createRequest config) x w))
      as [k [_ [Hone Hreq]]].
    exists k. split; [apply Hone; lia |].
    rewrite Hreq. cbn [afterRoundTrip requests].
    rewrite <- app_assoc. reflexivity.
  - intros r Hout. unfold rejected, identifierOf. rewrite Hout.
    split; [| split].
    + intros Hbody. rewrite Hbody. split; reflexivity.
    + intros members Hbody Hnull. rewrite Hbody.
      destruct (null_identifiers_set_nothing config (identifiers members)
                  (zeroTaskID config) Hnull) as [Hfits Hid].
      rewrite Hfits, Hid. split; reflexivity.
    + intros members before Hbody Hez Hids Hbefore. rewrite Hbody, Hids.
      rewrite forallb_app, fold_left_app, Hbefore.
      cbn [forallb fitsTaskID fold_left setBy andb]. rewrite Hez.
      split; reflexivity.
Qed.

(** C9, as the specification words it, fails: an answer to [createTask]
    without a task identifier is polled, and the solution it yields is
    returned. *)
Lemma missing_task_identifier_is_polled : ~ InvalidTaskIsNeverPolled.
Proof.
  intros Hclaim.
  destruct (Hclaim sampleConfig missingTaskWorld
              (reply 100 200 [] (Document (JObject [])))
              [reply 100 200 [] (ready "XYZ")])
    as [e [w' [Hrun _]]].
  - reflexivity.
  - reflexivity.
  - vm_compute in Hrun. discriminate.
Qed.

(** *** The log file is written by [logSubmission] only *)

Create HintDb frame.

Lemma keepsLog_ret {A : Type} (a : A) : keepsLog (ret a).
Proof. intros w. reflexivity. Qed.

Lemma keepsLog_fail {A : Type} (e : error) : keepsLog (@fail A e).
Proof. intros w. reflexivity. Qed.

Lemma keepsLog_bind {A B : Type} (m : IO A) (k : A -> IO B) :
  keepsLog m -> (forall a, keepsLog (k a)) -> keepsLog (bind m k).
Proof.
  intros Hm Hk w. unfold bind. specialize (Hm w).
  destruct (m w) as [[a | e] w1]; cbn [snd] in *.
  - rewrite (Hk a w1). exact Hm.
  - exact Hm.
Qed.

Lemma keepsLog_wrap {A : Type} (context : string) (m : IO A) :
  keepsLog m -> keepsLog (wrap context m).
Proof.
  intros Hm w. unfold wrap. specialize (Hm w).
  destruct (m w) as [[a | e] w1]; exact Hm.
Qed.

Lemma keepsLog_timeNow : keepsLog timeNow.
Proof. intros w. reflexivity. Qed.

Lemma keepsLog_timeSleep (d : Z) : keepsLog (timeSleep d).
Proof. intros w. reflexivity. Qed.

Lemma keepsLog_clientDo (rq : Request) : keepsLog (clientDo rq).
Proof.
  intros w. unfold clientDo. destruct (network w) as [| x rest];
    [reflexivity |]. destruct (outcome x); reflexivity.
Qed.

Lemma keepsLog_randInt (max : nat) : keepsLog (randInt max).
Proof.
  intros w. unfold randInt. destruct (entropy w) as [| [n |] rest];
    reflexivity.
Qed.

Lemma keepsLog_getUserInput (prompt : string) : keepsLog (getUserInput prompt).
Proof.
  intros w. unfold getUserInput. destruct (stdin w); reflexivity.
Qed.

Lemma keepsLog_decodeBody {T : Type}
    (field : string -> json -> T -> option T) (zero : T) (resp : Response) :
  keepsLog (decodeBody field zero resp).
Proof.
  intros w. unfold decodeBody. destruct (Body resp); try reflexivity.
  destruct (decodeStruct field v zero); reflexivity.
Qed.

Lemma keepsLog_ioReadAll (resp : Response) : keepsLog (ioReadAll resp).
Proof. intros w. unfold ioReadAll. destruct (Body resp); reflexivity. Qed.

Lemma keepsLog_newRequest (urlParses : string -> bool) (method url : string)
    (body : Content) (proxy : option string) :
  keepsLog (newRequest urlParses method url body proxy).
Proof.
  intros w. unfold newRequest. destruct (urlParses url); reflexivity.
Qed.

#[local] Hint Resolve keepsLog_ret keepsLog_fail keepsLog_bind keepsLog_wrap
  keepsLog_timeNow keepsLog_timeSleep keepsLog_clientDo keepsLog_randInt
  keepsLog_getUserInput keepsLog_decodeBody keepsLog_ioReadAll
  keepsLog_newRequest : frame.

Lemma keepsLog_generateRandomAlias (length : nat) :
  keepsLog (generateRandomAlias length).
Proof.
  induction length as [| k IH]; cbn [generateRandomAlias]; auto 6 with frame.
Qed.

Lemma keepsLog_pollLoop (config : Config) (poll : IO eZCaptchaResult)
    (start : Z) (n : nat) :
  keepsLog poll -> keepsLog (pollLoop config poll start n).
Proof.
  intros Hpoll. induction n as [| n IH]; intros w; cbn [pollLoop].
  - reflexivity.
  - assert (Hstep : keepsLog (timeSleep (10 * Second) ;;; poll))
      by auto with frame.
    specialize (Hstep w).
    destruct ((timeSleep (10 * Second) ;;; poll) w) as [[r | e] w1];
      cbn [snd] in Hstep.
    + destruct (String.eqb (Status r) "ready"); [exact Hstep |].
      destruct (PrimFloat.ltb (CaptchaTimeout config)
                              (Seconds (clock w1 - start)));
        [exact Hstep |].
      rewrite (IH w1). exact Hstep.
    + rewrite (IH w1). exact Hstep.
Qed.

Lemma keepsLog_solveCaptcha (config : Config) : keepsLog (solveCaptcha config).
Proof.
  unfold solveCaptcha.
  destruct (UseTwoCaptcha config);
    [unfold solveCaptchaWith2Captcha, get2CaptchaTaskResult
    | unfold solveCaptchaWithEZCaptcha, getEZCaptchaTaskResult];
    unfold httpPostJSON;
    (apply keepsLog_bind; [auto with frame |]); intros resp;
    (apply keepsLog_bind; [auto with frame |]); intros taskID;
    (apply keepsLog_bind; [auto with frame |]); intros startTime;
    apply keepsLog_pollLoop; auto with frame.
Qed.

Lemma keepsLog_createCloudflareEmailAlias (urlParses : string -> bool)
    (formatRFC3339 : Z -> string) (config : Config) :
  keepsLog (createCloudflareEmailAlias urlParses formatRFC3339 config).
Proof.
  unfold createCloudflareEmailAlias.
  apply keepsLog_bind;
    [apply keepsLog_wrap, keepsLog_generateRandomAlias |]; intros alias.
  apply keepsLog_bind; [auto with frame |]; intros now.
  apply keepsLog_bind; [auto with frame |]; intros req.
  apply keepsLog_bind; [auto with frame |]; intros resp.
  destruct (StatusCode resp =? 200); auto with frame.
Qed.

Lemma keepsLog_obtainEmail (urlParses : string -> bool)
    (formatRFC3339 : Z -> string) (config : Config) :
  keepsLog (obtainEmail urlParses formatRFC3339 config).
Proof.
  unfold obtainEmail. destruct (UseCloudflareEmail config).
  - apply keepsLog_wrap, keepsLog_createCloudflareEmailAlias.
  - apply keepsLog_getUserInput.
Qed.

Lemma keepsLog_submitClient (urlParses : string -> bool) (config : Config) :
  keepsLog (submitClient urlParses config).
Proof.
  unfold submitClient. destruct (UseProxy config); [| auto with frame].
  destruct (urlParses (proxyURL config)); auto with frame.
Qed.

Lemma keepsLog_submitPromoEntry (urlParses : string -> bool)
    (config : Config) (email captchaToken : string) :
  keepsLog (submitPromoEntry urlParses config email captchaToken).
Proof.
  unfold submitPromoEntry.
  apply keepsLog_bind; [apply keepsLog_submitClient |]; intros client.
  apply keepsLog_bind; [auto with frame |]; intros req.
  apply keepsLog_bind; [auto with frame |]; intros resp.
  apply keepsLog_bind; [auto with frame |]; intros body.
  destruct (negb (StatusCode resp =? 200)); auto with frame.
Qed.

Lemma keepsLog_submitPromoEntryWithCookie (urlParses : string -> bool)
    (config : Config) (email captchaToken cfClearance : string) :
  keepsLog (submitPromoEntryWithCookie urlParses config email captchaToken
              cfClearance).
Proof.
  unfold submitPromoEntryWithCookie.
  apply keepsLog_bind; [apply keepsLog_submitClient |]; intros client.
  apply keepsLog_bind; [auto with frame |]; intros req.
  apply keepsLog_bind; [auto with frame |]; intros resp.
  apply keepsLog_bind; [auto with frame |]; intros body.
  destruct (negb (StatusCode resp =? 200)); auto with frame.
Qed.

(** *** The two submit functions *)

Lemma canSubmit_client (urlParses : string -> bool) (config : Config)
    (w : World) :
  canSubmit urlParses config = true ->
  submitClient urlParses config w =
    (Ok (if UseProxy config then Some (proxyURL config) else None), w)
  /\ urlParses (MonsterSubmitURL config) = true.
Proof.
  unfold canSubmit, submitClient. intros Hcan.
  apply andb_true_iff in Hcan. destruct Hcan as [Hproxy Hurl].
  split; [| exact Hurl].
  destruct (UseProxy config); [| reflexivity].
  rewrite Hproxy. reflexivity.
Qed.

(** A submit function that returns without error got its request out. *)
Lemma submitPromoEntry_ok_canSubmit (urlParses : string -> bool)
    (config : Config) (email captchaToken cfClearance : string)
    (w w' : World) :
  submitPromoEntry urlParses config email captchaToken w
  = (Ok cfClearance, w') ->
  canSubmit urlParses config = true.
Proof.
  unfold submitPromoEntry, canSubmit, submitClient, newRequest.
  unfold bind at 1.
  destruct (UseProxy config).
  - destruct (urlParses (proxyURL config)); [| discriminate].
    unfold ret at 1. unfold bind at 1.
    destruct (urlParses (MonsterSubmitURL config)); [reflexivity | discriminate].
  - unfold ret at 1. unfold bind at 1.
    destruct (urlParses (MonsterSubmitURL config)); [reflexivity | discriminate].
Qed.

(** [submitPromoEntry] on an answer whose body can be read. *)
Lemma submitPromoEntry_received (urlParses : string -> bool)
    (config : Config) (email captchaToken : string) (w : World)
    (x : Exchange) (rest : list Exchange) (r : Response) :
  canSubmit urlParses config = true ->
  network w = x :: rest ->
  outcome x = Replied r ->
  Body r <> Unreadable ->
  submitPromoEntry urlParses config email captchaToken w =
    (if StatusCode r =? 200 then Ok (clearanceOf (Cookies r))
     else Err (PromoStatus (StatusCode r)),
     afterRoundTrip (primaryRequest config email captchaToken) x w).
Proof.
  intros Hcan Hnet Hout Hbody.
  destruct (canSubmit_client urlParses config w Hcan) as [Hclient Hurl].
  unfold submitPromoEntry. unfold bind at 1. rewrite Hclient.
  unfold bind at 1, newRequest. rewrite Hurl. unfold ret at 1.
  unfold bind at 1.
  change (headerAdd "Cookie" "cookieconsent_status=dismiss" _)
    with (primaryRequest config email captchaToken).
  rewrite (clientDo_next _ w x rest Hnet), Hout.
  unfold bind at 1, wrap, ioReadAll.
  destruct (Body r) as [| raw | v]; [congruence | |];
    destruct (StatusCode r =? 200); reflexivity.
Qed.

(** [submitPromoEntryWithCookie] on an answer whose body can be read. *)
Lemma submitPromoEntryWithCookie_received (urlParses : string -> bool)
    (config : Config) (email captchaToken cfClearance : string) (w : World)
    (x : Exchange) (rest : list Exchange) (r : Response) :
  canSubmit urlParses config = true ->
  network w = x :: rest ->
  outcome x = Replied r ->
  Body r <> Unreadable ->
  submitPromoEntryWithCookie urlParses config email captchaToken cfClearance w =
    (if StatusCode r =? 200 then Ok ""
     else Err (AdditionalPromoStatus (StatusCode r)),
     afterRoundTrip (additionalRequest config email captchaToken cfClearance)
       x w).
Proof.
  intros Hcan Hnet Hout Hbody.
  destruct (canSubmit_client urlParses config w Hcan) as [Hclient Hurl].
  unfold submitPromoEntryWithCookie. unfold bind at 1. rewrite Hclient.
  unfold bind at 1, newRequest. rewrite Hurl. unfold ret at 1.
  unfold bind at 1.
  change (headerAdd "Cookie" _ _)
    with (additionalRequest config email captchaToken cfClearance).
  rewrite (clientDo_next _ w x rest Hnet), Hout.
  unfold bind at 1, wrap, ioReadAll.
  destruct (Body r) as [| raw | v]; [congruence | |];
    destruct (StatusCode r =? 200); reflexivity.
Qed.

Lemma clientDo_requests (rq : Request) (w : World) :
  requests (snd (clientDo rq w)) = (requests w ++ [rq])%list.
Proof.
  unfold clientDo. destruct (network w) as [| x rest]; [reflexivity |].
  destruct (outcome x); reflexivity.
Qed.

(** Whatever comes back, a submit function that can send its request
    sends exactly that one. *)
Lemma submitPromoEntryWithCookie_requests (urlParses : string -> bool)
    (config : Config) (email captchaToken cfClearance : string) (w : World) :
  canSubmit urlParses config = true ->
  requests (snd (submitPromoEntryWithCookie urlParses config email
                   captchaToken cfClearance w)) =
  (requests w ++ [additionalRequest config email captchaToken cfClearance])%list.
Proof.
  intros Hcan.
  destruct (canSubmit_client urlParses config w Hcan) as [Hclient Hurl].
  unfold submitPromoEntryWithCookie. unfold bind at 1. rewrite Hclient.
  unfold bind at 1, newRequest. rewrite Hurl. unfold ret at 1.
  unfold bind at 1.
  change (headerAdd "Cookie" _ _)
    with (additionalRequest config email captchaToken cfClearance).
  pose proof (clientDo_requests
                (additionalRequest config email captchaToken cfClearance) w)
    as Hsent.
  destruct (clientDo (additionalRequest config email captchaToken cfClearance) w)
    as [[resp | e] w1]; cbn [snd] in Hsent |- *; [| exact Hsent].
  unfold bind at 1, wrap, ioReadAll.
  destruct (Body resp) as [| raw | v]; [exact Hsent | |];
    destruct (negb (StatusCode resp =? 200)); exact Hsent.
Qed.

Lemma submitPromoEntry_requests (urlParses : string -> bool)
    (config : Config) (email captchaToken : string) (w : World) :
  requests (snd (submitPromoEntry urlParses config email captchaToken w)) =
  if canSubmit urlParses config then
    (requests w ++ [primaryRequest config email captchaToken])%list
  else requests w.
Proof.
  destruct (canSubmit urlParses config) eqn:Hcan.
  - destruct (canSubmit_client urlParses config w Hcan) as [Hclient Hurl].
    unfold submitPromoEntry. unfold bind at 1. rewrite Hclient.
    unfold bind at 1, newRequest. rewrite Hurl. unfold ret at 1.
    unfold bind at 1.
    change (headerAdd "Cookie" "cookieconsent_status=dismiss" _)
      with (primaryRequest config email captchaToken).
    pose proof (clientDo_requests (primaryRequest config email captchaToken) w)
      as Hsent.
    destruct (clientDo (primaryRequest config email captchaToken) w)
      as [[resp | e] w1]; cbn [snd] in Hsent |- *; [| exact Hsent].
    unfold bind at 1, wrap, ioReadAll.
    destruct (Body resp) as [| raw | v]; [exact Hsent | |];
      destruct (negb (StatusCode resp =? 200)); exact Hsent.
  - unfold canSubmit in Hcan.
    unfold submitPromoEntry, submitClient, newRequest. unfold bind at 1.
    destruct (UseProxy config).
    + destruct (urlParses (proxyURL config)); [| reflexivity].
      cbn [andb] in Hcan. unfold ret at 1. unfold bind at 1.
      rewrite Hcan. reflexivity.
    + cbn [andb] in Hcan. unfold ret at 1. unfold bind at 1.
      rewrite Hcan. reflexivity.
Qed.

(** *** The cycle *)

(** The loop of additional entries never fails and sends one request per
    iteration. *)
Lemma additionalEntries_run (urlParses : string -> bool) (config : Config)
    (email captchaToken cfClearance : string) (count : nat) :
  canSubmit urlParses config = true ->
  forall w : World,
  exists w' : World,
    additionalEntries urlParses config email captchaToken cfClearance count w
    = (Ok tt, w')
    /\ requests w' =
       (requests w
        ++ repeat (additionalRequest config email captchaToken cfClearance)
             count)%list
    /\ submissionsLog w' = submissionsLog w.
Proof.
  intros Hcan. induction count as [| n IH]; intros w.
  - exists w. cbn [additionalEntries repeat]. rewrite app_nil_r.
    repeat split.
  - cbn [additionalEntries].
    pose proof (submitPromoEntryWithCookie_requests urlParses config email
                  captchaToken cfClearance w Hcan) as Hsent.
    pose proof (keepsLog_submitPromoEntryWithCookie urlParses config email
                  captchaToken cfClearance w) as Hlog.
    destruct (submitPromoEntryWithCookie urlParses config email captchaToken
                cfClearance w) as [outcome1 w1]; cbn [snd] in Hsent, Hlog.
    destruct (IH w1) as [w' [Hrun [Hreq Hlog']]].
    exists w'. split; [exact Hrun |]. split.
    + rewrite Hreq, Hsent, <- app_assoc. reflexivity.
    + rewrite Hlog'. exact Hlog.
Qed.

(** A cycle whose primary entry comes back with a clearance token: five
    additional requests follow and the cycle succeeds. *)
Lemma cycle_with_clearance (urlParses : string -> bool)
    (formatRFC3339 : Z -> string) (config : Config) (w w1 w2 w3 : World)
    (email captchaToken cfClearance : string) :
  obtainEmail urlParses formatRFC3339 config w = (Ok email, w1) ->
  solveCaptcha config w1 = (Ok captchaToken, w2) ->
  submitPromoEntry urlParses config email captchaToken w2
  = (Ok cfClearance, w3) ->
  cfClearance <> "" ->
  exists w4 : World,
    submitEntry urlParses formatRFC3339 config w = (Ok tt, w4)
    /\ requests w4 =
       (requests w3
        ++ repeat (additionalRequest config email captchaToken cfClearance)
             5)%list.
Proof.
  intros Hemail Hsolve Hsubmit Hclear.
  pose proof (submitPromoEntry_ok_canSubmit _ _ _ _ _ _ _ Hsubmit) as Hcan.
  destruct (additionalEntries_run urlParses config email captchaToken
              cfClearance 5 Hcan w3) as [w' [Hrun [Hreq _]]].
  unfold submitEntry.
  unfold bind at 1. rewrite Hemail.
  unfold bind at 1, wrap at 1. rewrite Hsolve.
  unfold bind at 1, wrap at 1. rewrite Hsubmit.
  assert (Hne : isEmpty cfClearance = false)
    by (apply String.eqb_neq; exact Hclear).
  rewrite Hne. cbn [negb].
  unfold bind at 1. rewrite Hrun.
  unfold bind at 1, logSubmission.
  destruct (disk w').
  - eexists. split; [reflexivity |]. cbn [appendLog requests]. exact Hreq.
  - eexists. split; [reflexivity |]. exact Hreq.
  - eexists. split; [reflexivity |]. exact Hreq.
Qed.

Lemma issuedSince_app (before after : World) (sent : list Request) :
  requests after = (requests before ++ sent)%list ->
  issuedSince before after = sent.
Proof.
  intros H. unfold issuedSince. rewrite H, skipn_app, skipn_all.
  replace (List.length (requests before) - List.length (requests before))%nat
    with 0%nat by lia.
  reflexivity.
Qed.

(** C2, as the program has it.  Of an answer whose body can be read,
    status 200 alone is a success; every other status, the other 2xx
    included, is the status error carrying that code.  The same holds for
    the additional submission. *)
Theorem only_status_200_is_success (urlParses : string -> bool)
    (config : Config) (email captchaToken cfClearance : string) (w : World)
    (x : Exchange) (rest : list Exchange) (r : Response) :
  canSubmit urlParses config = true ->
  network w = x :: rest ->
  outcome x = Replied r ->
  Body r <> Unreadable ->
  (StatusCode r = 200 ->
   exists token : string,
     fst (submitPromoEntry urlParses config email captchaToken w) = Ok token)
  /\ (StatusCode r <> 200 ->
      fst (submitPromoEntry urlParses config email captchaToken w)
      = Err (PromoStatus (StatusCode r)))
  /\ (StatusCode r = 200 ->
      fst (submitPromoEntryWithCookie urlParses config email captchaToken
             cfClearance w) = Ok "")
  /\ (StatusCode r <> 200 ->
      fst (submitPromoEntryWithCookie urlParses config email captchaToken
             cfClearance w) = Err (AdditionalPromoStatus (StatusCode r))).
Proof.
  intros Hcan Hnet Hout Hbody.
  rewrite (submitPromoEntry_received urlParses config email captchaToken
             w x rest r Hcan Hnet Hout Hbody).
  rewrite (submitPromoEntryWithCookie_received urlParses config email
             captchaToken cfClearance w x rest r Hcan Hnet Hout Hbody).
  cbn [fst].
  repeat split.
  - intros H200. rewrite H200. eexists. reflexivity.
  - intros Hnot. apply Z.eqb_neq in Hnot. rewrite Hnot. reflexivity.
  - intros H200. rewrite H200. reflexivity.
  - intros Hnot. apply Z.eqb_neq in Hnot. rewrite Hnot. reflexivity.
Qed.

(** C2, as the specification words it, fails: an answer with status 204 is
    refused. *)
Lemma status_204_is_rejected : ~ EverySuccessStatusAccepted.
Proof.
  intros Hclaim.
  destruct (Hclaim anyURL sampleConfig "fan@example.com" "XYZ" noContentWorld
              (reply 100 204 [{| Name := "cf_clearance"; Value := "CLR" |}]
                     (Text ""))
              []
              {| StatusCode := 204;
                 Cookies := [{| Name := "cf_clearance"; Value := "CLR" |}];
                 Body := Text "" |})
    as [Haccepted _].
  - reflexivity.
  - reflexivity.
  - reflexivity.
  - discriminate.
  - destruct Haccepted as [token Htoken]; [cbn [StatusCode]; lia |].
    vm_compute in Htoken. discriminate.
Qed.

(** C7, as the program has it.  An answer with status 200 whose body can
    be read and whose cookies hold one called cf_clearance yields the value
    of the first such cookie; an answer with status 200, a body that can be
    read and no such cookie yields the empty token, not an error. *)
Theorem clearance_cookie_is_captured (urlParses : string -> bool)
    (config : Config) (email captchaToken : string) (w : World)
    (x : Exchange) (rest : list Exchange) (r : Response) :
  canSubmit urlParses config = true ->
  network w = x :: rest ->
  outcome x = Replied r ->
  Body r <> Unreadable ->
  StatusCode r = 200 ->
  (forall (before : list Cookie) (c : Cookie) (after : list Cookie),
      Cookies r = (before ++ c :: after)%list ->
      Forall (fun k => Name k <> "cf_clearance") before ->
      Name c = "cf_clearance" ->
      fst (submitPromoEntry urlParses config email captchaToken w)
      = Ok (Value c))
  /\ (Forall (fun k => Name k <> "cf_clearance") (Cookies r) ->
      fst (submitPromoEntry urlParses config email captchaToken w) = Ok "").
Proof.
  intros Hcan Hnet Hout Hbody H200.
  rewrite (submitPromoEntry_received urlParses config email captchaToken
             w x rest r Hcan Hnet Hout Hbody).
  rewrite H200. cbn [fst Z.eqb Pos.eqb]. unfold clearanceOf.
  split.
  - intros before c after Hcookies Hbefore Hname. rewrite Hcookies.
    clear Hcookies. induction Hbefore as [| k before Hk _ IH]; cbn [app find].
    + rewrite Hname, String.eqb_refl. reflexivity.
    + apply String.eqb_neq in Hk. rewrite Hk. exact IH.
  - intros Hnone. induction Hnone as [| k cookies Hk _ IH]; cbn [find].
    + reflexivity.
    + apply String.eqb_neq in Hk. rewrite Hk. exact IH.
Qed.

(** C7, as the specification words it, fails: an answer with status 200
    and the clearance cookie whose body breaks off while it is read gives
    the read error, not the token. *)
Lemma unreadable_answer_yields_no_clearance : ~ Status200YieldsClearance.
Proof.
  intros Hclaim.
  destruct (Hclaim anyURL sampleConfig "fan@example.com" "XYZ" truncatedWorld
              (reply 100 200 [{| Name := "cf_clearance"; Value := "CLR" |}]
                     Unreadable)
              []
              {| StatusCode := 200;
                 Cookies := [{| Name := "cf_clearance"; Value := "CLR" |}];
                 Body := Unreadable |})
    as [Hcookie _].
  - reflexivity.
  - reflexivity.
  - reflexivity.
  - reflexivity.
  - specialize (Hcookie [] {| Name := "cf_clearance"; Value := "CLR" |} []
                  eq_refl (Forall_nil _) eq_refl).
    vm_compute in Hcookie. discriminate.
Qed.

(** C5.  A cycle whose primary entry succeeds with a non-empty clearance
    token sends exactly five additional requests and succeeds, whatever the
    network answers to them. *)
Theorem clearance_gives_five_additional_entries (urlParses : string -> bool)
    (formatRFC3339 : Z -> string) (config : Config) (w w1 w2 w3 : World)
    (email captchaToken cfClearance : string) :
  obtainEmail urlParses formatRFC3339 config w = (Ok email, w1) ->
  solveCaptcha config w1 = (Ok captchaToken, w2) ->
  submitPromoEntry urlParses config email captchaToken w2
  = (Ok cfClearance, w3) ->
  cfClearance <> "" ->
  exists w4 : World,
    submitEntry urlParses formatRFC3339 config w = (Ok tt, w4)
    /\ issuedSince w3 w4 =
       repeat (additionalRequest config email captchaToken cfClearance) 5
    /\ List.length (issuedSince w3 w4) = 5%nat.
Proof.
  intros Hemail Hsolve Hsubmit Hclear.
  destruct (cycle_with_clearance urlParses formatRFC3339 config w w1 w2 w3
              email captchaToken cfClearance Hemail Hsolve Hsubmit Hclear)
    as [w4 [Hrun Hreq]].
  exists w4. split; [exact Hrun |].
  rewrite (issuedSince_app w3 w4 _ Hreq). split; reflexivity.
Qed.

(** C8, as the program has it.  In a cycle whose primary entry succeeds
    with a non-empty clearance token, the five additional requests carry
    the very CAPTCHA token the primary request carried, and each has the
    clearance token in its cookie header. *)
Theorem additional_entries_reuse_captcha_token (urlParses : string -> bool)
    (formatRFC3339 : Z -> string) (config : Config) (w w1 w2 w3 : World)
    (email captchaToken cfClearance : string) :
  obtainEmail urlParses formatRFC3339 config w = (Ok email, w1) ->
  solveCaptcha config w1 = (Ok captchaToken, w2) ->
  submitPromoEntry urlParses config email captchaToken w2
  = (Ok cfClearance, w3) ->
  cfClearance <> "" ->
  exists w4 : World,
    submitEntry urlParses formatRFC3339 config w = (Ok tt, w4)
    /\ issuedSince w2 w3 = [primaryRequest config email captchaToken]
    /\ captchaTokenOf (primaryRequest config email captchaToken)
       = Some captchaToken
    /\ List.length (issuedSince w3 w4) = 5%nat
    /\ forall r : Request,
         In r (issuedSince w3 w4) ->
         captchaTokenOf r = Some captchaToken
         /\ In ("Cookie",
                "cookieconsent_status=dismiss; cf_clearance=" ++ cfClearance)
               (Header r).
Proof.
  intros Hemail Hsolve Hsubmit Hclear.
  destruct (cycle_with_clearance urlParses formatRFC3339 config w w1 w2 w3
              email captchaToken cfClearance Hemail Hsolve Hsubmit Hclear)
    as [w4 [Hrun Hreq]].
  exists w4. split; [exact Hrun |].
  rewrite (issuedSince_app w3 w4 _ Hreq).
  split; [| split; [reflexivity | split; [reflexivity |]]].
  - apply issuedSince_app.
    pose proof (submitPromoEntry_requests urlParses config email captchaToken
                  w2) as Hsent.
    rewrite Hsubmit in Hsent. cbn [snd] in Hsent.
    rewrite (submitPromoEntry_ok_canSubmit _ _ _ _ _ _ _ Hsubmit) in Hsent.
    exact Hsent.
  - intros r Hin. apply repeat_spec in Hin. subst r.
    split; [reflexivity |].
    unfold additionalRequest, submitRequest. cbn [Header].
    right. right. left. reflexivity.
Qed.

(** C8, as the specification words it, fails: in the sample cycle the
    additional requests carry the token XYZ of the primary request. *)
Lemma additional_entries_token_is_not_fresh :
  ~ AdditionalEntriesCarryFreshToken.
Proof.
  intros Hclaim.
  refine (Hclaim anyURL noFormat sampleConfig cycleWorld
            (afterEmail cycleWorld) (afterSolve cycleWorld)
            (afterPrimary cycleWorld)
            (snd (submitEntry anyURL noFormat sampleConfig cycleWorld))
            "fan@example.com" "XYZ" "CLR" _ _ _ _ _
            (additionalRequest sampleConfig "fan@example.com" "XYZ" "CLR")
            _ _).
  - vm_compute. reflexivity.
  - vm_compute. reflexivity.
  - vm_compute. reflexivity.
  - discriminate.
  - vm_compute. reflexivity.
  - vm_compute. left. reflexivity.
  - reflexivity.
Qed.


(** ** The claims on sample runs *)

(** C1 on a run whose first poll answers processing after 130 seconds. *)
Lemma pending_poll_past_timeout_fails_witness :
  exists w' : World,
    solveCaptcha sampleConfig latePendingWorld =
      (Err (CaptchaTimedOut (CaptchaTimeout sampleConfig)), w')
    /\ pollsIssued w' = (pollsIssued latePendingWorld + 0 + 1)%nat
    /\ network w' = [reply 100 200 [] (ready "XYZ")].
Proof.
  apply (pending_poll_past_timeout_fails sampleConfig latePendingWorld
           (reply 100 200 [] (created (JString "abc")))
           [] (reply 130000 200 [] processing)
           [reply 100 200 [] (ready "XYZ")]).
  - reflexivity.
  - vm_compute. discriminate.
  - vm_compute. lia.
  - reflexivity.
  - vm_compute. reflexivity.
  - vm_compute. reflexivity.
Defined.

(** C2 on an answer with status 204. *)
Lemma only_status_200_is_success_witness :
  fst (submitPromoEntry anyURL sampleConfig "fan@example.com" "XYZ"
         noContentWorld) = Err (PromoStatus 204).
Proof.
  refine (proj1 (proj2
            (only_status_200_is_success anyURL sampleConfig
               "fan@example.com" "XYZ" "CLR" noContentWorld
               (reply 100 204 [{| Name := "cf_clearance"; Value := "CLR" |}]
                      (Text ""))
               []
               {| StatusCode := 204;
                  Cookies := [{| Name := "cf_clearance"; Value := "CLR" |}];
                  Body := Text "" |}
               _ _ _ _)) _).
  - reflexivity.
  - reflexivity.
  - reflexivity.
  - discriminate.
  - vm_compute. discriminate.
Defined.

(** C3 on five polls that answer processing. *)
Lemma pending_provider_exhausts_retries_witness :
  exists w' : World,
    solveCaptcha sampleConfig alwaysPendingWorld =
      (Err (CaptchaAttemptsFailed (MaxCaptchaRetries sampleConfig)), w')
    /\ Z.of_nat (pollsIssued w') =
       Z.of_nat (pollsIssued alwaysPendingWorld)
       + MaxCaptchaRetries sampleConfig
    /\ network w' = [].
Proof.
  apply (pending_provider_exhausts_retries sampleConfig alwaysPendingWorld
           (reply 100 200 [] (created (JString "abc")))
           (repeat (reply 100 200 [] processing) 5) []).
  - reflexivity.
  - vm_compute. discriminate.
  - vm_compute. discriminate.
  - reflexivity.
  - repeat constructor.
  - intros k Hk. cbn [repeat List.length] in Hk.
    destruct k as [| [| [| [| [| [| k]]]]]];
      [lia | vm_compute; reflexivity .. | lia].
Defined.

(** C4 on the scenario of the specification. *)
Lemma ready_poll_returns_token_witness :
  exists w' : World,
    solveCaptcha sampleConfig scenarioWorld = (Ok "XYZ", w')
    /\ pollsIssued w' = (pollsIssued scenarioWorld + 2 + 1)%nat
    /\ network w' = [].
Proof.
  apply (proj1 ready_poll_returns_token sampleConfig scenarioWorld
           (reply 100 200 [] (created (JString "abc")))
           [reply 100 200 [] processing; reply 100 200 [] processing]
           (reply 100 200 [] (ready "XYZ")) [] "XYZ").
  - reflexivity.
  - vm_compute. discriminate.
  - vm_compute. lia.
  - repeat constructor; vm_compute; discriminate.
  - intros k Hk. cbn [List.length] in Hk.
    destruct k as [| [| [| [| k]]]];
      [lia | vm_compute; reflexivity .. | lia].
  - vm_compute. reflexivity.
Defined.

(** C5 on the sample cycle, where four of the five additional entries
    fail. *)
Lemma clearance_gives_five_additional_entries_witness :
  exists w4 : World,
    submitEntry anyURL noFormat sampleConfig cycleWorld = (Ok tt, w4)
    /\ issuedSince (afterPrimary cycleWorld) w4 =
       repeat (additionalRequest sampleConfig "fan@example.com" "XYZ" "CLR") 5
    /\ List.length (issuedSince (afterPrimary cycleWorld) w4) = 5%nat.
Proof.
  apply (clearance_gives_five_additional_entries anyURL noFormat sampleConfig
           cycleWorld (afterEmail cycleWorld) (afterSolve cycleWorld)
           (afterPrimary cycleWorld) "fan@example.com" "XYZ" "CLR").
  - vm_compute. reflexivity.
  - vm_compute. reflexivity.
  - vm_compute. reflexivity.
  - discriminate.
Defined.


(** C7 on an answer whose second cookie is the clearance cookie. *)
Lemma clearance_cookie_is_captured_witness :
  fst (submitPromoEntry anyURL sampleConfig "fan@example.com" "XYZ"
         (acceptedWorld [{| Name := "session"; Value := "s1" |};
                         {| Name := "cf_clearance"; Value := "CLR" |}]))
  = Ok "CLR".
Proof.
  refine (proj1
            (clearance_cookie_is_captured anyURL sampleConfig
               "fan@example.com" "XYZ"
               (acceptedWorld [{| Name := "session"; Value := "s1" |};
                               {| Name := "cf_clearance"; Value := "CLR" |}])
               (reply 100 200 [{| Name := "session"; Value := "s1" |};
                               {| Name := "cf_clearance"; Value := "CLR" |}]
                      (Text "ok"))
               []
               {| StatusCode := 200;
                  Cookies := [{| Name := "session"; Value := "s1" |};
                              {| Name := "cf_clearance"; Value := "CLR" |}];
                  Body := Text "ok" |}
               _ _ _ _ _)
            [{| Name := "session"; Value := "s1" |}]
            {| Name := "cf_clearance"; Value := "CLR" |} [] _ _ _).
  - reflexivity.
  - reflexivity.
  - reflexivity.
  - discriminate.
  - reflexivity.
  - reflexivity.
  - repeat constructor. vm_compute. discriminate.
  - reflexivity.
Defined.

(** C8 on the sample cycle. *)
Lemma additional_entries_reuse_captcha_token_witness :
  exists w4 : World,
    submitEntry anyURL noFormat sampleConfig cycleWorld = (Ok tt, w4)
    /\ issuedSince (afterSolve cycleWorld) (afterPrimary cycleWorld)
       = [primaryRequest sampleConfig "fan@example.com" "XYZ"]
    /\ captchaTokenOf (primaryRequest sampleConfig "fan@example.com" "XYZ")
       = Some "XYZ"
    /\ List.length (issuedSince (afterPrimary cycleWorld) w4) = 5%nat
    /\ forall r : Request,
         In r (issuedSince (afterPrimary cycleWorld) w4) ->
         captchaTokenOf r = Some "XYZ"
         /\ In ("Cookie", "cookieconsent_status=dismiss; cf_clearance=" ++ "CLR")
               (Header r).
Proof.
  apply (additional_entries_reuse_captcha_token anyURL noFormat sampleConfig
           cycleWorld (afterEmail cycleWorld) (afterSolve cycleWorld)
           (afterPrimary cycleWorld) "fan@example.com" "XYZ" "CLR").
  - vm_compute. reflexivity.
  - vm_compute. reflexivity.
  - vm_compute. reflexivity.
  - discriminate.
Defined.

(** C9 on an answer to [createTask] that is not JSON. *)
Lemma undecodable_task_is_never_polled_witness :
  exists e : error,
    solveCaptcha sampleConfig brokenTaskWorld =
      (Err e,
       afterRoundTrip (createRequest sampleConfig)
         (reply 100 502 [] (Text "Bad Gateway")) brokenTaskWorld)
    /\ (e = JSONError \/ exists reason, e = TransportError reason)
    /\ pollsIssued
         (afterRoundTrip (createRequest sampleConfig)
            (reply 100 502 [] (Text "Bad Gateway")) brokenTaskWorld)
       = pollsIssued brokenTaskWorld.
Proof.
  refine (proj1
            (undecodable_task_is_never_polled sampleConfig brokenTaskWorld
               (reply 100 502 [] (Text "Bad Gateway"))
               [reply 100 200 [] (ready "XYZ")] _) _).
  - reflexivity.
  - reflexivity.
Defined.

(** C10 on a run whose solution arrives 130 seconds into the first poll. *)
Lemma late_ready_poll_still_succeeds_witness :
  exists w' : World,
    solveCaptcha sampleConfig lateReadyWorld = (Ok "XYZ", w')
    /\ pollsIssued w' = (pollsIssued lateReadyWorld + 0 + 1)%nat
    /\ network w' = [reply 100 200 [] processing].
Proof.
  apply (late_ready_poll_still_succeeds sampleConfig lateReadyWorld
           (reply 100 200 [] (created (JString "abc")))
           [] (reply 130000 200 [] (ready "XYZ"))
           [reply 100 200 [] processing] "XYZ").
  - reflexivity.
  - vm_compute. discriminate.
  - vm_compute. lia.
  - reflexivity.
  - vm_compute. reflexivity.
  - vm_compute. reflexivity.
Defined.

(** ** Further properties of the program *)

(** *** What a computation leaves alone *)

Section Frame.

Context {B : Type} (proj : World -> B).

Hypothesis keeps_clientDo : forall rq : Request, keeps proj (clientDo rq).
Hypothesis keeps_timeSleep : forall d : Z, keeps proj (timeSleep d).
Hypothesis keeps_randInt : forall max : nat, keeps proj (randInt max).
Hypothesis keeps_getUserInput :
  forall prompt : string, keeps proj (getUserInput prompt).

Lemma keeps_ret {A : Type} (a : A) : keeps proj (ret a).
Proof. intros w. reflexivity. Qed.

Lemma keeps_fail {A : Type} (e : error) : keeps proj (@fail A e).
Proof. intros w. reflexivity. Qed.

Lemma keeps_bind {A C : Type} (m : IO A) (k : A -> IO C) :
  keeps proj m -> (forall a, keeps proj (k a)) -> keeps proj (bind m k).
Proof.
  intros Hm Hk w. unfold bind. specialize (Hm w).
  destruct (m w) as [[a | e] w1]; cbn [snd] in *.
  - rewrite (Hk a w1). exact Hm.
  - exact Hm.
Qed.

Lemma keeps_wrap {A : Type} (context : string) (m : IO A) :
  keeps proj m -> keeps proj (wrap context m).
Proof.
  intros Hm w. unfold wrap. specialize (Hm w).
  destruct (m w) as [[a | e] w1]; exact Hm.
Qed.

Lemma keeps_timeNow : keeps proj timeNow.
Proof. intros w. reflexivity. Qed.

Lemma keeps_decodeBody {T : Type}
    (field : string -> json -> T -> option T) (zero : T) (resp : Response) :
  keeps proj (decodeBody field zero resp).
Proof.
  intros w. unfold decodeBody. destruct (Body resp); try reflexivity.
  destruct (decodeStruct field v zero); reflexivity.
Qed.

Lemma keeps_ioReadAll (resp : Response) : keeps proj (ioReadAll resp).
Proof. intros w. unfold ioReadAll. destruct (Body resp); reflexivity. Qed.

Lemma keeps_newRequest (urlParses : string -> bool) (method url : string)
    (body : Content) (proxy : option string) :
  keeps proj (newRequest urlParses method url body proxy).
Proof.
  intros w. unfold newRequest. destruct (urlParses url); reflexivity.
Qed.

Create HintDb keeps.

#[local] Hint Resolve keeps_ret keeps_fail keeps_bind keeps_wrap
  keeps_timeNow keeps_decodeBody keeps_ioReadAll keeps_newRequest
  keeps_clientDo keeps_timeSleep keeps_randInt keeps_getUserInput : keeps.

Lemma keeps_generateRandomAlias (length : nat) :
  keeps proj (generateRandomAlias length).
Proof.
  induction length as [| k IH]; cbn [generateRandomAlias]; auto 6 with keeps.
Qed.

Lemma keeps_pollLoop (config : Config) (poll : IO eZCaptchaResult)
    (start : Z) (n : nat) :
  keeps proj poll -> keeps proj (pollLoop config poll start n).
Proof.
  intros Hpoll. induction n as [| n IH]; intros w; cbn [pollLoop].
  - reflexivity.
  - assert (Hstep : keeps proj (timeSleep (10 * Second) ;;; poll))
      by auto with keeps.
    specialize (Hstep w).
    destruct ((timeSleep (10 * Second) ;;; poll) w) as [[r | e] w1];
      cbn [snd] in Hstep.
    + destruct (String.eqb (Status r) "ready"); [exact Hstep |].
      destruct (PrimFloat.ltb (CaptchaTimeout config)
                              (Seconds (clock w1 - start)));
        [exact Hstep |].
      rewrite (IH w1). exact Hstep.
    + rewrite (IH w1). exact Hstep.
Qed.

Lemma keeps_solveCaptcha (config : Config) : keeps proj (solveCaptcha config).
Proof.
  unfold solveCaptcha.
  destruct (UseTwoCaptcha config);
    [unfold solveCaptchaWith2Captcha, get2CaptchaTaskResult
    | unfold solveCaptchaWithEZCaptcha, getEZCaptchaTaskResult];
    unfold httpPostJSON;
    (apply keeps_bind; [auto with keeps |]); intros resp;
    (apply keeps_bind; [auto with keeps |]); intros taskID;
    (apply keeps_bind; [auto with keeps |]); intros startTime;
    apply keeps_pollLoop; auto with keeps.
Qed.

Lemma keeps_createCloudflareEmailAlias (urlParses : string -> bool)
    (formatRFC3339 : Z -> string) (config : Config) :
  keeps proj (createCloudflareEmailAlias urlParses formatRFC3339 config).
Proof.
  unfold createCloudflareEmailAlias.
  apply keeps_bind;
    [apply keeps_wrap, keeps_generateRandomAlias |]; intros alias.
  apply keeps_bind; [auto with keeps |]; intros now.
  apply keeps_bind; [auto with keeps |]; intros req.
  apply keeps_bind; [auto with keeps |]; intros resp.
  destruct (StatusCode resp =? 200); auto with keeps.
Qed.

Lemma keeps_obtainEmail (urlParses : string -> bool)
    (formatRFC3339 : Z -> string) (config : Config) :
  keeps proj (obtainEmail urlParses formatRFC3339 config).
Proof.
  unfold obtainEmail. destruct (UseCloudflareEmail config).
  - apply keeps_wrap, keeps_createCloudflareEmailAlias.
  - apply keeps_getUserInput.
Qed.

Lemma keeps_submitClient (urlParses : string -> bool) (config : Config) :
  keeps proj (submitClient urlParses config).
Proof.
  unfold submitClient. destruct (UseProxy config); [| auto with keeps].
  destruct (urlParses (proxyURL config)); auto with keeps.
Qed.

Lemma keeps_submitPromoEntry (urlParses : string -> bool)
    (config : Config) (email captchaToken : string) :
  keeps proj (submitPromoEntry urlParses config email captchaToken).
Proof.
  unfold submitPromoEntry.
  apply keeps_bind; [apply keeps_submitClient |]; intros client.
  apply keeps_bind; [auto with keeps |]; intros req.
  apply keeps_bind; [auto with keeps |]; intros resp.
  apply keeps_bind; [auto with keeps |]; intros body.
  destruct (negb (StatusCode resp =? 200)); auto with keeps.
Qed.

Lemma keeps_submitPromoEntryWithCookie (urlParses : string -> bool)
    (config : Config) (email captchaToken cfClearance : string) :
  keeps proj (submitPromoEntryWithCookie urlParses config email captchaToken
                cfClearance).
Proof.
  unfold submitPromoEntryWithCookie.
  apply keeps_bind; [apply keeps_submitClient |]; intros client.
  apply keeps_bind; [auto with keeps |]; intros req.
  apply keeps_bind; [auto with keeps |]; intros resp.
  apply keeps_bind; [auto with keeps |]; intros body.
  destruct (negb (StatusCode resp =? 200)); auto with keeps.
Qed.

Lemma keeps_additionalEntries (urlParses : string -> bool) (config : Config)
    (email captchaToken cfClearance : string) (count : nat) :
  keeps proj (additionalEntries urlParses config email captchaToken
                cfClearance count).
Proof.
  induction count as [| n IH]; intros w; cbn [additionalEntries].
  - reflexivity.
  - pose proof (keeps_submitPromoEntryWithCookie urlParses config email
                  captchaToken cfClearance w) as Hone.
    destruct (submitPromoEntryWithCookie urlParses config email captchaToken
                cfClearance w) as [r w1]; cbn [snd] in Hone.
    rewrite (IH w1). exact Hone.
Qed.

End Frame.

Lemma clientDo_keeps_stdin (rq : Request) : keeps stdin (clientDo rq).
Proof.
  intros w. unfold clientDo. destruct (network w) as [| x rest];
    [reflexivity |]. destruct (outcome x); reflexivity.
Qed.

Lemma clientDo_keeps_entropy (rq : Request) : keeps entropy (clientDo rq).
Proof.
  intros w. unfold clientDo. destruct (network w) as [| x rest];
    [reflexivity |]. destruct (outcome x); reflexivity.
Qed.

Lemma clientDo_keeps_disk (rq : Request) : keeps disk (clientDo rq).
Proof.
  intros w. unfold clientDo. destruct (network w) as [| x rest];
    [reflexivity |]. destruct (outcome x); reflexivity.
Qed.

Lemma clientDo_keeps_log (rq : Request) : keeps submissionsLog (clientDo rq).
Proof. exact (keepsLog_clientDo rq). Qed.

Lemma timeSleep_keeps_stdin (d : Z) : keeps stdin (timeSleep d).
Proof. intros w. reflexivity. Qed.

Lemma timeSleep_keeps_entropy (d : Z) : keeps entropy (timeSleep d).
Proof. intros w. reflexivity. Qed.

Lemma timeSleep_keeps_disk (d : Z) : keeps disk (timeSleep d).
Proof. intros w. reflexivity. Qed.

Lemma timeSleep_keeps_requests (d : Z) : keeps requests (timeSleep d).
Proof. intros w. reflexivity. Qed.

Lemma timeSleep_keeps_log (d : Z) : keeps submissionsLog (timeSleep d).
Proof. intros w. reflexivity. Qed.

Lemma randInt_keeps_disk (max : nat) : keeps disk (randInt max).
Proof.
  intros w. unfold randInt. destruct (entropy w) as [| [n |] rest];
    reflexivity.
Qed.

Lemma randInt_keeps_stdin (max : nat) : keeps stdin (randInt max).
Proof.
  intros w. unfold randInt. destruct (entropy w) as [| [n |] rest];
    reflexivity.
Qed.

Lemma randInt_keeps_requests (max : nat) : keeps requests (randInt max).
Proof.
  intros w. unfold randInt. destruct (entropy w) as [| [n |] rest];
    reflexivity.
Qed.

Lemma randInt_keeps_clock (max : nat) : keeps clock (randInt max).
Proof.
  intros w. unfold randInt. destruct (entropy w) as [| [n |] rest];
    reflexivity.
Qed.

Lemma randInt_keeps_network (max : nat) : keeps network (randInt max).
Proof.
  intros w. unfold randInt. destruct (entropy w) as [| [n |] rest];
    reflexivity.
Qed.

Lemma getUserInput_keeps_disk (prompt : string) :
  keeps disk (getUserInput prompt).
Proof. intros w. unfold getUserInput. destruct (stdin w); reflexivity. Qed.

Lemma getUserInput_keeps_requests (prompt : string) :
  keeps requests (getUserInput prompt).
Proof. intros w. unfold getUserInput. destruct (stdin w); reflexivity. Qed.

(** *** The solver on any network *)

Lemma solveCaptcha_no_network (config : Config) (w : World) :
  network w = [] ->
  exists (e : error) (w' : World),
    solveCaptcha config w = (Err e, w')
    /\ requests w' = (requests w ++ [createRequest config])%list
    /\ clock w' = clock w.
Proof.
  intros Hnet. unfold solveCaptcha, createRequest.
  destruct (UseTwoCaptcha config);
    [unfold solveCaptchaWith2Captcha | unfold solveCaptchaWithEZCaptcha];
    unfold httpPostJSON; unfold bind at 1; unfold clientDo; rewrite Hnet;
    eexists; eexists; (split; [reflexivity | split; reflexivity]).
Qed.

(** The requests of the solver on any network. *)
Lemma solveCaptcha_requests (config : Config) (w : World) :
  exists (id : TaskID) (k : nat),
    (k <= Z.to_nat (MaxCaptchaRetries config))%nat
    /\ requests (snd (solveCaptcha config w)) =
       (requests w
        ++ createRequest config :: repeat (pollRequest config id) k)%list.
Proof.
  destruct (network w) as [| x script] eqn:Hnet.
  - destruct (solveCaptcha_no_network config w Hnet)
      as [e [w' [Hrun [Hreq _]]]].
    exists (zeroTaskID config), 0%nat. split; [lia |].
    rewrite Hrun. exact Hreq.
  - destruct (taskOf config x) as [id |] eqn:Htask.
    + rewrite (solveCaptcha_created config w x script id Hnet Htask).
      destruct (pollLoop_issues config (pollRequest config id)
                  (clock w + took x) (Z.to_nat (MaxCaptchaRetries config))
                  (afterRoundTrip (createRequest config) x w))
        as [k [Hk [_ Hreq]]].
      exists id, k. split; [exact Hk |].
      rewrite Hreq. cbn [afterRoundTrip requests].
      rewrite <- app_assoc. reflexivity.
    + destruct (solveCaptcha_not_created config w x script Hnet Htask)
        as [e [Hrun _]].
      exists (zeroTaskID config), 0%nat. split; [lia |].
      rewrite Hrun. reflexivity.
Qed.

(** X1.  Whatever the network does, the solver sends one [createTask]
    request, then at most [MaxCaptchaRetries] polls of one task, and
    nothing else; it leaves standard input, the random source, the disk
    and the log file as they were. *)
Theorem solveCaptcha_footprint (config : Config) (w : World) :
  (exists (id : TaskID) (k : nat),
      (k <= Z.to_nat (MaxCaptchaRetries config))%nat
      /\ requests (snd (solveCaptcha config w)) =
         (requests w
          ++ createRequest config :: repeat (pollRequest config id) k)%list)
  /\ stdin (snd (solveCaptcha config w)) = stdin w
  /\ entropy (snd (solveCaptcha config w)) = entropy w
  /\ disk (snd (solveCaptcha config w)) = disk w
  /\ submissionsLog (snd (solveCaptcha config w)) = submissionsLog w.
Proof.
  split; [apply solveCaptcha_requests | repeat split].
  - apply (keeps_solveCaptcha stdin clientDo_keeps_stdin timeSleep_keeps_stdin).
  - apply (keeps_solveCaptcha entropy clientDo_keeps_entropy
             timeSleep_keeps_entropy).
  - apply (keeps_solveCaptcha disk clientDo_keeps_disk timeSleep_keeps_disk).
  - apply keepsLog_solveCaptcha.
Qed.

(** X2.  With a number of retries that is zero or negative the solver
    still creates the task, then fails with the attempts error without a
    single poll and without sleeping. *)
Theorem no_retries_no_poll (config : Config) (w : World) (x : Exchange)
    (script : list Exchange) :
  network w = x :: script ->
  taskOf config x <> None ->
  MaxCaptchaRetries config <= 0 ->
  solveCaptcha config w =
    (Err (CaptchaAttemptsFailed (MaxCaptchaRetries config)),
     afterRoundTrip (createRequest config) x w)
  /\ pollsIssued (afterRoundTrip (createRequest config) x w) = pollsIssued w.
Proof.
  intros Hnet Htask Hneg.
  destruct (taskOf_some config x Htask) as [id Hid].
  rewrite (solveCaptcha_created config w x script id Hnet Hid).
  replace (Z.to_nat (MaxCaptchaRetries config)) with 0%nat by lia.
  split; [reflexivity |].
  rewrite pollsIssued_afterRoundTrip, isPollRequest_create. lia.
Qed.

Lemma keepsPolling_failed (timeout : float64) (polls : list Exchange) :
  forall elapsed : Z,
    Forall (fun q => classify q = Failed) polls ->
    keepsPolling timeout elapsed polls = true.
Proof.
  induction polls as [| x polls IH]; intros elapsed Hfailed;
    [reflexivity |].
  inversion Hfailed as [| ? ? Hx Hrest]; subst.
  cbn [keepsPolling]. rewrite Hx. apply IH. exact Hrest.
Qed.

(** X3.  A poll that fails (the call, or the decoding of its answer) uses
    up an attempt and nothing more: when every poll fails the solver makes
    exactly [MaxCaptchaRetries] polls and returns the attempts error,
    however long the polls took. *)
Theorem failing_polls_exhaust_retries (config : Config) (w : World)
    (x : Exchange) (polls rest : list Exchange) :
  network w = x :: (polls ++ rest)%list ->
  taskOf config x <> None ->
  List.length polls = Z.to_nat (MaxCaptchaRetries config) ->
  Forall (fun q => classify q = Failed) polls ->
  exists w' : World,
    solveCaptcha config w =
      (Err (CaptchaAttemptsFailed (MaxCaptchaRetries config)), w')
    /\ pollsIssued w' = (pollsIssued w + List.length polls)%nat
    /\ network w' = rest
    /\ clock w' = clock w + took x + elapsedAfter polls.
Proof.
  intros Hnet Htask Hlen Hfailed.
  destruct (taskOf_some config x Htask) as [id Hid].
  set (rq := pollRequest config id).
  set (w1 := afterRoundTrip (createRequest config) x w).
  exists (afterPolls rq polls w1).
  assert (Hnet1 : network w1 = (polls ++ rest)%list)
    by (unfold w1; cbn [afterRoundTrip network]; rewrite Hnet; reflexivity).
  split; [| split; [| split]].
  - rewrite (solveCaptcha_created config w x _ id Hnet Hid).
    fold rq. fold w1.
    replace (Z.to_nat (MaxCaptchaRetries config))
      with (List.length polls + 0)%nat by lia.
    rewrite (pollLoop_skip config rq (clock w + took x) polls 0 w1 rest Hnet1).
    + reflexivity.
    + apply keepsPolling_failed. exact Hfailed.
  - unfold rq. rewrite pollsIssued_afterPolls. unfold w1.
    rewrite pollsIssued_afterRoundTrip, isPollRequest_create. lia.
  - apply afterPolls_network. exact Hnet1.
  - rewrite afterPolls_clock. unfold w1. cbn [afterRoundTrip clock]. lia.
Qed.

Lemma decodeMembers_keeps_token (members : list (string * json)) :
  forall acc r : eZCaptchaResult,
    find (fun kv => keyMatches "solution" (fst kv)) members = None ->
    decodeMembers resultField members acc = Some r ->
    GRecaptchaResponse r = GRecaptchaResponse acc.
Proof.
  induction members as [| [k v] members IH]; intros acc r Hfind Hdec;
    cbn [decodeMembers] in Hdec.
  - injection Hdec as <-. reflexivity.
  - cbn [find fst] in Hfind.
    destruct (keyMatches "solution" k) eqn:Hk; [discriminate |].
    unfold resultField in Hdec at 1. rewrite Hk in Hdec.
    destruct (keyMatches "status" k).
    + destruct (decodeString v (Status acc)) as [s |]; [| discriminate].
      rewrite (IH _ r Hfind Hdec). reflexivity.
    + rewrite (IH _ r Hfind Hdec). reflexivity.
Qed.

(** X4.  The solver does not look at the token it returns: when the
    answer of a poll is ready and its document has no solution member, the
    solver succeeds with the empty token. *)
Theorem ready_without_solution_returns_empty_token (config : Config)
    (w : World) (x : Exchange) (before : list Exchange) (p : Exchange)
    (after : list Exchange) (resp : Response)
    (members : list (string * json)) (token : string) :
  network w = x :: (before ++ p :: after)%list ->
  taskOf config x <> None ->
  (List.length before < Z.to_nat (MaxCaptchaRetries config))%nat ->
  keepsPolling (CaptchaTimeout config) 0 before = true ->
  outcome p = Replied resp ->
  Body resp = Document (JObject members) ->
  find (fun kv => keyMatches "solution" (fst kv)) members = None ->
  classify p = Solved token ->
  token = ""
  /\ exists w' : World, solveCaptcha config w = (Ok "", w').
Proof.
  intros Hnet Htask Hlt Hkeep Hout Hbody Hfind Hready.
  assert (Htoken : token = "").
  { unfold classify, answer in Hready. rewrite Hout, Hbody in Hready.
    cbn [decodeStruct] in Hready.
    destruct (decodeMembers resultField members zeroResult) as [r |] eqn:Hdec;
      [| discriminate].
    destruct (String.eqb (Status r) "ready"); [| discriminate].
    injection Hready as <-.
    exact (decodeMembers_keeps_token members zeroResult r Hfind Hdec). }
  split; [exact Htoken |]. subst token.
  destruct (taskOf_some config x Htask) as [id Hid].
  exists (atPoll config id x before p w).
  rewrite (solveCaptcha_at_attempt config w x before p after id
             Hnet Hid Hlt Hkeep).
  cbv zeta. rewrite Hready. reflexivity.
Qed.

(** One iteration of the loop, the sleep done. *)
Lemma pollLoop_unfold (config : Config) (poll : IO eZCaptchaResult)
    (start : Z) (n : nat) (w : World) :
  pollLoop config poll start (S n) w =
  match poll (slept w) with
  | (Err _, w') => pollLoop config poll start n w'
  | (Ok result, w') =>
      if String.eqb (Status result) "ready" then
        (Ok (GRecaptchaResponse result), w')
      else if PrimFloat.ltb (CaptchaTimeout config)
                            (Seconds (clock w' - start)) then
        (Err (CaptchaTimedOut (CaptchaTimeout config)), w')
      else pollLoop config poll start n w'
  end.
Proof. reflexivity. Qed.

(** The loop sleeps ten seconds before each of its polls. *)
Lemma pollLoop_lasts (config : Config) (rq : Request) (start : Z) (n : nat) :
  forall w : World,
    Forall (fun x => 0 <= took x) (network w) ->
    exists k : nat,
      requests (snd (pollLoop config (pollOnce rq) start n w)) =
        (requests w ++ repeat rq k)%list
      /\ clock w + 10 * Second * Z.of_nat k
         <= clock (snd (pollLoop config (pollOnce rq) start n w)).
Proof.
  induction n as [| n IH]; intros w Hpos.
  - exists 0%nat. cbn [pollLoop fail snd repeat]. rewrite app_nil_r.
    split; [reflexivity | lia].
  - rewrite pollLoop_unfold.
    pose proof (pollOnce_requests rq (slept w)) as Hsent.
    assert (Hworld : clock (slept w) <= clock (snd (pollOnce rq (slept w)))
                     /\ Forall (fun x => 0 <= took x)
                          (network (snd (pollOnce rq (slept w))))).
    { unfold pollOnce, bind, clientDo. cbn [slept network clock].
      destruct (network w) as [| x rest] eqn:Hnet.
      - cbn [snd clock network]. split; [lia | constructor].
      - inversion Hpos as [| ? ? Hx Hrest]; subst.
        destruct (outcome x) as [reason | r].
        + cbn [snd clock network]. split; [lia | exact Hrest].
        + unfold decodeBody.
          destruct (Body r) as [| raw | v];
            try (cbn [fail snd clock network]; split; [lia | exact Hrest]).
          destruct (decodeStruct resultField v zeroResult);
            cbn [ret fail snd clock network]; split; try lia; exact Hrest. }
    destruct Hworld as [Hclock Hpos2].
    destruct (pollOnce rq (slept w)) as [[r | e] w2];
      cbn [snd] in Hsent, Hclock, Hpos2; cbn [slept requests] in Hsent;
      cbn [slept clock] in Hclock.
    + destruct (String.eqb (Status r) "ready").
      { exists 1%nat. cbn [snd repeat]. split; [exact Hsent | unfold Second in *; lia]. }
      destruct (PrimFloat.ltb (CaptchaTimeout config)
                              (Seconds (clock w2 - start))).
      { exists 1%nat. cbn [snd repeat]. split; [exact Hsent | unfold Second in *; lia]. }
      destruct (IH w2 Hpos2) as [k [Hreq Hlast]].
      exists (S k). split.
      * rewrite Hreq, Hsent, <- app_assoc. reflexivity.
      * unfold Second in *. lia.
    + destruct (IH w2 Hpos2) as [k [Hreq Hlast]].
      exists (S k). split.
      * rewrite Hreq, Hsent, <- app_assoc. reflexivity.
      * unfold Second in *. lia.
Qed.

Lemma pollsIssued_app (config : Config) (id : TaskID) (w w' : World)
    (k : nat) :
  requests w' =
    (requests w ++ createRequest config :: repeat (pollRequest config id) k)%list ->
  pollsIssued w' = (pollsIssued w + k)%nat.
Proof.
  intros Hreq. unfold pollsIssued. rewrite Hreq, filter_app, length_app.
  cbn [filter]. rewrite isPollRequest_create.
  assert (Hall : forall n, List.length
                   (filter isPollRequest (repeat (pollRequest config id) n))
                 = n).
  { induction n as [| n IHn]; cbn [repeat filter]; [reflexivity |].
    rewrite isPollRequest_poll. cbn [List.length]. now rewrite IHn. }
  rewrite Hall. reflexivity.
Qed.

(** X5.  The solver waits ten seconds before every poll: on a network
    whose round trips take no negative time, a run that made [k] polls
    lasted at least [10 k] seconds. *)
Theorem solver_sleeps_before_each_poll (config : Config) (w : World) :
  Forall (fun x => 0 <= took x) (network w) ->
  10 * Second
  * (Z.of_nat (pollsIssued (snd (solveCaptcha config w)))
     - Z.of_nat (pollsIssued w))
  <= clock (snd (solveCaptcha config w)) - clock w.
Proof.
  intros Hpos.
  destruct (network w) as [| x script] eqn:Hnet.
  - destruct (solveCaptcha_no_network config w Hnet)
      as [e [w' [Hrun [Hreq Hclock]]]].
    rewrite Hrun. cbn [snd].
    rewrite (pollsIssued_app config (zeroTaskID config) w w' 0 Hreq), Hclock.
    unfold Second. lia.
  - inversion Hpos as [| ? ? Hx Hrest]; subst.
    destruct (taskOf config x) as [id |] eqn:Htask.
    + rewrite (solveCaptcha_created config w x script id Hnet Htask).
      set (w1 := afterRoundTrip (createRequest config) x w).
      assert (Hpos1 : Forall (fun y => 0 <= took y) (network w1))
        by (unfold w1; cbn [afterRoundTrip network]; rewrite Hnet; exact Hrest).
      destruct (pollLoop_lasts config (pollRequest config id)
                  (clock w + took x) (Z.to_nat (MaxCaptchaRetries config))
                  w1 Hpos1) as [k [Hreq Hlast]].
      rewrite (pollsIssued_app config id w _ k).
      * assert (Hclock : clock w1 = clock w + took x) by reflexivity.
        rewrite Hclock in Hlast. unfold Second in *. lia.
      * rewrite Hreq. unfold w1. cbn [afterRoundTrip requests].
        rewrite <- app_assoc. reflexivity.
    + destruct (solveCaptcha_not_created config w x script Hnet Htask)
        as [e [Hrun _]].
      rewrite Hrun. cbn [snd afterRoundTrip clock].
      rewrite pollsIssued_afterRoundTrip, isPollRequest_create.
      unfold Second. lia.
Qed.

(** *** The submit functions on their failure paths *)

(** X6.  The body of the answer is read before its status is looked at:
    when the body cannot be read, [submitPromoEntry] returns the read
    error whatever the status and the cookies, a status of 200 with a
    clearance cookie included. *)
Theorem unreadable_body_loses_the_answer (urlParses : string -> bool)
    (config : Config) (email captchaToken : string) (w : World)
    (x : Exchange) (rest : list Exchange) (r : Response) :
  canSubmit urlParses config = true ->
  network w = x :: rest ->
  outcome x = Replied r ->
  Body r = Unreadable ->
  submitPromoEntry urlParses config email captchaToken w =
    (Err (Wrapped "error reading response body" BodyReadError),
     afterRoundTrip (primaryRequest config email captchaToken) x w).
Proof.
  intros Hcan Hnet Hout Hbody.
  destruct (canSubmit_client urlParses config w Hcan) as [Hclient Hurl].
  unfold submitPromoEntry. unfold bind at 1. rewrite Hclient.
  unfold bind at 1, newRequest. rewrite Hurl. unfold ret at 1.
  unfold bind at 1.
  change (headerAdd "Cookie" "cookieconsent_status=dismiss" _)
    with (primaryRequest config email captchaToken).
  rewrite (clientDo_next _ w x rest Hnet), Hout.
  unfold bind at 1, wrap, ioReadAll. rewrite Hbody. reflexivity.
Qed.

(** X7.  When the proxy URL (with a proxy in use) or the submission URL
    does not parse, both submit functions fail before anything is sent:
    the world is left exactly as it was. *)
Theorem unparsable_url_sends_nothing (urlParses : string -> bool)
    (config : Config) (email captchaToken cfClearance : string) (w : World) :
  canSubmit urlParses config = false ->
  exists e : error,
    submitPromoEntry urlParses config email captchaToken w = (Err e, w)
    /\ submitPromoEntryWithCookie urlParses config email captchaToken
         cfClearance w = (Err e, w)
    /\ (e = Wrapped "failed to parse proxy URL" (URLError (proxyURL config))
        \/ e = URLError (MonsterSubmitURL config)).
Proof.
  unfold canSubmit. intros Hcan.
  unfold submitPromoEntry, submitPromoEntryWithCookie, submitClient,
    newRequest.
  destruct (UseProxy config).
  - destruct (urlParses (proxyURL config)).
    + cbn [andb] in Hcan. rewrite Hcan.
      eexists. split; [reflexivity | split; [reflexivity | right; reflexivity]].
    + eexists. split; [reflexivity | split; [reflexivity | left; reflexivity]].
  - cbn [andb] in Hcan. rewrite Hcan.
    eexists. split; [reflexivity | split; [reflexivity | right; reflexivity]].
Qed.

(** *** The e-mail alias *)

Lemma length_chars (s : string) : List.length (chars s) = String.length s.
Proof. induction s as [| c s IH]; cbn [chars List.length String.length]; congruence. Qed.

Lemma charsetAt_in_charset (k : nat) :
  (k < 36)%nat -> In (charsetAt k) (chars charset).
Proof.
  intros Hk.
  assert (Hall : forallb
                   (fun i => existsb (Ascii.eqb (charsetAt i)) (chars charset))
                   (seq 0 36) = true) by (vm_compute; reflexivity).
  rewrite forallb_forall in Hall.
  specialize (Hall k). rewrite in_seq in Hall.
  assert (Hex : existsb (Ascii.eqb (charsetAt k)) (chars charset) = true)
    by (apply Hall; lia).
  apply existsb_exists in Hex. destruct Hex as [c [Hin Heq]].
  apply Ascii.eqb_eq in Heq. rewrite Heq. exact Hin.
Qed.

Lemma generateRandomAlias_ok (length : nat) :
  forall (w w' : World) (s : string),
    generateRandomAlias length w = (Ok s, w') ->
    exists draws : list nat,
      List.length draws = length
      /\ entropy w = (map Some draws ++ entropy w')%list
      /\ chars s = map (fun d => charsetAt (d mod 36)) draws.
Proof.
  induction length as [| n IH]; intros w w' s Hrun.
  - cbn [generateRandomAlias] in Hrun. injection Hrun as <- <-.
    exists []. repeat split.
  - cbn [generateRandomAlias] in Hrun. unfold bind at 1, randInt in Hrun.
    destruct (entropy w) as [| [d |] rest] eqn:Hentropy; try discriminate.
    unfold bind at 1 in Hrun.
    destruct (generateRandomAlias n (popEntropy w)) as [[s' | e] w2] eqn:Hrest;
      [| discriminate].
    injection Hrun as <- <-.
    destruct (IH _ _ _ Hrest) as [draws [Hlen [Hdraws Hchars]]].
    exists (d :: draws). cbn [List.length map chars app].
    repeat split.
    + congruence.
    + cbn [popEntropy entropy] in Hdraws. rewrite Hentropy in Hdraws.
      cbn [tl] in Hdraws. rewrite Hdraws. reflexivity.
    + rewrite Hchars. reflexivity.
Qed.

(** The shape of an alias. *)
Lemma generateRandomAlias_shape (length : nat) (w w' : World)
    (s : string) :
  generateRandomAlias length w = (Ok s, w') ->
  String.length s = length
  /\ Forall (fun c => In c (chars charset)) (chars s)
  /\ exists draws : list nat,
       List.length draws = length
       /\ entropy w = (map Some draws ++ entropy w')%list.
Proof.
  intros Hrun.
  destruct (generateRandomAlias_ok length w w' s Hrun)
    as [draws [Hlen [Hdraws Hchars]]].
  split; [| split].
  - rewrite <- length_chars, Hchars, length_map. exact Hlen.
  - rewrite Hchars. apply Forall_forall. intros c Hin.
    apply in_map_iff in Hin. destruct Hin as [d [<- _]].
    apply charsetAt_in_charset. apply Nat.mod_upper_bound. discriminate.
  - exists draws. split; assumption.
Qed.

(** X8.  An alias that [generateRandomAlias] returns has exactly the
    length asked for and only characters of the charset (lower-case
    letters and digits), and it used up one draw of the random source per
    character. *)
Theorem random_alias_has_the_length_asked_for (length : nat) (w w' : World)
    (s : string) :
  generateRandomAlias length w = (Ok s, w') ->
  String.length s = length
  /\ Forall (fun c => In c (chars charset)) (chars s)
  /\ exists draws : list nat,
       List.length draws = length
       /\ entropy w = (map Some draws ++ entropy w')%list.
Proof. exact (generateRandomAlias_shape length w w' s). Qed.

Lemma generateRandomAlias_unfold (n : nat) (w : World) :
  generateRandomAlias (S n) w =
  match entropy w with
  | Some d :: _ =>
      match generateRandomAlias n (popEntropy w) with
      | (Ok rest, w') => (Ok (String (charsetAt (d mod 36)) rest), w')
      | (Err e, w') => (Err e, w')
      end
  | None :: _ => (Err EntropyError, popEntropy w)
  | [] => (Err EntropyError, w)
  end.
Proof.
  cbn [generateRandomAlias]. unfold bind, randInt.
  destruct (entropy w) as [| [d |] rest]; reflexivity.
Qed.

(** Success of [generateRandomAlias], read off the random source. *)
Lemma generateRandomAlias_draws (length : nat) :
  forall w : World,
    if (length <=? goodDraws (entropy w))%nat then
      exists s : string, fst (generateRandomAlias length w) = Ok s
    else fst (generateRandomAlias length w) = Err EntropyError.
Proof.
  induction length as [| n IH]; intros w.
  - cbn [Nat.leb]. exists "". reflexivity.
  - rewrite generateRandomAlias_unfold.
    destruct (entropy w) as [| [d |] rest] eqn:Hentropy;
      cbn [goodDraws Nat.leb]; try reflexivity.
    specialize (IH (popEntropy w)).
    cbn [popEntropy entropy] in IH. rewrite Hentropy in IH. cbn [tl] in IH.
    change {| clock := clock w; network := network w;
              requests := requests w; stdin := stdin w; entropy := rest;
              disk := disk w; submissionsLog := submissionsLog w |}
      with (popEntropy w) in IH.
    destruct (n <=? goodDraws rest)%nat.
    + destruct IH as [s Hs].
      destruct (generateRandomAlias n (popEntropy w)) as [[s' | e] w2];
        cbn [fst] in Hs; [| discriminate].
      eexists. reflexivity.
    + destruct (generateRandomAlias n (popEntropy w)) as [[s' | e] w2];
        cbn [fst] in IH; [discriminate |].
      cbn [fst]. exact IH.
Qed.

(** X9.  [generateRandomAlias] succeeds exactly when the random source
    delivers as many draws as the alias has characters; a draw that fails
    before that makes it return the error of the random source. *)
Theorem random_alias_needs_every_draw (length : nat) (w : World) :
  if (length <=? goodDraws (entropy w))%nat then
    exists s : string, fst (generateRandomAlias length w) = Ok s
  else fst (generateRandomAlias length w) = Err EntropyError.
Proof. exact (generateRandomAlias_draws length w). Qed.

(** [createCloudflareEmailAlias], step by step. *)
Lemma createCloudflareEmailAlias_run (urlParses : string -> bool)
    (formatRFC3339 : Z -> string) (config : Config) (w : World) :
  createCloudflareEmailAlias urlParses formatRFC3339 config w =
  match generateRandomAlias 10 w with
  | (Err e, w1) => (Err (Wrapped "error generating random alias" e), w1)
  | (Ok alias, w1) =>
      let email := alias ++ "@" ++ EmailDomain config in
      let rq := aliasRequest formatRFC3339 config email (clock w1) in
      if urlParses (URL rq) then
        match clientDo rq w1 with
        | (Err e, w2) => (Err (Wrapped "error sending request" e), w2)
        | (Ok resp, w2) =>
            (if StatusCode resp =? 200 then Ok email
             else Err (AliasStatus (StatusCode resp) (Body resp)), w2)
        end
      else (Err (Wrapped "error creating request" (URLError (URL rq))), w1)
  end.
Proof.
  unfold createCloudflareEmailAlias. unfold bind at 1, wrap at 1.
  destruct (generateRandomAlias 10 w) as [[alias | e] w1]; [| reflexivity].
  unfold bind at 1, timeNow. unfold bind at 1, wrap at 1, newRequest.
  cbv zeta. cbn [aliasRequest URL].
  destruct (urlParses
              (cloudflareAPIBaseURL ++ "/zones/" ++ CloudflareZoneID config
               ++ "/email/routing/rules")); [| reflexivity].
  unfold ret at 1. unfold bind at 1, wrap at 1.
  change (headerAdd "Content-Type" "application/json" _)
    with (aliasRequest formatRFC3339 config
            (alias ++ "@" ++ EmailDomain config) (clock w1)).
  destruct (clientDo _ w1) as [[resp | e] w2]; [| reflexivity].
  destruct (StatusCode resp =? 200); reflexivity.
Qed.

Lemma generateRandomAlias_world (length : nat) (w : World) :
  clock (snd (generateRandomAlias length w)) = clock w
  /\ requests (snd (generateRandomAlias length w)) = requests w
  /\ network (snd (generateRandomAlias length w)) = network w.
Proof.
  repeat split.
  - apply (keeps_generateRandomAlias clock randInt_keeps_clock).
  - apply (keeps_generateRandomAlias requests randInt_keeps_requests).
  - apply (keeps_generateRandomAlias network randInt_keeps_network).
Qed.

(** X10.  An address that [createCloudflareEmailAlias] returns is a
    ten-character alias of the charset, an at sign and the configured
    domain; exactly one request went out for it, the routing rule for that
    address, with the API token as bearer. *)
Theorem created_alias_is_under_the_domain (urlParses : string -> bool)
    (formatRFC3339 : Z -> string) (config : Config) (w w' : World)
    (email : string) :
  createCloudflareEmailAlias urlParses formatRFC3339 config w
  = (Ok email, w') ->
  exists alias : string,
    email = alias ++ "@" ++ EmailDomain config
    /\ String.length alias = 10%nat
    /\ Forall (fun c => In c (chars charset)) (chars alias)
    /\ issuedSince w w' = [aliasRequest formatRFC3339 config email (clock w)]
    /\ In ("Authorization", "Bearer " ++ CloudflareAPIToken config)
          (Header (aliasRequest formatRFC3339 config email (clock w))).
Proof.
  intros Hrun. rewrite createCloudflareEmailAlias_run in Hrun.
  destruct (generateRandomAlias_world 10 w) as [Hclock [Hreq _]].
  destruct (generateRandomAlias 10 w) as [[alias | e] w1] eqn:Halias;
    [| discriminate].
  cbn [snd] in Hclock, Hreq. cbv zeta in Hrun.
  destruct (urlParses _); [| discriminate].
  pose proof (clientDo_requests
                (aliasRequest formatRFC3339 config
                   (alias ++ "@" ++ EmailDomain config) (clock w1)) w1)
    as Hsent.
  destruct (clientDo _ w1) as [[resp | e] w2]; [| discriminate].
  cbn [snd] in Hsent.
  destruct (StatusCode resp =? 200); [| discriminate].
  injection Hrun as <- <-.
  destruct (generateRandomAlias_shape 10 w w1 alias Halias)
    as [Hlen [Hchars _]].
  exists alias. repeat split; try assumption.
  - apply issuedSince_app. rewrite Hsent, Hreq, Hclock. reflexivity.
  - left. reflexivity.
Qed.

(** X11.  For the alias only status 200 counts: with enough random draws
    and a URL that parses, any other status of the answer, 201 included,
    is the alias error carrying the status and the body; with status 200
    the address is returned without the body being read. *)
Theorem alias_needs_status_200 (urlParses : string -> bool)
    (formatRFC3339 : Z -> string) (config : Config) (w : World)
    (x : Exchange) (rest : list Exchange) (r : Response) :
  (10 <= goodDraws (entropy w))%nat ->
  urlParses (cloudflareAPIBaseURL ++ "/zones/" ++ CloudflareZoneID config
             ++ "/email/routing/rules") = true ->
  network w = x :: rest ->
  outcome x = Replied r ->
  (StatusCode r = 200 ->
   exists email : string,
     fst (createCloudflareEmailAlias urlParses formatRFC3339 config w)
     = Ok email)
  /\ (StatusCode r <> 200 ->
      fst (createCloudflareEmailAlias urlParses formatRFC3339 config w)
      = Err (AliasStatus (StatusCode r) (Body r))).
Proof.
  intros Hdraws Hurl Hnet Hout.
  rewrite createCloudflareEmailAlias_run.
  pose proof (generateRandomAlias_draws 10 w) as Halias.
  apply Nat.leb_le in Hdraws. rewrite Hdraws in Halias.
  destruct Halias as [alias Halias].
  destruct (generateRandomAlias_world 10 w) as [_ [_ Hnet1]].
  destruct (generateRandomAlias 10 w) as [[alias' | e] w1];
    cbn [fst] in Halias; [| discriminate].
  cbn [snd] in Hnet1. cbv zeta. cbn [aliasRequest URL]. rewrite Hurl.
  rewrite Hnet in Hnet1.
  rewrite (clientDo_next _ w1 x rest Hnet1), Hout. cbn [fst].
  split.
  - intros H200. rewrite H200. eexists. reflexivity.
  - intros Hnot. apply Z.eqb_neq in Hnot. rewrite Hnot. reflexivity.
Qed.

(** X12.  When the alias cannot be created the cycle ends there with that
    error: no CAPTCHA task is created and nothing is submitted (at most
    the alias request went out), and the log file is as it was. *)
Theorem failed_alias_aborts_cycle (urlParses : string -> bool)
    (formatRFC3339 : Z -> string) (config : Config) (w w1 : World)
    (e : error) :
  UseCloudflareEmail config = true ->
  createCloudflareEmailAlias urlParses formatRFC3339 config w = (Err e, w1) ->
  submitEntry urlParses formatRFC3339 config w
  = (Err (Wrapped "error creating email alias" e), w1)
  /\ submissionsLog w1 = submissionsLog w
  /\ (issuedSince w w1 = []
      \/ exists email : string,
           issuedSince w w1
           = [aliasRequest formatRFC3339 config email (clock w)]).
Proof.
  intros Huse Hrun. split; [| split].
  - unfold submitEntry, obtainEmail. rewrite Huse.
    unfold bind at 1, wrap at 1. rewrite Hrun. reflexivity.
  - pose proof (keepsLog_createCloudflareEmailAlias urlParses formatRFC3339
                  config w) as Hlog.
    rewrite Hrun in Hlog. exact Hlog.
  - rewrite createCloudflareEmailAlias_run in Hrun.
    destruct (generateRandomAlias_world 10 w) as [Hclock [Hreq _]].
    destruct (generateRandomAlias 10 w) as [[alias | e1] w2];
      cbn [snd] in Hclock, Hreq.
    + cbv zeta in Hrun. destruct (urlParses _).
      * pose proof (clientDo_requests
                      (aliasRequest formatRFC3339 config
                         (alias ++ "@" ++ EmailDomain config) (clock w2)) w2)
          as Hsent.
        destruct (clientDo _ w2) as [[resp | e2] w3]; cbn [snd] in Hsent.
        -- destruct (StatusCode resp =? 200); [discriminate |].
           injection Hrun as _ <-. right.
           exists (alias ++ "@" ++ EmailDomain config).
           apply issuedSince_app. rewrite Hsent, Hreq, Hclock. reflexivity.
        -- injection Hrun as _ <-. right.
           exists (alias ++ "@" ++ EmailDomain config).
           apply issuedSince_app. rewrite Hsent, Hreq, Hclock. reflexivity.
      * injection Hrun as _ <-. left.
        apply issuedSince_app. rewrite app_nil_r. exact Hreq.
    + injection Hrun as _ <-. left.
      apply issuedSince_app. rewrite app_nil_r. exact Hreq.
Qed.

(** *** The cycle on its other paths *)

(** X13.  When the CAPTCHA is not solved the cycle ends there with that
    error: after the address was obtained only the requests of the solver
    went out, nothing was submitted, and the log file is as it was. *)
Theorem failed_captcha_aborts_cycle (urlParses : string -> bool)
    (formatRFC3339 : Z -> string) (config : Config) (w w1 w2 : World)
    (email : string) (e : error) :
  obtainEmail urlParses formatRFC3339 config w = (Ok email, w1) ->
  solveCaptcha config w1 = (Err e, w2) ->
  submitEntry urlParses formatRFC3339 config w
  = (Err (Wrapped "error solving captcha" e), w2)
  /\ submissionsLog w2 = submissionsLog w
  /\ exists (id : TaskID) (k : nat),
       issuedSince w1 w2 =
       createRequest config :: repeat (pollRequest config id) k.
Proof.
  intros Hemail Hsolve. split; [| split].
  - unfold submitEntry.
    unfold bind at 1. rewrite Hemail.
    unfold bind at 1, wrap at 1. rewrite Hsolve. reflexivity.
  - pose proof (keepsLog_obtainEmail urlParses formatRFC3339 config w) as H1.
    pose proof (keepsLog_solveCaptcha config w1) as H2.
    rewrite Hemail in H1. rewrite Hsolve in H2. cbn [snd] in H1, H2.
    congruence.
  - destruct (solveCaptcha_requests config w1) as [id [k [_ Hreq]]].
    rewrite Hsolve in Hreq. cbn [snd] in Hreq.
    exists id, k. apply issuedSince_app. exact Hreq.
Qed.

Lemma logSubmission_run (email : string) (w : World) :
  (logSubmission email ;;; ret tt) w = (Ok tt, snd (logSubmission email w)).
Proof.
  unfold bind, logSubmission. destruct (disk w); reflexivity.
Qed.

(** The cycle once the primary entry has succeeded: the additional
    entries when there is a clearance token, then the log. *)
Lemma cycle_after_primary (urlParses : string -> bool)
    (formatRFC3339 : Z -> string) (config : Config) (w w1 w2 w3 : World)
    (email captchaToken cfClearance : string) :
  obtainEmail urlParses formatRFC3339 config w = (Ok email, w1) ->
  solveCaptcha config w1 = (Ok captchaToken, w2) ->
  submitPromoEntry urlParses config email captchaToken w2
  = (Ok cfClearance, w3) ->
  exists w' : World,
    submitEntry urlParses formatRFC3339 config w
    = (Ok tt, snd (logSubmission email w'))
    /\ (cfClearance = "" -> w' = w3)
    /\ disk w' = disk w
    /\ submissionsLog w' = submissionsLog w.
Proof.
  intros Hemail Hsolve Hsubmit.
  assert (Hdisk : disk w3 = disk w).
  { pose proof (keeps_obtainEmail disk clientDo_keeps_disk randInt_keeps_disk
                  getUserInput_keeps_disk urlParses formatRFC3339 config w)
      as H1.
    pose proof (keeps_solveCaptcha disk clientDo_keeps_disk
                  timeSleep_keeps_disk config w1) as H2.
    pose proof (keeps_submitPromoEntry disk clientDo_keeps_disk urlParses
                  config email captchaToken w2) as H3.
    rewrite Hemail in H1. rewrite Hsolve in H2. rewrite Hsubmit in H3.
    cbn [snd] in H1, H2, H3. congruence. }
  assert (Hlog : submissionsLog w3 = submissionsLog w).
  { pose proof (keepsLog_obtainEmail urlParses formatRFC3339 config w) as H1.
    pose proof (keepsLog_solveCaptcha config w1) as H2.
    pose proof (keepsLog_submitPromoEntry urlParses config email captchaToken
                  w2) as H3.
    rewrite Hemail in H1. rewrite Hsolve in H2. rewrite Hsubmit in H3.
    cbn [snd] in H1, H2, H3. congruence. }
  unfold submitEntry.
  unfold bind at 1. rewrite Hemail.
  unfold bind at 1, wrap at 1. rewrite Hsolve.
  unfold bind at 1, wrap at 1. rewrite Hsubmit.
  destruct (isEmpty cfClearance) eqn:Hempty; cbn [negb].
  - exists w3. unfold bind at 1, ret at 1.
    rewrite logSubmission_run. repeat split; assumption.
  - pose proof (submitPromoEntry_ok_canSubmit _ _ _ _ _ _ _ Hsubmit) as Hcan.
    destruct (additionalEntries_run urlParses config email captchaToken
                cfClearance 5 Hcan w3) as [w' [Hrun [_ Hlog']]].
    pose proof (keeps_additionalEntries disk clientDo_keeps_disk urlParses
                  config email captchaToken cfClearance 5 w3) as Hdisk'.
    rewrite Hrun in Hdisk'. cbn [snd] in Hdisk'.
    exists w'. unfold bind at 1. rewrite Hrun.
    rewrite logSubmission_run. repeat split.
    + intros ->. discriminate.
    + congruence.
    + congruence.
Qed.

(** X14.  Without a clearance token (no cf_clearance cookie, or one whose
    value is empty) the cycle sends no additional entry and still
    succeeds: after the primary request nothing goes out. *)
Theorem no_clearance_no_additional_entry (urlParses : string -> bool)
    (formatRFC3339 : Z -> string) (config : Config) (w w1 w2 w3 : World)
    (email captchaToken : string) :
  obtainEmail urlParses formatRFC3339 config w = (Ok email, w1) ->
  solveCaptcha config w1 = (Ok captchaToken, w2) ->
  submitPromoEntry urlParses config email captchaToken w2 = (Ok "", w3) ->
  exists w4 : World,
    submitEntry urlParses formatRFC3339 config w = (Ok tt, w4)
    /\ issuedSince w3 w4 = []
    /\ network w4 = network w3.
Proof.
  intros Hemail Hsolve Hsubmit.
  destruct (cycle_after_primary urlParses formatRFC3339 config w w1 w2 w3
              email captchaToken "" Hemail Hsolve Hsubmit)
    as [w' [Hrun [Hsame _]]].
  specialize (Hsame eq_refl). subst w'.
  exists (snd (logSubmission email w3)). split; [exact Hrun |].
  unfold logSubmission. destruct (disk w3); cbn [snd]; split;
    try reflexivity; apply issuedSince_app; cbn [appendLog requests];
    now rewrite app_nil_r.
Qed.

(** X15.  A cycle whose primary entry succeeds writes exactly one entry to
    the log file, for the address submitted and stamped with the time the
    cycle ended, when the file can be opened and written; when it cannot,
    the cycle succeeds all the same and the log file stays as it was. *)
Theorem successful_cycle_logs_once (urlParses : string -> bool)
    (formatRFC3339 : Z -> string) (config : Config) (w w1 w2 w3 : World)
    (email captchaToken cfClearance : string) :
  obtainEmail urlParses formatRFC3339 config w = (Ok email, w1) ->
  solveCaptcha config w1 = (Ok captchaToken, w2) ->
  submitPromoEntry urlParses config email captchaToken w2
  = (Ok cfClearance, w3) ->
  exists w4 : World,
    submitEntry urlParses formatRFC3339 config w = (Ok tt, w4)
    /\ submissionsLog w4 =
       match disk w with
       | DiskOK =>
           (submissionsLog w
            ++ [{| loggedAt := clock w4; loggedEmail := email |}])%list
       | _ => submissionsLog w
       end.
Proof.
  intros Hemail Hsolve Hsubmit.
  destruct (cycle_after_primary urlParses formatRFC3339 config w w1 w2 w3
              email captchaToken cfClearance Hemail Hsolve Hsubmit)
    as [w' [Hrun [_ [Hdisk Hlog]]]].
  exists (snd (logSubmission email w')). split; [exact Hrun |].
  unfold logSubmission. rewrite Hdisk.
  destruct (disk w); cbn [snd appendLog submissionsLog clock];
    rewrite Hlog; reflexivity.
Qed.

(** *** The start-up checks *)

(** X16.  A configuration that [validateConfig] lets through comes out
    with a number of retries and a timeout that are not zero: zero retries
    become 5 and a zero timeout becomes 120, any other value of either is
    kept (a negative one included), and no other setting changes;
    validating the result again changes nothing. *)
Theorem validated_config_has_defaults (c c' : Config) :
  validateConfig c = Some c' ->
  MaxCaptchaRetries c' <> 0
  /\ PrimFloat.eqb (CaptchaTimeout c') 0%float = false
  /\ (MaxCaptchaRetries c <> 0 -> MaxCaptchaRetries c' = MaxCaptchaRetries c)
  /\ (MaxCaptchaRetries c = 0 -> MaxCaptchaRetries c' = 5)
  /\ (PrimFloat.eqb (CaptchaTimeout c) 0%float = true ->
      CaptchaTimeout c' = 120%float)
  /\ (PrimFloat.eqb (CaptchaTimeout c) 0%float = false ->
      CaptchaTimeout c' = CaptchaTimeout c)
  /\ sameOtherSettings c c'
  /\ validateConfig c' = Some c'.
Proof.
  unfold validateConfig, sameOtherSettings. intros Hvalid.
  destruct (isEmpty (CloudflareAPIToken c)) eqn:H1; [discriminate |].
  destruct (isEmpty (EZCaptchaAPIKey c) && isEmpty (TwoCaptchaAPIKey c))
    eqn:H2; [discriminate |].
  destruct (isEmpty (RecaptchaSiteKey c)) eqn:H3; [discriminate |].
  destruct (isEmpty (EmailDomain c)) eqn:H4; [discriminate |].
  destruct (isEmpty (CloudflareZoneID c)) eqn:H5; [discriminate |].
  destruct (isEmpty (ForwardToEmail c)) eqn:H6; [discriminate |].
  destruct (isEmpty (MonsterPromoURL c) || isEmpty (MonsterSubmitURL c))
    eqn:H7; [discriminate |].
  injection Hvalid as <-.
  cbn [CloudflareAPIToken EZCaptchaAPIKey TwoCaptchaAPIKey RecaptchaSiteKey
       EmailDomain CloudflareZoneID ForwardToEmail MonsterPromoURL
       MonsterSubmitURL UseProxy ProxyUsername ProxyPassword ProxyDNS
       ProxyPort UseCloudflareEmail DebugMode UseTwoCaptcha
       MaxCaptchaRetries CaptchaTimeout].
  rewrite H1, H2, H3, H4, H5, H6, H7.
  destruct (MaxCaptchaRetries c =? 0) eqn:Hn;
    destruct (PrimFloat.eqb (CaptchaTimeout c) 0%float) eqn:Ht.
  - change (5 =? 0) with false.
    change (PrimFloat.eqb 120%float 0%float) with false.
    apply Z.eqb_eq in Hn.
    repeat split; try discriminate; try reflexivity; intros; congruence.
  - change (5 =? 0) with false. rewrite Ht.
    apply Z.eqb_eq in Hn.
    repeat split; try discriminate; try reflexivity; intros; congruence.
  - rewrite Hn. change (PrimFloat.eqb 120%float 0%float) with false.
    apply Z.eqb_neq in Hn.
    repeat split; try assumption; try reflexivity; intros; congruence.
  - rewrite Hn, Ht. apply Z.eqb_neq in Hn.
    repeat split; try assumption; try reflexivity; intros; congruence.
Qed.

(** *** Questions to the user *)

Lemma lowerAscii_y (c : ascii) :
  lowerAscii c = "y"%char <-> c = "y"%char \/ c = "Y"%char.
Proof.
  destruct c as [[] [] [] [] [] [] [] []]; vm_compute;
    (split; [intros H; try discriminate H; auto
            | intros [H | H]; try discriminate H; reflexivity]).
Qed.

Lemma toLower_y (s : string) : toLower s = "y" <-> s = "y" \/ s = "Y".
Proof.
  destruct s as [| c s]; cbn [toLower].
  - split; [discriminate | intros [H | H]; discriminate].
  - split.
    + intros H. injection H as Hc Hs.
      destruct s; [| discriminate].
      apply lowerAscii_y in Hc. destruct Hc as [-> | ->]; auto.
    + intros [H | H]; injection H as -> ->; reflexivity.
Qed.

(** [confirmAction], read off standard input. *)
Lemma confirmAction_spec (prompt : string) (w : World) :
  (fst (confirmAction prompt w) = true <->
   exists rest : list string,
     stdin w = "y" :: rest \/ stdin w = "Y" :: rest)
  /\ snd (confirmAction prompt w) = answered w.
Proof.
  unfold confirmAction, getUserInput, answered.
  destruct (stdin w) as [| line rest]; cbn [fst snd].
  - split; [| reflexivity]. split; [discriminate |].
    intros [rest [H | H]]; discriminate.
  - split; [| reflexivity]. rewrite String.eqb_eq, toLower_y. split.
    + intros [-> | ->]; exists rest; auto.
    + intros [rest' [H | H]]; injection H as -> _; auto.
Qed.

(** X17.  [confirmAction] says yes exactly when the next line typed is y
    or Y; anything else, the end of the input included, counts as no.  It
    takes that one line from the input and does nothing else. *)
Theorem confirmation_needs_a_y (prompt : string) (w : World) :
  (fst (confirmAction prompt w) = true <->
   exists rest : list string,
     stdin w = "y" :: rest \/ stdin w = "Y" :: rest)
  /\ snd (confirmAction prompt w) = answered w.
Proof. exact (confirmAction_spec prompt w). Qed.

Lemma confirmAction_no (prompt : string) (w : World) :
  (forall rest : list string,
      stdin w <> "y" :: rest /\ stdin w <> "Y" :: rest) ->
  confirmAction prompt w = (false, answered w).
Proof.
  intros Hno.
  destruct (confirmAction_spec prompt w) as [Hyes Hworld].
  destruct (confirmAction prompt w) as [[|] w1]; cbn [fst snd] in *.
  - destruct (proj1 Hyes eq_refl) as [rest [H | H]];
      destruct (Hno rest); contradiction.
  - rewrite Hworld. reflexivity.
Qed.

Lemma confirmAction_yes (prompt : string) (w : World) (line : string)
    (rest : list string) :
  stdin w = line :: rest ->
  line = "y" \/ line = "Y" ->
  confirmAction prompt w = (true, popStdin w).
Proof.
  intros Hstdin Hline.
  destruct (confirmAction_spec prompt w) as [Hyes Hworld].
  unfold answered in Hworld. rewrite Hstdin in Hworld.
  destruct (confirmAction prompt w) as [b w1]; cbn [fst snd] in *.
  subst w1. f_equal. apply Hyes. exists rest.
  destruct Hline as [-> | ->]; auto.
Qed.

(** X18.  [interactiveMode] does nothing without a yes: when the first
    line typed is not y or Y (or there is none) it returns at once, having
    sent no request and written nothing. *)
Theorem interactive_mode_needs_confirmation (urlParses : string -> bool)
    (formatRFC3339 : Z -> string) (config : Config) (fuel : nat) (w : World) :
  (forall rest : list string,
      stdin w <> "y" :: rest /\ stdin w <> "Y" :: rest) ->
  interactiveMode urlParses formatRFC3339 config (S fuel) w
  = Some (answered w)
  /\ requests (answered w) = requests w
  /\ submissionsLog (answered w) = submissionsLog w
  /\ network (answered w) = network w.
Proof.
  intros Hno. cbn [interactiveMode].
  rewrite (confirmAction_no _ w Hno). cbn [negb].
  unfold answered. destruct (stdin w); repeat split.
Qed.

(** X19.  A yes, a cycle, then anything but a yes: [interactiveMode] runs
    exactly one cycle and returns, whether the cycle succeeded or not. *)
Theorem interactive_mode_runs_one_cycle (urlParses : string -> bool)
    (formatRFC3339 : Z -> string) (config : Config) (fuel : nat) (w : World)
    (line : string) (rest : list string) :
  stdin w = line :: rest ->
  line = "y" \/ line = "Y" ->
  (forall rest' : list string,
      stdin (snd (submitEntry urlParses formatRFC3339 config (popStdin w)))
      <> "y" :: rest'
      /\ stdin (snd (submitEntry urlParses formatRFC3339 config (popStdin w)))
         <> "Y" :: rest') ->
  interactiveMode urlParses formatRFC3339 config (S fuel) w
  = Some (answered
            (snd (submitEntry urlParses formatRFC3339 config (popStdin w)))).
Proof.
  intros Hstdin Hline Hno. cbn [interactiveMode].
  rewrite (confirmAction_yes _ w line rest Hstdin Hline). cbn [negb].
  destruct (submitEntry urlParses formatRFC3339 config (popStdin w))
    as [r w2]; cbn [snd] in Hno.
  rewrite (confirmAction_no _ w2 Hno). reflexivity.
Qed.

Lemma answered_stdin (w : World) :
  (List.length (stdin (answered w)) <= List.length (stdin w))%nat.
Proof.
  unfold answered. destruct (stdin w) as [| line rest] eqn:Hstdin.
  - rewrite Hstdin. cbn [List.length]. lia.
  - cbn [popStdin stdin]. rewrite Hstdin. cbn [tl List.length]. lia.
Qed.

Lemma logSubmission_keeps_stdin (email : string) :
  keeps stdin (logSubmission email).
Proof. intros w. unfold logSubmission. destruct (disk w); reflexivity. Qed.

Lemma obtainEmail_stdin (urlParses : string -> bool)
    (formatRFC3339 : Z -> string) (config : Config) (w : World) :
  (List.length (stdin (snd (obtainEmail urlParses formatRFC3339 config w)))
   <= List.length (stdin w))%nat.
Proof.
  unfold obtainEmail. destruct (UseCloudflareEmail config).
  - rewrite (keeps_wrap stdin _ _
               (keeps_createCloudflareEmailAlias stdin clientDo_keeps_stdin
                  randInt_keeps_stdin urlParses formatRFC3339 config) w).
    lia.
  - unfold getUserInput. destruct (stdin w) as [| line rest] eqn:Hstdin;
      cbn [snd popStdin stdin]; rewrite Hstdin; cbn [tl List.length]; lia.
Qed.

(** A cycle reads at most the address from standard input. *)
Lemma submitEntry_stdin (urlParses : string -> bool)
    (formatRFC3339 : Z -> string) (config : Config) (w : World) :
  (List.length (stdin (snd (submitEntry urlParses formatRFC3339 config w)))
   <= List.length (stdin w))%nat.
Proof.
  pose proof (obtainEmail_stdin urlParses formatRFC3339 config w) as Hemail.
  unfold submitEntry. unfold bind at 1.
  destruct (obtainEmail urlParses formatRFC3339 config w) as [[email | e] w1];
    cbn [snd] in Hemail |- *; [| exact Hemail].
  match goal with
  | |- (List.length (stdin (snd (?m w1))) <= _)%nat =>
      assert (Hrest : keeps stdin m)
  end.
  { apply keeps_bind.
    - apply keeps_wrap.
      apply (keeps_solveCaptcha stdin clientDo_keeps_stdin
               timeSleep_keeps_stdin).
    - intros captchaToken. apply keeps_bind.
      + apply keeps_wrap.
        apply (keeps_submitPromoEntry stdin clientDo_keeps_stdin).
      + intros cfClearance. apply keeps_bind.
        * destruct (negb (isEmpty cfClearance)).
          -- apply (keeps_additionalEntries stdin clientDo_keeps_stdin).
          -- apply keeps_ret.
        * intros _. apply keeps_bind.
          -- apply logSubmission_keeps_stdin.
          -- intros _. apply keeps_ret. }
  rewrite (Hrest w1). exact Hemail.
Qed.

Lemma interactiveMode_enough_fuel (urlParses : string -> bool)
    (formatRFC3339 : Z -> string) (config : Config) (fuel : nat) :
  forall w : World,
    (List.length (stdin w) < fuel)%nat ->
    exists w' : World,
      interactiveMode urlParses formatRFC3339 config fuel w = Some w'.
Proof.
  induction fuel as [| fuel IH]; intros w Hlt; [lia |].
  cbn [interactiveMode].
  destruct (confirmAction_spec "Continue with submission?" w)
    as [Hyes Hworld].
  destruct (confirmAction "Continue with submission?" w) as [[|] w1];
    cbn [fst snd negb] in *; [| eauto].
  destruct (proj1 Hyes eq_refl) as [rest Hstdin].
  assert (Hlen1 : (S (List.length (stdin w1)) = List.length (stdin w))%nat).
  { subst w1. unfold answered.
    destruct Hstdin as [H | H]; rewrite H; cbn [popStdin stdin];
      rewrite H; reflexivity. }
  pose proof (submitEntry_stdin urlParses formatRFC3339 config w1) as Hlen2.
  destruct (submitEntry urlParses formatRFC3339 config w1) as [r w2];
    cbn [snd] in Hlen2.
  destruct (confirmAction_spec "Submit another entry?" w2)
    as [_ Hworld3].
  pose proof (answered_stdin w2) as Hlen3.
  destruct (confirmAction "Submit another entry?" w2) as [[|] w3];
    cbn [snd negb] in *; [| eauto].
  subst w3. apply IH. lia.
Qed.

(** X20.  [interactiveMode] always returns on a finite input: every round
    of its loop takes a line from standard input, and the end of the input
    counts as a no; one more round than there are lines is enough. *)
Theorem interactive_mode_returns (urlParses : string -> bool)
    (formatRFC3339 : Z -> string) (config : Config) (w : World) :
  exists w' : World,
    interactiveMode urlParses formatRFC3339 config
      (S (List.length (stdin w))) w = Some w'.
Proof. apply interactiveMode_enough_fuel. lia. Qed.

(** X21.  [getUserInputInt] skips the lines that are not integers and
    returns the first one that is, leaving the lines after it on the
    input; it touches nothing else. *)
Theorem first_integer_line_is_returned (prompt : string)
    (bad : list string) :
  forall (fuel : nat) (w : World) (good : string) (rest : list string)
         (value : Z),
    stdin w = (bad ++ good :: rest)%list ->
    Forall (fun line => Atoi line = None) bad ->
    Atoi good = Some value ->
    (List.length bad < fuel)%nat ->
    exists w' : World,
      getUserInputInt prompt fuel w = Some (value, w')
      /\ stdin w' = rest
      /\ requests w' = requests w
      /\ network w' = network w
      /\ clock w' = clock w.
Proof.
  induction bad as [| line bad IH];
    intros fuel w good rest value Hstdin Hbad Hgood Hfuel;
    (destruct fuel as [| fuel]; [cbn [List.length] in Hfuel; lia |]);
    cbn [getUserInputInt]; unfold getUserInput; rewrite Hstdin;
    cbn [app].
  - rewrite Hgood. exists (popStdin w). split; [reflexivity |].
    cbn [popStdin stdin requests network clock]. rewrite Hstdin.
    repeat split.
  - inversion Hbad as [| ? ? Hline Hbad']; subst. rewrite Hline.
    destruct (IH fuel (popStdin w) good rest value) as [w' [Hrun Hw']];
      try assumption.
    + cbn [popStdin stdin]. rewrite Hstdin. reflexivity.
    + cbn [List.length] in Hfuel. lia.
    + exists w'. split; [exact Hrun | exact Hw'].
Qed.

(** X22.  [getUserInputInt] never returns when no line left on the input
    is an integer: at the end of the input it reads the empty string, which
    is no integer, again and again. *)
Theorem no_integer_line_never_returns (prompt : string) (fuel : nat) :
  forall w : World,
    Forall (fun line => Atoi line = None) (stdin w) ->
    getUserInputInt prompt fuel w = None.
Proof.
  induction fuel as [| fuel IH]; intros w Hbad; [reflexivity |].
  cbn [getUserInputInt]. unfold getUserInput.
  destruct (stdin w) as [| line rest] eqn:Hstdin.
  - change (Atoi "") with (@None Z). apply IH. rewrite Hstdin. constructor.
  - inversion Hbad as [| ? ? Hline Hrest]; subst. rewrite Hline.
    apply IH. cbn [popStdin stdin]. rewrite Hstdin. exact Hrest.
Qed.

Lemma automaticLoop_stats (urlParses : string -> bool)
    (formatRFC3339 : Z -> string) (config : Config) (delay : Z)
    (iterations : nat) :
  forall (stats : RunStats) (w : World),
    totalCount
      (fst (automaticLoop urlParses formatRFC3339 config delay iterations
              stats w))
    = totalCount stats + Z.of_nat iterations
    /\ successCount stats
       <= successCount
            (fst (automaticLoop urlParses formatRFC3339 config delay
                    iterations stats w))
       <= successCount stats + Z.of_nat iterations.
Proof.
  induction iterations as [| n IH]; intros stats w.
  - cbn [automaticLoop fst]. lia.
  - cbn [automaticLoop].
    destruct (submitEntry urlParses formatRFC3339 config w) as [err w1].
    destruct (sleepFor (wrapInt64 (delay * Second)) w1) as [u w2].
    match goal with
    | |- context [automaticLoop _ _ _ _ n ?s w2] =>
        destruct (IH s w2) as [Htotal Hsuccess]
    end.
    cbn [totalCount successCount] in Htotal, Hsuccess.
    destruct err as [u' | e]; lia.
Qed.

(** X23.  The counters of [automaticMode]: after [k] rounds the total is
    [k] whatever the cycles returned (a failed cycle does not end the
    loop), and the count of successes lies between 0 and the total. *)
Theorem automatic_mode_counts_every_cycle (urlParses : string -> bool)
    (formatRFC3339 : Z -> string) (config : Config) (fuel iterations : nat)
    (w w' : World) (stats : RunStats) :
  automaticMode urlParses formatRFC3339 config fuel iterations w
  = Some (stats, w') ->
  totalCount stats = Z.of_nat iterations
  /\ 0 <= successCount stats <= totalCount stats.
Proof.
  unfold automaticMode. intros Hrun.
  destruct (getUserInputInt _ fuel w) as [[delay w1] |]; [| discriminate].
  pose proof (automaticLoop_stats urlParses formatRFC3339 config delay
                iterations {| successCount := 0; totalCount := 0 |} w1)
    as [Htotal Hsuccess].
  destruct (automaticLoop urlParses formatRFC3339 config delay iterations
              {| successCount := 0; totalCount := 0 |} w1) as [s w2].
  injection Hrun as -> ->.
  cbn [fst totalCount successCount] in Htotal, Hsuccess. lia.
Qed.

(** *** How much a cycle sends *)

Lemma obtainEmail_requests (urlParses : string -> bool)
    (formatRFC3339 : Z -> string) (config : Config) (w : World) :
  exists sent : list Request,
    requests (snd (obtainEmail urlParses formatRFC3339 config w))
    = (requests w ++ sent)%list
    /\ (List.length sent <= 1)%nat.
Proof.
  unfold obtainEmail. destruct (UseCloudflareEmail config).
  - unfold wrap. rewrite createCloudflareEmailAlias_run.
    destruct (generateRandomAlias_world 10 w) as [_ [Hreq _]].
    destruct (generateRandomAlias 10 w) as [[alias | e] w1];
      cbn [snd] in Hreq.
    + cbv zeta. destruct (urlParses _).
      * pose proof (clientDo_requests
                      (aliasRequest formatRFC3339 config
                         (alias ++ "@" ++ EmailDomain config) (clock w1)) w1)
          as Hsent.
        destruct (clientDo _ w1) as [[resp | e] w2]; cbn [snd] in Hsent.
        -- destruct (StatusCode resp =? 200); cbn [snd]; eexists;
             (split; [rewrite Hsent, Hreq; reflexivity | cbn [List.length]; lia]).
        -- cbn [snd]. eexists.
           split; [rewrite Hsent, Hreq; reflexivity | cbn [List.length]; lia].
      * cbn [snd]. exists []. rewrite app_nil_r.
        split; [exact Hreq | cbn [List.length]; lia].
    + cbn [snd]. exists []. rewrite app_nil_r.
      split; [exact Hreq | cbn [List.length]; lia].
  - exists []. rewrite app_nil_r.
    split; [apply getUserInput_keeps_requests | cbn [List.length]; lia].
Qed.

Lemma logSubmission_requests (email : string) (w : World) :
  requests (snd (logSubmission email w)) = requests w.
Proof. unfold logSubmission. destruct (disk w); reflexivity. Qed.

(** X24.  A cycle never sends more than eight requests plus one per
    retry: one for the alias, one to create the task, the polls, the
    primary entry and the five additional ones. *)
Theorem cycle_request_budget (urlParses : string -> bool)
    (formatRFC3339 : Z -> string) (config : Config) (w : World) :
  exists sent : list Request,
    requests (snd (submitEntry urlParses formatRFC3339 config w))
    = (requests w ++ sent)%list
    /\ (List.length sent <= 8 + Z.to_nat (MaxCaptchaRetries config))%nat.
Proof.
  destruct (obtainEmail_requests urlParses formatRFC3339 config w)
    as [sent1 [Hreq1 Hlen1]].
  destruct (obtainEmail urlParses formatRFC3339 config w)
    as [[email | e] w1] eqn:Hemail; cbn [snd] in Hreq1.
  2:{ exists sent1. unfold submitEntry. unfold bind at 1. rewrite Hemail.
      cbn [snd]. split; [exact Hreq1 | lia]. }
  destruct (solveCaptcha_requests config w1) as [id [k [Hk Hreq2]]].
  destruct (solveCaptcha config w1) as [[captchaToken | e] w2] eqn:Hsolve;
    cbn [snd] in Hreq2.
  2:{ exists (sent1 ++ createRequest config
                       :: repeat (pollRequest config id) k)%list.
      unfold submitEntry. unfold bind at 1. rewrite Hemail.
      unfold bind at 1, wrap at 1. rewrite Hsolve. cbn [snd].
      split.
      - rewrite Hreq2, Hreq1, <- app_assoc. reflexivity.
      - rewrite length_app. cbn [List.length]. rewrite repeat_length. lia. }
  pose proof (submitPromoEntry_requests urlParses config email captchaToken w2)
    as Hreq3.
  destruct (submitPromoEntry urlParses config email captchaToken w2)
    as [[cfClearance | e] w3] eqn:Hsubmit; cbn [snd] in Hreq3.
  2:{ exists (sent1 ++ (createRequest config
                        :: repeat (pollRequest config id) k)
              ++ (if canSubmit urlParses config
                  then [primaryRequest config email captchaToken]
                  else []))%list.
      unfold submitEntry. unfold bind at 1. rewrite Hemail.
      unfold bind at 1, wrap at 1. rewrite Hsolve.
      unfold bind at 1, wrap at 1. rewrite Hsubmit. cbn [snd].
      split.
      - rewrite Hreq3. destruct (canSubmit urlParses config);
          rewrite Hreq2, Hreq1, <- ?app_assoc; cbn [app];
          rewrite ?app_nil_r; reflexivity.
      - rewrite !length_app. cbn [List.length]. rewrite repeat_length.
        destruct (canSubmit urlParses config); cbn [List.length]; lia. }
  rewrite (submitPromoEntry_ok_canSubmit _ _ _ _ _ _ _ Hsubmit) in Hreq3.
  destruct (string_dec cfClearance "") as [Hempty | Hclear].
  - subst cfClearance.
    destruct (cycle_after_primary urlParses formatRFC3339 config w w1 w2 w3
                email captchaToken "" Hemail Hsolve Hsubmit)
      as [w' [Hrun [Hsame _]]].
    specialize (Hsame eq_refl). subst w'.
    exists (sent1 ++ (createRequest config
                      :: repeat (pollRequest config id) k)
            ++ [primaryRequest config email captchaToken])%list.
    rewrite Hrun. cbn [snd]. rewrite logSubmission_requests. split.
    + rewrite Hreq3, Hreq2, Hreq1, <- !app_assoc. reflexivity.
    + rewrite !length_app. cbn [List.length]. rewrite repeat_length. lia.
  - destruct (cycle_with_clearance urlParses formatRFC3339 config w w1 w2 w3
                email captchaToken cfClearance Hemail Hsolve Hsubmit Hclear)
      as [w4 [Hrun Hreq4]].
    exists (sent1 ++ (createRequest config
                      :: repeat (pollRequest config id) k)
            ++ [primaryRequest config email captchaToken]
            ++ repeat (additionalRequest config email captchaToken
                         cfClearance) 5)%list.
    rewrite Hrun. cbn [snd]. split.
    + rewrite Hreq4, Hreq3, Hreq2, Hreq1, <- !app_assoc. reflexivity.
    + rewrite !length_app. cbn [List.length]. rewrite !repeat_length. lia.
Qed.

(** ** The further properties on sample runs *)

(** X2 on a sample run. *)
Lemma no_retries_no_poll_witness :
  solveCaptcha negativeRetriesConfig
    (worldWith [createdSeven; reply 100 200 [] (ready "XYZ")]) =
    (Err (CaptchaAttemptsFailed (MaxCaptchaRetries negativeRetriesConfig)),
     afterRoundTrip (createRequest negativeRetriesConfig) createdSeven
       (worldWith [createdSeven; reply 100 200 [] (ready "XYZ")]))
  /\ pollsIssued
       (afterRoundTrip (createRequest negativeRetriesConfig) createdSeven
          (worldWith [createdSeven; reply 100 200 [] (ready "XYZ")]))
     = pollsIssued (worldWith [createdSeven; reply 100 200 [] (ready "XYZ")]).
Proof.
  apply (no_retries_no_poll negativeRetriesConfig
           (worldWith [createdSeven; reply 100 200 [] (ready "XYZ")])
           createdSeven [reply 100 200 [] (ready "XYZ")]).
  - reflexivity.
  - vm_compute. discriminate.
  - vm_compute. discriminate.
Defined.

(** X3 on a sample run. *)
Lemma failing_polls_exhaust_retries_witness :
  exists w' : World,
    solveCaptcha sampleConfig failingPollsWorld =
      (Err (CaptchaAttemptsFailed (MaxCaptchaRetries sampleConfig)), w')
    /\ pollsIssued w' = (pollsIssued failingPollsWorld + 5)%nat
    /\ network w' = [reply 100 200 [] (ready "XYZ")]
    /\ clock w' = 200200000000.
Proof.
  destruct (failing_polls_exhaust_retries sampleConfig failingPollsWorld
              (reply 100 200 [] (created (JString "abc")))
              (firstn 5 (tl (network failingPollsWorld)))
              [reply 100 200 [] (ready "XYZ")])
    as [w' [Hrun [Hpolls [Hnet Hclock]]]].
  - reflexivity.
  - vm_compute. discriminate.
  - reflexivity.
  - repeat constructor.
  - exists w'. repeat split; assumption.
Defined.

(** X4 on a sample run. *)
Lemma ready_without_solution_returns_empty_token_witness :
  "" = ""
  /\ exists w' : World, solveCaptcha sampleConfig hollowReadyWorld = (Ok "", w').
Proof.
  apply (ready_without_solution_returns_empty_token sampleConfig
           hollowReadyWorld
           (reply 100 200 [] (created (JString "abc")))
           []
           (reply 100 200 []
                  (Document (JObject [("status", JString "ready")])))
           []
           {| StatusCode := 200; Cookies := [];
              Body := Document (JObject [("status", JString "ready")]) |}
           [("status", JString "ready")] "").
  - reflexivity.
  - vm_compute. discriminate.
  - vm_compute. lia.
  - reflexivity.
  - reflexivity.
  - reflexivity.
  - reflexivity.
  - vm_compute. reflexivity.
Defined.

(** X5 on a sample run. *)
Lemma solver_sleeps_before_each_poll_witness :
  10 * Second
  * (Z.of_nat (pollsIssued (snd (solveCaptcha sampleConfig scenarioWorld)))
     - Z.of_nat (pollsIssued scenarioWorld))
  <= clock (snd (solveCaptcha sampleConfig scenarioWorld))
     - clock scenarioWorld.
Proof.
  apply (solver_sleeps_before_each_poll sampleConfig scenarioWorld).
  repeat constructor; vm_compute; discriminate.
Defined.

(** X6 on a sample run. *)
Lemma unreadable_body_loses_the_answer_witness :
  submitPromoEntry anyURL sampleConfig "fan@example.com" "XYZ"
    (worldWith [reply 100 200 [{| Name := "cf_clearance"; Value := "CLR" |}]
                      Unreadable]) =
    (Err (Wrapped "error reading response body" BodyReadError),
     afterRoundTrip (primaryRequest sampleConfig "fan@example.com" "XYZ")
       (reply 100 200 [{| Name := "cf_clearance"; Value := "CLR" |}]
              Unreadable)
       (worldWith [reply 100 200
                         [{| Name := "cf_clearance"; Value := "CLR" |}]
                         Unreadable])).
Proof.
  apply (unreadable_body_loses_the_answer anyURL sampleConfig
           "fan@example.com" "XYZ" _ _ []
           {| StatusCode := 200;
              Cookies := [{| Name := "cf_clearance"; Value := "CLR" |}];
              Body := Unreadable |}).
  - reflexivity.
  - reflexivity.
  - reflexivity.
  - reflexivity.
Defined.

(** X7 on a sample run. *)
Lemma unparsable_url_sends_nothing_witness :
  exists e : error,
    submitPromoEntry noSpaceURL proxyConfig "fan@example.com" "XYZ"
      cycleWorld = (Err e, cycleWorld)
    /\ submitPromoEntryWithCookie noSpaceURL proxyConfig "fan@example.com"
         "XYZ" "CLR" cycleWorld = (Err e, cycleWorld)
    /\ (e = Wrapped "failed to parse proxy URL"
              (URLError (proxyURL proxyConfig))
        \/ e = URLError (MonsterSubmitURL proxyConfig)).
Proof.
  apply (unparsable_url_sends_nothing noSpaceURL proxyConfig
           "fan@example.com" "XYZ" "CLR" cycleWorld).
  vm_compute. reflexivity.
Defined.

(** X8 on a sample run. *)
Lemma random_alias_has_the_length_asked_for_witness :
  String.length "abcd019a9k" = 10%nat
  /\ Forall (fun c => In c (chars charset)) (chars "abcd019a9k")
  /\ exists draws : list nat,
       List.length draws = 10%nat
       /\ entropy (aliasWorld (tenDraws ++ [None]) []) =
          (map Some draws
           ++ entropy (snd (generateRandomAlias 10
                              (aliasWorld (tenDraws ++ [None]) []))))%list.
Proof.
  apply (random_alias_has_the_length_asked_for 10
           (aliasWorld (tenDraws ++ [None]) [])
           (snd (generateRandomAlias 10 (aliasWorld (tenDraws ++ [None]) [])))
           "abcd019a9k").
  vm_compute. reflexivity.
Defined.

(** X10 on a sample run. *)
Lemma created_alias_is_under_the_domain_witness :
  exists alias : string,
    "abcd019a9k@example.com" = alias ++ "@" ++ EmailDomain aliasConfig
    /\ String.length alias = 10%nat
    /\ Forall (fun c => In c (chars charset)) (chars alias)
    /\ issuedSince (aliasWorld tenDraws [reply 100 200 [] (Text "{}")])
         (snd (createCloudflareEmailAlias anyURL noFormat aliasConfig
                 (aliasWorld tenDraws [reply 100 200 [] (Text "{}")])))
       = [aliasRequest noFormat aliasConfig "abcd019a9k@example.com"
            (clock (aliasWorld tenDraws [reply 100 200 [] (Text "{}")]))]
    /\ In ("Authorization", "Bearer " ++ CloudflareAPIToken aliasConfig)
          (Header (aliasRequest noFormat aliasConfig "abcd019a9k@example.com"
                     (clock (aliasWorld tenDraws
                               [reply 100 200 [] (Text "{}")])))).
Proof.
  apply (created_alias_is_under_the_domain anyURL noFormat aliasConfig
           (aliasWorld tenDraws [reply 100 200 [] (Text "{}")])).
  vm_compute. reflexivity.
Defined.

(** X11 on a sample run. *)
Lemma alias_needs_status_200_witness :
  fst (createCloudflareEmailAlias anyURL noFormat aliasConfig
         (aliasWorld tenDraws [reply 100 201 [] (Text "made")]))
  = Err (AliasStatus 201 (Text "made")).
Proof.
  refine (proj2
            (alias_needs_status_200 anyURL noFormat aliasConfig
               (aliasWorld tenDraws [reply 100 201 [] (Text "made")])
               (reply 100 201 [] (Text "made")) []
               {| StatusCode := 201; Cookies := []; Body := Text "made" |}
               _ _ _ _) _).
  - vm_compute. lia.
  - reflexivity.
  - reflexivity.
  - reflexivity.
  - vm_compute. discriminate.
Defined.

(** X12 on a sample run. *)
Lemma failed_alias_aborts_cycle_witness :
  submitEntry anyURL noFormat aliasConfig
    (aliasWorld (firstn 4 tenDraws) goodCycle)
  = (Err (Wrapped "error creating email alias"
            (Wrapped "error generating random alias" EntropyError)),
     snd (createCloudflareEmailAlias anyURL noFormat aliasConfig
            (aliasWorld (firstn 4 tenDraws) goodCycle)))
  /\ submissionsLog
       (snd (createCloudflareEmailAlias anyURL noFormat aliasConfig
               (aliasWorld (firstn 4 tenDraws) goodCycle)))
     = submissionsLog (aliasWorld (firstn 4 tenDraws) goodCycle)
  /\ (issuedSince (aliasWorld (firstn 4 tenDraws) goodCycle)
        (snd (createCloudflareEmailAlias anyURL noFormat aliasConfig
                (aliasWorld (firstn 4 tenDraws) goodCycle))) = []
      \/ exists email : string,
           issuedSince (aliasWorld (firstn 4 tenDraws) goodCycle)
             (snd (createCloudflareEmailAlias anyURL noFormat aliasConfig
                     (aliasWorld (firstn 4 tenDraws) goodCycle)))
           = [aliasRequest noFormat aliasConfig email
                (clock (aliasWorld (firstn 4 tenDraws) goodCycle))]).
Proof.
  apply (failed_alias_aborts_cycle anyURL noFormat aliasConfig
           (aliasWorld (firstn 4 tenDraws) goodCycle)).
  - reflexivity.
  - vm_compute. reflexivity.
Defined.

(** X13 on a sample run. *)
Lemma failed_captcha_aborts_cycle_witness :
  submitEntry anyURL noFormat sampleConfig alwaysPendingWorld
  = (Err (Wrapped "error solving captcha" (CaptchaAttemptsFailed 5)),
     afterSolve alwaysPendingWorld)
  /\ submissionsLog (afterSolve alwaysPendingWorld)
     = submissionsLog alwaysPendingWorld
  /\ exists (id : TaskID) (k : nat),
       issuedSince (afterEmail alwaysPendingWorld)
         (afterSolve alwaysPendingWorld) =
       createRequest sampleConfig :: repeat (pollRequest sampleConfig id) k.
Proof.
  apply (failed_captcha_aborts_cycle anyURL noFormat sampleConfig
           alwaysPendingWorld (afterEmail alwaysPendingWorld)
           (afterSolve alwaysPendingWorld) "fan@example.com").
  - vm_compute. reflexivity.
  - vm_compute. reflexivity.
Defined.

(** X14 on a sample run. *)
Lemma no_clearance_no_additional_entry_witness :
  exists w4 : World,
    submitEntry anyURL noFormat sampleConfig plainWorld = (Ok tt, w4)
    /\ issuedSince (afterPrimary plainWorld) w4 = []
    /\ network w4 = network (afterPrimary plainWorld).
Proof.
  apply (no_clearance_no_additional_entry anyURL noFormat sampleConfig
           plainWorld (afterEmail plainWorld) (afterSolve plainWorld)
           (afterPrimary plainWorld) "fan@example.com" "XYZ").
  - vm_compute. reflexivity.
  - vm_compute. reflexivity.
  - vm_compute. reflexivity.
Defined.

(** X15 on a sample run. *)
Lemma successful_cycle_logs_once_witness :
  exists w4 : World,
    submitEntry anyURL noFormat sampleConfig cycleWorld = (Ok tt, w4)
    /\ submissionsLog w4 =
       match disk cycleWorld with
       | DiskOK =>
           (submissionsLog cycleWorld
            ++ [{| loggedAt := clock w4;
                   loggedEmail := "fan@example.com" |}])%list
       | _ => submissionsLog cycleWorld
       end.
Proof.
  apply (successful_cycle_logs_once anyURL noFormat sampleConfig cycleWorld
           (afterEmail cycleWorld) (afterSolve cycleWorld)
           (afterPrimary cycleWorld) "fan@example.com" "XYZ" "CLR").
  - vm_compute. reflexivity.
  - vm_compute. reflexivity.
  - vm_compute. reflexivity.
Defined.

(** X16 on a sample run. *)
Lemma validated_config_has_defaults_witness :
  MaxCaptchaRetries defaultedConfig <> 0
  /\ PrimFloat.eqb (CaptchaTimeout defaultedConfig) 0%float = false
  /\ (MaxCaptchaRetries rawConfig <> 0 ->
      MaxCaptchaRetries defaultedConfig = MaxCaptchaRetries rawConfig)
  /\ (MaxCaptchaRetries rawConfig = 0 -> MaxCaptchaRetries defaultedConfig = 5)
  /\ (PrimFloat.eqb (CaptchaTimeout rawConfig) 0%float = true ->
      CaptchaTimeout defaultedConfig = 120%float)
  /\ (PrimFloat.eqb (CaptchaTimeout rawConfig) 0%float = false ->
      CaptchaTimeout defaultedConfig = CaptchaTimeout rawConfig)
  /\ sameOtherSettings rawConfig defaultedConfig
  /\ validateConfig defaultedConfig = Some defaultedConfig.
Proof.
  apply (validated_config_has_defaults rawConfig defaultedConfig).
  vm_compute. reflexivity.
Defined.

(** X18 on a sample run. *)
Lemma interactive_mode_needs_confirmation_witness :
  interactiveMode anyURL noFormat sampleConfig 1
    (typedWorld ["yes"; "y"] goodCycle)
  = Some (answered (typedWorld ["yes"; "y"] goodCycle))
  /\ requests (answered (typedWorld ["yes"; "y"] goodCycle))
     = requests (typedWorld ["yes"; "y"] goodCycle)
  /\ submissionsLog (answered (typedWorld ["yes"; "y"] goodCycle))
     = submissionsLog (typedWorld ["yes"; "y"] goodCycle)
  /\ network (answered (typedWorld ["yes"; "y"] goodCycle))
     = network (typedWorld ["yes"; "y"] goodCycle).
Proof.
  apply (interactive_mode_needs_confirmation anyURL noFormat sampleConfig 0
           (typedWorld ["yes"; "y"] goodCycle)).
  intros rest. split; vm_compute; discriminate.
Defined.

(** X19 on a sample run. *)
Lemma interactive_mode_runs_one_cycle_witness :
  interactiveMode anyURL noFormat sampleConfig 1 oneCycleWorld
  = Some (answered
            (snd (submitEntry anyURL noFormat sampleConfig
                    (popStdin oneCycleWorld)))).
Proof.
  apply (interactive_mode_runs_one_cycle anyURL noFormat sampleConfig 0
           oneCycleWorld "Y" ["fan@example.com"; "no"; "y"]).
  - reflexivity.
  - right. reflexivity.
  - intros rest. split; vm_compute; discriminate.
Defined.

(** X21 on a sample run. *)
Lemma first_integer_line_is_returned_witness :
  exists w' : World,
    getUserInputInt "Enter delay between submissions (in seconds): " 3
      automaticWorld = Some (2, w')
    /\ stdin w' = ["a@example.com"; "b@example.com"; "c@example.com"]
    /\ requests w' = requests automaticWorld
    /\ network w' = network automaticWorld
    /\ clock w' = clock automaticWorld.
Proof.
  apply (first_integer_line_is_returned _ ["soon"; "2s"] 3 automaticWorld "2").
  - reflexivity.
  - repeat constructor.
  - reflexivity.
  - vm_compute. lia.
Defined.

(** X22 on a sample run. *)
Lemma no_integer_line_never_returns_witness :
  getUserInputInt "Enter delay between submissions (in seconds): " 50
    (typedWorld ["soon"; "2s"; "1.5"; "+"] []) = None.
Proof.
  apply (no_integer_line_never_returns _ 50
           (typedWorld ["soon"; "2s"; "1.5"; "+"] [])).
  repeat constructor.
Defined.

(** X23 on a sample run. *)
Lemma automatic_mode_counts_every_cycle_witness :
  totalCount {| successCount := 1; totalCount := 3 |} = Z.of_nat 3
  /\ 0 <= successCount {| successCount := 1; totalCount := 3 |}
     <= totalCount {| successCount := 1; totalCount := 3 |}.
Proof.
  apply (automatic_mode_counts_every_cycle anyURL noFormat sampleConfig 3 3
           automaticWorld
           (snd (automaticLoop anyURL noFormat sampleConfig 2 3
                   {| successCount := 0; totalCount := 0 |}
                   (popStdin (popStdin (popStdin automaticWorld)))))).
  vm_compute. reflexivity.
Defined.
